(** * ou_results_scrapper: a shallow embedding of [app.py] and [json_to_excel.py]

    The development follows the two source files.

    - [Py]: the Python data the program manipulates: text as sequences of
      code points, insertion-ordered dictionaries, exceptions.
    - [Json]: [json.dumps(..., ensure_ascii=False)] and [json.loads].
    - [Bs4]: the part of BeautifulSoup's tree interface that [fetch_result]
      uses ([find(id=...)], [find_all(name)], [get_text(strip=True)]).
    - [Pandas]: the DataFrame operations of the report builder.
    - [App]: [app.py] ([fetch_result], [worker], [append_result], the final
      conversion of [main]).
    - [JsonToExcel]: [json_to_excel.py] ([load_items], [items_to_excel]).

    Theorems about the program come after the definitions. *)

From Stdlib Require Import List NArith ZArith Bool String Ascii Lia.
From Stdlib Require Import Permutation Sorted.
From Stdlib Require Import DecimalString DecimalZ DecimalPos.
Import ListNotations.

Set Warnings "-register-all".

Open Scope string_scope.
Open Scope list_scope.
Open Scope N_scope.

(* ================================================================= *)
(** ** Python values *)

Module Py.

(** A Python [str] is a sequence of Unicode code points. *)
Definition str := list N.

(** A string literal of the source, as a [str]. *)
Definition lit (s : string) : str :=
  List.map N_of_ascii (list_ascii_of_string s).

Fixpoint str_eqb (a b : str) : bool :=
  match a, b with
  | [], [] => true
  | x :: a', y :: b' => (x =? y) && str_eqb a' b'
  | _, _ => false
  end.

(** [a < b] on [str]: lexicographic on code points. *)
Fixpoint str_ltb (a b : str) : bool :=
  match a, b with
  | _, [] => false
  | [], _ :: _ => true
  | x :: a', y :: b' => (x <? y) || ((x =? y) && str_ltb a' b')
  end.

Definition str_leb (a b : str) : bool := negb (str_ltb b a).

(** [p] is a prefix of [s]: [s.startswith(p)]. *)
Fixpoint startswith (s p : str) {struct p} : bool :=
  match p, s with
  | [], _ => true
  | x :: p', y :: s' => (x =? y) && startswith s' p'
  | _ :: _, [] => false
  end.

(** [p in s] for two strings. *)
Fixpoint contains (s p : str) : bool :=
  startswith s p ||
  match s with
  | [] => false
  | _ :: s' => contains s' p
  end.

(** [str.isspace] on one code point: the characters [str.strip] removes. *)
Definition isspace (c : N) : bool :=
  ((9 <=? c) && (c <=? 13)) || ((28 <=? c) && (c <=? 32)) ||
  (c =? 133) || (c =? 160) || (c =? 5760) ||
  ((8192 <=? c) && (c <=? 8202)) || (c =? 8232) || (c =? 8233) ||
  (c =? 8239) || (c =? 8287) || (c =? 12288).

Fixpoint lstrip (s : str) : str :=
  match s with
  | c :: s' => if isspace c then lstrip s' else s
  | [] => []
  end.

Definition rstrip (s : str) : str := rev (lstrip (rev s)).

Definition strip (s : str) : str := rstrip (lstrip s).

(** An insertion-ordered [dict] with [str] keys. *)
Definition dict (V : Type) := list (str * V).

Fixpoint dict_get {V} (d : dict V) (k : str) : option V :=
  match d with
  | [] => None
  | (k', v) :: d' => if str_eqb k' k then Some v else dict_get d' k
  end.

(** [d[k] = v]: an existing key keeps its position, a new key goes last. *)
Fixpoint dict_set {V} (d : dict V) (k : str) (v : V) : dict V :=
  match d with
  | [] => [(k, v)]
  | (k', v') :: d' =>
      if str_eqb k' k then (k', v) :: d' else (k', v') :: dict_set d' k v
  end.

Definition keys {V} (d : dict V) : list str := List.map fst d.

(** [k in l] for a list of strings. *)
Definition mem (k : str) (l : list str) : bool := existsb (str_eqb k) l.

(** Text files.  A file opened in text mode translates [\r\n] and [\r] to
    [\n] on reading (universal newlines). *)
Fixpoint universal_newlines (s : str) : str :=
  match s with
  | [] => []
  | c :: s' =>
      if c =? 13 then
        match s' with
        | 10 :: s'' => 10 :: universal_newlines s''
        | _ => 10 :: universal_newlines s'
        end
      else c :: universal_newlines s'
  end.

(** [for line in f]: the lines of the translated text, each with its line
    feed; the last one may lack it. *)
Fixpoint readlines (s : str) : list str :=
  match s with
  | [] => []
  | c :: s' =>
      if c =? 10 then [10] :: readlines s'
      else
        match readlines s' with
        | [] => [[c]]
        | l :: ls => (c :: l) :: ls
        end
  end.

(** Writing to a file opened with [encoding="utf-8"]: a surrogate code
    point (U+D800 to U+DFFF) has no UTF-8 encoding, and [f.write] of a text
    that holds one raises [UnicodeEncodeError] and writes nothing of it. *)
Definition utf8_encodable (s : str) : bool :=
  forallb (fun c => negb ((55296 <=? c) && (c <=? 57343))) s.

(** The line boundaries of [str.splitlines]: [\n], [\r], [\v], [\f], the
    separators 0x1c-0x1e, NEL (0x85), and the Unicode line and paragraph
    separators (0x2028, 0x2029).  [\r\n] is one boundary. *)
Definition is_linebreak (c : N) : bool :=
  (c =? 10) || (c =? 13) || (c =? 11) || (c =? 12) ||
  (c =? 28) || (c =? 29) || (c =? 30) || (c =? 133) ||
  (c =? 8232) || (c =? 8233).

(** [s.splitlines()]: the lines without their boundaries. *)
Fixpoint splitlines (s : str) : list str :=
  match s with
  | [] => []
  | c :: s' =>
      if is_linebreak c then
        if c =? 13 then
          match s' with
          | 10 :: s'' => [] :: splitlines s''
          | _ => [] :: splitlines s'
          end
        else [] :: splitlines s'
      else
        match splitlines s' with
        | [] => [[c]]
        | l :: ls => (c :: l) :: ls
        end
  end.

(** Exceptions, all of them subclasses of [Exception]. *)
Inductive exn :=
| IndexError
| KeyError (k : str)
| AttributeError
| TypeError
| ValueError
| UnicodeEncodeError
| ParserRejectedMarkup
| RequestException (msg : str).

(** The outcome of a computation that may raise. *)
Inductive outcome (A : Type) :=
| Return (a : A)
| Raise (e : exn).
Arguments Return {A} a.
Arguments Raise {A} e.

Definition bind {A B} (m : outcome A) (f : A -> outcome B) : outcome B :=
  match m with
  | Return a => f a
  | Raise e => Raise e
  end.

(** [try: m  except Exception: h]. *)
Definition try_except {A} (m : outcome A) (h : exn -> outcome A) : outcome A :=
  match m with
  | Return a => Return a
  | Raise e => h e
  end.

(** [l[i]] for a non-negative constant index. *)
Definition getitem {A} (l : list A) (i : nat) : outcome A :=
  match nth_error l i with
  | Some x => Return x
  | None => Raise IndexError
  end.

(** The records of the program.  A cell is a string or [None]; a record is a
    dict whose values are dicts of cells, lists of dicts of cells, or cells:
    the three cases [flatten_top] tells apart with [isinstance]. *)
Definition cell := option str.

Inductive value :=
| VDict (d : dict cell)
| VList (l : list (dict cell))
| VScalar (c : cell).

Definition item := dict value.

End Py.

Notation "x <- m ;; k" := (Py.bind m (fun x => k))
  (at level 61, m at next level, right associativity).

(* ================================================================= *)
(** ** JSON text: [json.dumps(obj, ensure_ascii=False)] *)

Module Json.
Import Py.

(** What [json.loads] can return.  A number keeps its lexeme. *)
Inductive json :=
| JNull
| JBool (b : bool)
| JNum (lexeme : str)
| JStr (s : str)
| JList (l : list json)
| JDict (d : list (str * json)).

(** One lower-case hexadecimal digit. *)
Definition hex_digit (n : N) : N := if n <? 10 then 48 + n else 87 + n.

(** [ESCAPE_DCT] of the [json.encoder] module: the quote, the backslash and
    the code points below 0x20 are escaped, every other code point is
    written as it is. *)
Definition escape_char (c : N) : str :=
  if c =? 34 then [92; 34]
  else if c =? 92 then [92; 92]
  else if c =? 10 then [92; 110]
  else if c =? 13 then [92; 114]
  else if c =? 9 then [92; 116]
  else if c =? 8 then [92; 98]
  else if c =? 12 then [92; 102]
  else if c <? 32 then [92; 117; 48; 48; hex_digit (c / 16); hex_digit (c mod 16)]
  else [c].

Definition encode_str (s : str) : str :=
  [34] ++ flat_map escape_char s ++ [34].

(** [sep.join(parts)]. *)
Fixpoint join (sep : str) (parts : list str) : str :=
  match parts with
  | [] => []
  | [p] => p
  | p :: ps => p ++ sep ++ join sep ps
  end.

(** [json.dumps(obj, ensure_ascii=False)] with the default separators.
    The encoder raises [RecursionError] on a value nested deeper than the
    interpreter's recursion limit; this is not modelled.  The records of
    the program nest three containers deep (see [item_json] below), far
    from any such limit, and [dumps] is applied to nothing else but lists
    of them. *)
Fixpoint dumps (j : json) : str :=
  match j with
  | JNull => lit "null"
  | JBool true => lit "true"
  | JBool false => lit "false"
  | JNum n => n
  | JStr s => encode_str s
  | JList l => [91] ++ join (lit ", ") (List.map dumps l) ++ [93]
  | JDict d =>
      [123] ++
      join (lit ", ")
        (List.map (fun kv => encode_str (fst kv) ++ lit ": " ++ dumps (snd kv)) d)
      ++ [125]
  end.

(** The records of the program as JSON values. *)
Definition cell_json (c : cell) : json :=
  match c with
  | None => JNull
  | Some s => JStr s
  end.

Definition dict_json (d : dict cell) : json :=
  JDict (List.map (fun kv => (fst kv, cell_json (snd kv))) d).

Definition value_json (v : value) : json :=
  match v with
  | VDict d => dict_json d
  | VList l => JList (List.map dict_json l)
  | VScalar c => cell_json c
  end.

Definition item_json (it : item) : json :=
  JDict (List.map (fun kv => (fst kv, value_json (snd kv))) it).

(** *** [json.loads]

    The scanner of the [json] module (strict mode, the C scanner's ASCII
    digits).  The interpreter's recursion limit is not modelled. *)

(** [WHITESPACE] of [json.decoder]: space, tab, line feed, carriage return. *)
Definition is_json_ws (c : N) : bool :=
  (c =? 32) || (c =? 9) || (c =? 10) || (c =? 13).

Fixpoint skip_ws (s : str) : str :=
  match s with
  | c :: s' => if is_json_ws c then skip_ws s' else s
  | [] => []
  end.

Definition is_digit (c : N) : bool := (48 <=? c) && (c <=? 57).

Definition hex_value (c : N) : option N :=
  if is_digit c then Some (c - 48)
  else if (97 <=? c) && (c <=? 102) then Some (c - 87)
  else if (65 <=? c) && (c <=? 70) then Some (c - 55)
  else None.

(** The four hexadecimal digits of a [\uXXXX] escape. *)
Definition decode_uXXXX (a b c d : N) : option N :=
  match hex_value a, hex_value b, hex_value c, hex_value d with
  | Some x, Some y, Some z, Some w => Some (((x * 16 + y) * 16 + z) * 16 + w)
  | _, _, _, _ => None
  end.

(** [BACKSLASH] of [json.decoder]: the one-letter escapes. *)
Definition backslash (c : N) : option N :=
  if c =? 34 then Some 34
  else if c =? 92 then Some 92
  else if c =? 47 then Some 47
  else if c =? 98 then Some 8
  else if c =? 102 then Some 12
  else if c =? 110 then Some 10
  else if c =? 114 then Some 13
  else if c =? 116 then Some 9
  else None.

(** [scanstring], entered after the opening quote: the decoded string and
    the text after the closing quote. *)
Fixpoint scanstring (s : str) : option (str * str) :=
  match s with
  | [] => None
  | c :: s' =>
      if c =? 34 then Some ([], s')
      else if c =? 92 then
        match s' with
        | [] => None
        | e :: s'' =>
            if e =? 117 then
              match s'' with
              | a :: b :: c' :: d :: r =>
                  match decode_uXXXX a b c' d with
                  | None => None
                  | Some uni =>
                      let single :=
                        match scanstring r with
                        | Some (t, r') => Some (uni :: t, r')
                        | None => None
                        end in
                      if (55296 <=? uni) && (uni <=? 56319) then
                        match r with
                        | 92 :: 117 :: a2 :: b2 :: c2 :: d2 :: r2 =>
                            match decode_uXXXX a2 b2 c2 d2 with
                            | Some uni2 =>
                                if (56320 <=? uni2) && (uni2 <=? 57343) then
                                  match scanstring r2 with
                                  | Some (t, r') =>
                                      Some (65536 + ((uni - 55296) * 1024 + (uni2 - 56320)) :: t, r')
                                  | None => None
                                  end
                                else single
                            | None => single
                            end
                        | _ => single
                        end
                      else single
                  end
              | _ => None
              end
            else
              match backslash e with
              | Some x =>
                  match scanstring s'' with
                  | Some (t, r') => Some (x :: t, r')
                  | None => None
                  end
              | None => None
              end
        end
      else if c <? 32 then None
      else
        match scanstring s' with
        | Some (t, r') => Some (c :: t, r')
        | None => None
        end
  end.

(** The longest run of digits at the head of [s]. *)
Fixpoint span_digits (s : str) : str * str :=
  match s with
  | c :: s' =>
      if is_digit c then let (d, r) := span_digits s' in (c :: d, r)
      else ([], s)
  | [] => ([], [])
  end.

(** [NUMBER_RE]: an optional minus sign, then a zero or a digit string that
    does not start with zero, then an optional fraction (a dot and digits)
    and an optional exponent (e or E, an optional sign, digits). *)
Definition match_integer (s : str) : option (str * str) :=
  match s with
  | c :: s' =>
      if c =? 48 then Some ([48], s')
      else if is_digit c then let (d, r) := span_digits s' in Some (c :: d, r)
      else None
  | [] => None
  end.

Definition match_frac (s : str) : str * str :=
  match s with
  | 46 :: s' =>
      match span_digits s' with
      | ([], _) => ([], s)
      | (d, r) => (46 :: d, r)
      end
  | _ => ([], s)
  end.

Definition match_exp (s : str) : str * str :=
  match s with
  | e :: s' =>
      if (e =? 101) || (e =? 69) then
        match s' with
        | sg :: s'' =>
            if (sg =? 45) || (sg =? 43) then
              match span_digits s'' with
              | ([], _) => ([], s)
              | (d, r) => (e :: sg :: d, r)
              end
            else
              match span_digits s' with
              | ([], _) => ([], s)
              | (d, r) => (e :: d, r)
              end
        | [] => ([], s)
        end
      else ([], s)
  | [] => ([], s)
  end.

Definition match_number (s : str) : option (str * str) :=
  let (sign, s1) :=
    match s with
    | 45 :: s' => ([45], s')
    | _ => ([], s)
    end in
  match match_integer s1 with
  | None => None
  | Some (i, s2) =>
      let (f, s3) := match_frac s2 in
      let (e, s4) := match_exp s3 in
      Some (sign ++ i ++ f ++ e, s4)
  end.

(** [s] without the prefix [p], when it starts with it. *)
Fixpoint strip_prefix (p s : str) : option str :=
  match p, s with
  | [], _ => Some s
  | x :: p', y :: s' => if x =? y then strip_prefix p' s' else None
  | _ :: _, [] => None
  end.

Definition constant (word : string) (v : json) (s : str) : option (json * str) :=
  match strip_prefix (lit word) s with
  | Some r => Some (v, r)
  | None => None
  end.

(** [dict(pairs)]: a repeated key keeps its first position and its last
    value. *)
Definition dict_of_pairs (pairs : list (str * json)) : list (str * json) :=
  fold_left (fun d kv => dict_set d (fst kv) (snd kv)) pairs [].

(** [scan_once], [JSONObject] and [JSONArray].  The two loops are entered
    where a key, or an element, is expected. *)
Fixpoint scan_once (fuel : nat) (s : str) : option (json * str) :=
  match fuel with
  | O => None
  | S fuel' =>
      match s with
      | [] => None
      | c :: s' =>
          if c =? 34 then
            match scanstring s' with
            | Some (x, r) => Some (JStr x, r)
            | None => None
            end
          else if c =? 123 then
            match skip_ws s' with
            | 125 :: r => Some (JDict [], r)
            | r => object_loop fuel' [] r
            end
          else if c =? 91 then
            match skip_ws s' with
            | 93 :: r => Some (JList [], r)
            | r => array_loop fuel' [] r
            end
          else if c =? 110 then constant "null" JNull s
          else if c =? 116 then constant "true" (JBool true) s
          else if c =? 102 then constant "false" (JBool false) s
          else
            match match_number s with
            | Some (n, r) => Some (JNum n, r)
            | None =>
                if c =? 78 then constant "NaN" (JNum (lit "NaN")) s
                else if c =? 73 then constant "Infinity" (JNum (lit "Infinity")) s
                else if c =? 45 then constant "-Infinity" (JNum (lit "-Infinity")) s
                else None
            end
      end
  end
with object_loop (fuel : nat) (pairs : list (str * json)) (s : str)
  : option (json * str) :=
  match fuel with
  | O => None
  | S fuel' =>
      match s with
      | 34 :: s1 =>
          match scanstring s1 with
          | None => None
          | Some (key, s2) =>
              match skip_ws s2 with
              | 58 :: s3 =>
                  match scan_once fuel' (skip_ws s3) with
                  | None => None
                  | Some (v, s4) =>
                      match skip_ws s4 with
                      | 125 :: r => Some (JDict (dict_of_pairs (pairs ++ [(key, v)])), r)
                      | 44 :: s5 => object_loop fuel' (pairs ++ [(key, v)]) (skip_ws s5)
                      | _ => None
                      end
                  end
              | _ => None
              end
          end
      | _ => None
      end
  end
with array_loop (fuel : nat) (values : list json) (s : str)
  : option (json * str) :=
  match fuel with
  | O => None
  | S fuel' =>
      match scan_once fuel' s with
      | None => None
      | Some (v, s1) =>
          match skip_ws s1 with
          | 93 :: r => Some (JList (values ++ [v]), r)
          | 44 :: s2 => array_loop fuel' (values ++ [v]) (skip_ws s2)
          | _ => None
          end
      end
  end.

(** [json.loads(s)]: a leading byte-order mark, a missing value and text
    after the value all raise [JSONDecodeError], a [ValueError].
    The decoder's two resource limits are not modelled: the
    [RecursionError] on containers nested deeper than the interpreter's
    recursion limit, and the [ValueError] of [int] on an integer literal
    of more than 4300 digits.  Both readers of the staging file catch
    every [Exception] of a line and skip it, and the lines the program
    writes nest three containers deep and hold no number. *)
Definition loads (s : str) : outcome json :=
  match s with
  | 65279 :: _ => Raise ValueError
  | _ =>
      match scan_once (2 * List.length s + 2) (skip_ws s) with
      | Some (v, r) =>
          match skip_ws r with
          | [] => Return v
          | _ :: _ => Raise ValueError
          end
      | None => Raise ValueError
      end
  end.

End Json.

(* ================================================================= *)
(** ** The BeautifulSoup tree *)

Module Bs4.
Import Py.

(** A parsed document: text nodes and elements with attributes. *)
Inductive Tag :=
| NavigableString (s : str)
| Element (name : str) (attrs : dict str) (contents : list Tag).

(** The nodes below [t], in document order. *)
Fixpoint descendants (t : Tag) : list Tag :=
  match t with
  | NavigableString _ => []
  | Element _ _ cs => flat_map (fun c => c :: descendants c) cs
  end.

Definition is_named (name : str) (t : Tag) : bool :=
  match t with
  | NavigableString _ => false
  | Element n _ _ => str_eqb n name
  end.

Definition has_id (i : str) (t : Tag) : bool :=
  match t with
  | NavigableString _ => false
  | Element _ attrs _ =>
      match dict_get attrs (lit "id") with
      | Some v => str_eqb v i
      | None => false
      end
  end.

(** [t.find_all(name)]. *)
Definition find_all (name : str) (t : Tag) : list Tag :=
  filter (is_named name) (descendants t).

(** [soup.find(id=i)]: the first element with that id, or [None]. *)
Definition find_id (i : str) (soup : Tag) : option Tag :=
  find (has_id i) (descendants soup).

(** The text nodes below [t], in document order. *)
Definition strings (t : Tag) : list str :=
  flat_map (fun d => match d with NavigableString s => [s] | _ => [] end)
    (descendants t).

(** [t.get_text(strip=True)]: every text node stripped, the empty ones
    dropped, the rest concatenated. *)
Definition get_text_strip (t : Tag) : str :=
  List.concat
    (filter (fun s => negb (Nat.eqb (List.length s) 0))
       (List.map strip (strings t))).

End Bs4.

(* ================================================================= *)
(** ** The DataFrame operations of the report builder

    A frame is its column labels and its rows, each row one cell per
    column.  A cell is a string or missing ([None] and [NaN] alike); the
    frames of the program hold nothing else.  A merge can give two columns
    one label; [reindex] refuses such a frame.  Where pandas leaves the
    order of equal keys open (sorting, [value_counts]) the model keeps the
    order of appearance. *)

Module Pandas.
Import Py.

Record DataFrame := mkDF {
  columns : list str;
  rows : list (list cell)
}.

Definition cell_eqb (a b : cell) : bool :=
  match a, b with
  | None, None => true
  | Some x, Some y => str_eqb x y
  | _, _ => false
  end.

(** [d.get(k)] when the values are cells: a missing key reads as [None]. *)
Definition rec_get (d : dict cell) (k : str) : cell :=
  match dict_get d k with
  | Some v => v
  | None => None
  end.

(** The cell of [row] under the column [c]. *)
Definition row_get (cols : list str) (row : list cell) (c : str) : cell :=
  rec_get (combine cols row) c.

(** The strings of [l] in order of first appearance. *)
Definition add_new (acc : list str) (k : str) : list str :=
  if mem k acc then acc else acc ++ [k].

Definition uniq (l : list str) : list str := fold_left add_new l [].

(** [pd.DataFrame(records)] for a list of dicts: the columns are the keys
    in order of first appearance, a key a record lacks is missing. *)
Definition DataFrame_of_records (records : list (dict cell)) : DataFrame :=
  let cols := fold_left (fun acc r => fold_left add_new (keys r) acc) records [] in
  mkDF cols (List.map (fun r => List.map (rec_get r) cols) records).

(** [pd.DataFrame(columns=cols)]. *)
Definition DataFrame_of_columns (cols : list str) : DataFrame := mkDF cols [].

(** [pd.DataFrame({name: values})]. *)
Definition DataFrame_of_column (name : str) (values : list cell) : DataFrame :=
  mkDF [name] (List.map (fun v => [v]) values).

(** [df.empty]: no row or no column. *)
Definition empty (df : DataFrame) : bool :=
  match columns df, rows df with
  | _ :: _, _ :: _ => false
  | _, _ => true
  end.

(** [df[c]]. *)
Definition column (df : DataFrame) (c : str) : list cell :=
  List.map (fun r => row_get (columns df) r c) (rows df).

(** [index.is_unique]: no label occurs twice. *)
Fixpoint is_unique (l : list str) : bool :=
  match l with
  | [] => true
  | k :: l' => negb (mem k l') && is_unique l'
  end.

(** [index.equals(other)]. *)
Fixpoint labels_eqb (a b : list str) : bool :=
  match a, b with
  | [], [] => true
  | x :: a', y :: b' => str_eqb x y && labels_eqb a' b'
  | _, _ => false
  end.

(** The columns [cols] of [df], each read under its label; a label the
    frame lacks gives a column of missing cells. *)
Definition select_columns (df : DataFrame) (cols : list str) : DataFrame :=
  mkDF cols (List.map (fun r => List.map (row_get (columns df) r) cols) (rows df)).

(** [df.reindex(columns=cols)]: a frame whose labels are distinct gives
    the columns asked for; a frame with a label twice is returned as it is
    when [cols] are its own labels, and is a [ValueError] (cannot reindex on
    an axis with duplicate labels) otherwise. *)
Definition reindex (df : DataFrame) (cols : list str) : outcome DataFrame :=
  if is_unique (columns df) then Return (select_columns df cols)
  else if labels_eqb (columns df) cols then Return df
  else Raise ValueError.

(** [df.drop(columns=[c])] on a frame that has the label: every column
    labelled [c] goes, with its cells. *)
Fixpoint drop_cells (c : str) (cols : list str) (row : list cell) : list cell :=
  match cols, row with
  | k :: cols', x :: row' =>
      if str_eqb k c then drop_cells c cols' row' else x :: drop_cells c cols' row'
  | _, _ => row
  end.

Definition drop_column (df : DataFrame) (c : str) : DataFrame :=
  mkDF (filter (fun k => negb (str_eqb k c)) (columns df))
       (List.map (drop_cells c (columns df)) (rows df)).

(** [df.fillna(v)]. *)
Definition fillna (df : DataFrame) (v : str) : DataFrame :=
  mkDF (columns df)
       (List.map (List.map (fun c => match c with None => Some v | _ => c end))
          (rows df)).

(** [df[c] = v] for a new column [c] and a scalar [v]. *)
Definition add_column (df : DataFrame) (c : str) (v : cell) : DataFrame :=
  mkDF (columns df ++ [c]) (List.map (fun r => r ++ [v]) (rows df)).

(** A stable insertion sort. *)
Fixpoint insert {A} (leb : A -> A -> bool) (x : A) (l : list A) : list A :=
  match l with
  | [] => [x]
  | y :: l' => if leb x y then x :: l else y :: insert leb x l'
  end.

Fixpoint isort {A} (leb : A -> A -> bool) (l : list A) : list A :=
  match l with
  | [] => []
  | x :: l' => insert leb x (isort leb l')
  end.

(** [sorted(l)] for a list of strings. *)
Definition sorted (l : list str) : list str := isort str_leb l.

(** [count] of a string in a list. *)
Definition count (x : str) (l : list str) : nat :=
  List.length (filter (str_eqb x) l).

(** The present values of a column. *)
Definition present (l : list cell) : list str :=
  flat_map (fun c => match c with Some x => [x] | None => [] end) l.

(** [list(series.value_counts().index)]: the distinct present values, the
    most frequent first. *)
Definition value_counts_index (series : list cell) : list str :=
  let vals := present series in
  isort (fun a b => Nat.leb (count b vals) (count a vals)) (uniq vals).

(** The result of [pivot_table]: the index labels, the column labels and
    one row of cells per index label. *)
Record Pivot := mkPivot {
  index_name : str;
  index : list str;
  pcolumns : list str;
  pvalues : list (list cell)
}.

(** The rows that count for a pivot: index, column and value all present. *)
Definition triples (df : DataFrame) (idx col val : str)
  : list (str * str * str) :=
  flat_map
    (fun r =>
       match row_get (columns df) r idx,
             row_get (columns df) r col,
             row_get (columns df) r val with
       | Some i, Some c, Some v => [(i, c, v)]
       | _, _, _ => []
       end)
    (rows df).

(** [aggfunc="first"]: the first value of the group [(i, c)]. *)
Fixpoint first_value (i c : str) (ts : list (str * str * str)) : cell :=
  match ts with
  | [] => None
  | (i', c', v) :: ts' =>
      if str_eqb i' i && str_eqb c' c then Some v else first_value i c ts'
  end.

(** [df.pivot_table(index=idx, columns=col, values=val, aggfunc="first")]:
    index and columns are the sorted distinct keys. *)
Definition pivot_table (df : DataFrame) (idx col val : str) : Pivot :=
  let ts := triples df idx col val in
  let ix := sorted (uniq (List.map (fun t => fst (fst t)) ts)) in
  let cs := sorted (uniq (List.map (fun t => snd (fst t)) ts)) in
  mkPivot idx ix cs
    (List.map (fun i => List.map (fun c => first_value i c ts) cs) ix).

(** [p.columns = [f(c) for c in p.columns]]. *)
Definition rename_columns (f : str -> str) (p : Pivot) : Pivot :=
  mkPivot (index_name p) (index p) (List.map f (pcolumns p)) (pvalues p).

(** [p.reset_index()]: the index becomes the first column; a column of
    that name already there is a [ValueError]. *)
Definition reset_index (p : Pivot) : outcome DataFrame :=
  if mem (index_name p) (pcolumns p) then Raise ValueError
  else
    Return (mkDF (index_name p :: pcolumns p)
              (List.map (fun iv => Some (fst iv) :: snd iv)
                 (combine (index p) (pvalues p)))).

(** [df.rename(columns=f)]. *)
Definition rename (f : str -> str) (df : DataFrame) : DataFrame :=
  mkDF (List.map f (columns df)) (rows df).

(** [left.merge(right, on=key, how="left")]: every row of [left], in order,
    joined with the rows of [right] that have its key, or with missing
    cells when there is none.  A column name on both sides, other than the
    key, gets the suffixes [_x] and [_y]. *)
Definition merge_left (left right : DataFrame) (key : str) : DataFrame :=
  let rcols := filter (fun c => negb (str_eqb c key)) (columns right) in
  let lother := filter (fun c => negb (str_eqb c key)) (columns left) in
  let lname c := if mem c rcols then c ++ lit "_x" else c in
  let rname c := if mem c lother then c ++ lit "_y" else c in
  mkDF (List.map lname (columns left) ++ List.map rname rcols)
    (flat_map
       (fun lr =>
          let k := row_get (columns left) lr key in
          match filter (fun rr => cell_eqb (row_get (columns right) rr key) k)
                  (rows right) with
          | [] => [lr ++ List.map (fun _ => None) rcols]
          | ms => List.map (fun rr => lr ++ List.map (row_get (columns right) rr) rcols) ms
          end)
       (rows left)).

(** Order on sort keys: a missing key goes last. *)
Definition key_leb {K} (leb : K -> K -> bool) (a b : option K) : bool :=
  match a, b with
  | Some x, Some y => leb x y
  | Some _, None => true
  | None, Some _ => false
  | None, None => true
  end.

(** [df.sort_values(c)] on a column of strings. *)
Definition sort_values (df : DataFrame) (c : str) : outcome DataFrame :=
  if mem c (columns df) then
    Return (mkDF (columns df)
              (isort (fun r1 r2 =>
                        key_leb str_leb (row_get (columns df) r1 c)
                                        (row_get (columns df) r2 c))
                 (rows df)))
  else Raise (KeyError c).

(** A workbook: its sheets in the order they were written, each written
    with [to_excel(writer, sheet_name=..., index=False)]. *)
Definition Workbook := list (str * DataFrame).

Definition to_excel (wb : Workbook) (df : DataFrame) (sheet_name : str) : Workbook :=
  wb ++ [(sheet_name, df)].

End Pandas.

(* ================================================================= *)
(** ** [app.py]: fetching, parsing and the staging log *)

Module App.
Import Py Json Bs4.

(** What the operator sees on the console. *)
Inductive message :=
| Fetching (htno : str)
| Saved (htno : str)
| NoResultSaved (htno : str)
| Error (htno : str) (e : exn).

(** The state the workers share: the text of the staging file
    ([NDJSON_FILE]), the in-memory list [results], the event that wakes the
    spreadsheet refresher, and the console. *)
Record state := mkState {
  ndjson : str;
  results : list item;
  auto_excel_event : bool;
  console : list message
}.

(** [clear_old_results]: the staging file is truncated. *)
Definition clear_old_results (st : state) : state :=
  mkState [] (results st) (auto_excel_event st) (console st).

(** [print]: standard output is taken to be a stream that can write every
    message (a UTF-8 console); on a console whose encoding lacks the marks
    of the messages [print] itself would raise. *)
Definition print (m : message) (st : state) : state :=
  mkState (ndjson st) (results st) (auto_excel_event st) (console st ++ [m]).

Definition results_append (data : item) (st : state) : state :=
  mkState (ndjson st) (results st ++ [data]) (auto_excel_event st) (console st).

Section Run.

(** The environment of a run: the HTTP exchange of [session.post] (the text
    of the response, or the exception the request raised), the HTML parser
    behind [BeautifulSoup(text, "html.parser")] (the tree, or the exception
    the constructor raises on markup the parser rejects), and the
    [AUTO_EXCEL] switch. *)
Variable session_post : str -> outcome str.
Variable BeautifulSoup : str -> outcome Tag.
Variable AUTO_EXCEL : bool.

(** [append_result]: one JSON object and a line feed are appended to the
    staging file, which is opened with [encoding="utf-8"]: a text that
    cannot be encoded raises in [f.write] and nothing is appended.  A
    failing [os.fsync] is swallowed by the source and leaves no trace
    here.  The event is set after the write.  The file system is taken to
    work: opening, writing and flushing raise nothing else. *)
Definition append_result (data : item) (st : state) : outcome state :=
  let text := dumps (item_json data) ++ [10] in
  if utf8_encodable text then
    Return (mkState (ndjson st ++ text)
                    (results st)
                    (if AUTO_EXCEL then true else auto_excel_event st)
                    (console st))
  else Raise UnicodeEncodeError.

(** [rows[i].find_all("td")[j].get_text(strip=True)]. *)
Definition cell_text (rows : list Tag) (i j : nat) : outcome str :=
  row <- getitem rows i ;;
  td <- getitem (find_all (lit "td") row) j ;;
  Return (get_text_strip td).

(** The dict literal of lines 172-178, its five values evaluated in order. *)
Definition student_of (rows : list Tag) : outcome (dict cell) :=
  hallticket <- cell_text rows 1 1 ;;
  gender <- cell_text rows 1 3 ;;
  name <- cell_text rows 2 1 ;;
  father <- cell_text rows 2 3 ;;
  course <- cell_text rows 3 1 ;;
  Return [ (lit "hallticket", Some hallticket);
           (lit "gender", Some gender);
           (lit "name", Some name);
           (lit "father", Some father);
           (lit "course", Some course) ].

(** One turn of the loop of lines 185-193. *)
Definition marks_step (marks : list (dict cell)) (row : Tag)
  : outcome (list (dict cell)) :=
  let cols := find_all (lit "td") row in
  if (4 <=? List.length cols)%nat then
    c0 <- getitem cols 0 ;;
    c1 <- getitem cols 1 ;;
    c2 <- getitem cols 2 ;;
    c3 <- getitem cols 3 ;;
    Return (marks ++ [ [ (lit "code", Some (get_text_strip c0));
                         (lit "subject", Some (get_text_strip c1));
                         (lit "credits", Some (get_text_strip c2));
                         (lit "grade", Some (get_text_strip c3)) ] ])
  else Return marks.

Fixpoint marks_loop (marks : list (dict cell)) (rows : list Tag)
  : outcome (list (dict cell)) :=
  match rows with
  | [] => Return marks
  | row :: rows' =>
      marks' <- marks_step marks row ;;
      marks_loop marks' rows'
  end.

Definition marks_of (soup : Tag) : outcome (list (dict cell)) :=
  match find_id (lit "AutoNumber4") soup with
  | Some table4 => marks_loop [] (skipn 2 (find_all (lit "tr") table4))
  | None => Return []
  end.

(** Lines 195-202. *)
Definition final_result_of (soup : Tag) : outcome cell :=
  match find_id (lit "AutoNumber5") soup with
  | Some table5 =>
      let rows5 := find_all (lit "tr") table5 in
      if (2 <? List.length rows5)%nat then
        row <- getitem rows5 2 ;;
        let cols := find_all (lit "td") row in
        if (2 <? List.length cols)%nat then
          td <- getitem cols 2 ;;
          Return (Some (get_text_strip td))
        else Return None
      else Return None
  | None => Return None
  end.

(** The parsing phase of [fetch_result], lines 161-204, on the text of the
    response.  [None] is the absent classification.  The call of
    [BeautifulSoup] at line 164 is outside the [try] of lines 171-180: what
    it raises leaves [fetch_result]. *)
Definition parse_result (text : str) : outcome (option item) :=
  if negb (contains text (lit "Personal Details")) then Return None
  else
    soup <- BeautifulSoup text ;;
    match find_id (lit "AutoNumber3") soup with
    | None => Return None
    | Some table3 =>
        let rows := find_all (lit "tr") table3 in
        match student_of rows with
        | Raise _ => Return None
        | Return student =>
            marks <- marks_of soup ;;
            final_result <- final_result_of soup ;;
            Return (Some [ (lit "student", VDict student);
                           (lit "marks", VList marks);
                           (lit "result", VScalar final_result) ])
        end
    end.

Definition fetch_result (htno : str) : outcome (option item) :=
  text <- session_post htno ;;
  parse_result text.

(** [if data:] on what [fetch_result] returned: [None] and the empty dict
    are false. *)
Definition truthy (data : option item) : option item :=
  match data with
  | Some ((_ :: _) as d) => Some d
  | _ => None
  end.

(** The placeholder of lines 218-223. *)
Definition placeholder (htno : str) : item :=
  [ (lit "student", VDict [ (lit "hallticket", Some htno) ]);
    (lit "marks", VList []);
    (lit "result", VScalar None);
    (lit "status", VScalar (Some (lit "NO_RESULT"))) ].

(** [worker] (lines 207-228).  The whole body after the first [print] is
    inside the [try]: what [fetch_result] or [append_result] raises is
    printed and goes no further.  [results.append] comes before
    [append_result], so a record whose write raises is already in the
    list. *)
Definition worker (htno : str) (st : state) : outcome state :=
  let st := print (Fetching htno) st in
  match fetch_result htno with
  | Raise e => Return (print (Error htno e) st)
  | Return data =>
      match truthy data with
      | Some data =>
          let st := results_append data st in
          match append_result data st with
          | Return st => Return (print (Saved htno) st)
          | Raise e => Return (print (Error htno e) st)
          end
      | None =>
          let st := results_append (placeholder htno) st in
          match append_result (placeholder htno) st with
          | Return st => Return (print (NoResultSaved htno) st)
          | Raise e => Return (print (Error htno e) st)
          end
      end
  end.

End Run.

(** *** The final conversion of [main] (lines 324-427) *)

(** Lines 326-335: the staging file is read line by line; a blank line and
    a line [json.loads] rejects are skipped. *)
Definition read_step (final : list json) (line : str) : list json :=
  let line := strip line in
  match line with
  | [] => final
  | _ :: _ =>
      match loads line with
      | Return v => final ++ [v]
      | Raise _ => final
      end
  end.

Definition read_final (raw : str) : list json :=
  fold_left read_step (readlines (universal_newlines raw)) [].

(** [flatten_top] (lines 338-348). *)
Definition flatten_top (it : item) : dict cell :=
  fold_left
    (fun flat kv =>
       match snd kv with
       | VDict d =>
           fold_left
             (fun flat kv2 => dict_set flat (fst kv ++ lit "." ++ fst kv2) (snd kv2))
             d flat
       | VList _ => flat
       | VScalar c => dict_set flat (fst kv) c
       end)
    it [].

(** [(item.get("student") or {}).get("hallticket")]: a missing, [None] or
    empty student reads as [None]; a non-empty list or string has no
    [get]. *)
Definition hallticket_of (it : item) : outcome cell :=
  match dict_get it (lit "student") with
  | None => Return None
  | Some (VDict d) => Return (Pandas.rec_get d (lit "hallticket"))
  | Some (VList []) => Return None
  | Some (VList (_ :: _)) => Raise AttributeError
  | Some (VScalar None) => Return None
  | Some (VScalar (Some [])) => Return None
  | Some (VScalar (Some (_ :: _))) => Raise AttributeError
  end.

(** What [for m in item.get("marks", [])] runs over, each [m] already
    through [(m or {})]: the dicts of a list; iterating a dict or a string
    gives strings, which have no [items] unless empty; [None] cannot be
    iterated. *)
Definition marks_iter (it : item) : outcome (list (dict cell)) :=
  match dict_get it (lit "marks") with
  | None => Return []
  | Some (VList l) => Return l
  | Some (VDict d) =>
      fold_left
        (fun acc kv =>
           ms <- acc ;;
           match fst kv with
           | [] => Return (ms ++ [[]])
           | _ :: _ => Raise AttributeError
           end)
        d (Return [])
  | Some (VScalar None) => Raise TypeError
  | Some (VScalar (Some [])) => Return []
  | Some (VScalar (Some (_ :: _))) => Raise AttributeError
  end.

(** Lines 360-362. *)
Definition mark_row (ht : cell) (m : dict cell) : dict cell :=
  fold_left (fun row kv => dict_set row (fst kv) (snd kv)) m
    [(lit "hallticket", ht)].

(** One turn of the loop of lines 352-363 on [(results_rows, marks_rows)]. *)
Definition rows_step (acc : list (dict cell) * list (dict cell)) (it : item)
  : outcome (list (dict cell) * list (dict cell)) :=
  let flat := flatten_top it in
  ht <- hallticket_of it ;;
  let flat := dict_set flat (lit "hallticket") ht in
  ms <- marks_iter it ;;
  Return (fst acc ++ [flat], snd acc ++ List.map (mark_row ht) ms).

Fixpoint rows_loop (acc : list (dict cell) * list (dict cell)) (final : list item)
  : outcome (list (dict cell) * list (dict cell)) :=
  match final with
  | [] => Return acc
  | it :: final' =>
      acc' <- rows_step acc it ;;
      rows_loop acc' final'
  end.

Definition expected_mark_cols : list str :=
  [lit "hallticket"; lit "code"; lit "subject"; lit "credits"; lit "grade"].

(** Lines 366-374. *)
Definition marks_frame (marks_rows : list (dict cell)) : outcome Pandas.DataFrame :=
  let df_marks := Pandas.DataFrame_of_records marks_rows in
  if Pandas.empty df_marks then Return (Pandas.DataFrame_of_columns expected_mark_cols)
  else
    df_marks <- Pandas.reindex df_marks expected_mark_cols ;;
    Return (Pandas.fillna df_marks []).

Definition raw_frame (final : list item) : Pandas.DataFrame :=
  Pandas.DataFrame_of_column (lit "json")
    (List.map (fun i => Some (dumps (item_json i))) final).

Definition core_pref : list str :=
  [lit "hallticket"; lit "student.name"; lit "student.father";
   lit "student.gender"; lit "student.course"; lit "result"; lit "status"].

Definition is_pivot_column (c : str) : bool :=
  startswith c (lit "grade_") || startswith c (lit "credits_") ||
  startswith c (lit "subject_").

(** Lines 393-407: the column order of the results sheet. *)
Definition final_cols (df_results df_marks : Pandas.DataFrame) : list str :=
  let cols := Pandas.columns df_results in
  let core_cols := filter (fun c => mem c cols) core_pref in
  let codes_sorted := Pandas.value_counts_index (Pandas.column df_marks (lit "code")) in
  let subject_cols :=
    flat_map
      (fun code =>
         filter (fun prefix => mem prefix cols)
           [lit "grade_" ++ code; lit "credits_" ++ code; lit "subject_" ++ code])
      codes_sorted in
  let remaining :=
    filter (fun c => is_pivot_column c && negb (mem c subject_cols)) cols in
  let subject_cols := subject_cols ++ Pandas.sorted remaining in
  let other_cols :=
    filter (fun c => negb (mem c (core_cols ++ subject_cols))) cols in
  core_cols ++ subject_cols ++ other_cols.

Section Report.

(** The conversion behind [astype(int)] on one string: the integer, or
    nothing when the conversion raises. *)
Variable to_int : str -> option Z.

(** [series.astype(int)]: a missing value cannot be converted. *)
Fixpoint astype_int (series : list cell) : outcome (list Z) :=
  match series with
  | [] => Return []
  | None :: _ => Raise TypeError
  | Some x :: series' =>
      match to_int x with
      | None => Raise ValueError
      | Some z =>
          zs <- astype_int series' ;;
          Return (z :: zs)
      end
  end.

(** Lines 411-415: the rows sorted by the hall ticket as an integer when
    every hall ticket converts, as a string otherwise.  When the conversion
    succeeds the integers are assigned to the column [hallticket_sort],
    which takes the place of a column of that label when the frame has one,
    the rows are sorted by it and [drop] removes it: a column labelled
    [hallticket_sort] does not survive.  When the conversion raises nothing
    was assigned and the frame keeps its columns. *)
Definition sort_by_hallticket (df : Pandas.DataFrame) : outcome Pandas.DataFrame :=
  try_except
    (if mem (lit "hallticket") (Pandas.columns df) then
       ks <- astype_int (Pandas.column df (lit "hallticket")) ;;
       Return (Pandas.drop_column
                 (Pandas.mkDF (Pandas.columns df)
                    (List.map snd
                       (Pandas.isort (fun a b => Z.leb (fst a) (fst b))
                          (combine ks (Pandas.rows df)))))
                 (lit "hallticket_sort"))
     else Raise (KeyError (lit "hallticket")))
    (fun _ => Pandas.sort_values df (lit "hallticket")).

(** Lines 350-427 on the list [final]: the four sheets of the workbook.
    The optional protection of the grades sheet is not part of the
    model. *)
Definition final_conversion (final : list item) : outcome Pandas.Workbook :=
  rm <- rows_loop ([], []) final ;;
  let df_results := Pandas.DataFrame_of_records (fst rm) in
  df_marks <- marks_frame (snd rm) ;;
  let raw_df := raw_frame final in
  if negb (Pandas.empty df_marks) then
    let pivot v := Pandas.pivot_table df_marks (lit "hallticket") (lit "code") v in
    let df_grade_pivot :=
      Pandas.rename_columns (fun c => lit "grade_" ++ c) (pivot (lit "grade")) in
    let df_credits_pivot :=
      Pandas.rename_columns (fun c => lit "credits_" ++ c) (pivot (lit "credits")) in
    let df_subject_pivot :=
      Pandas.rename_columns (fun c => lit "subject_" ++ c) (pivot (lit "subject")) in
    g <- Pandas.reset_index df_grade_pivot ;;
    let df_results := Pandas.merge_left df_results g (lit "hallticket") in
    c <- Pandas.reset_index df_credits_pivot ;;
    let df_results := Pandas.merge_left df_results c (lit "hallticket") in
    s <- Pandas.reset_index df_subject_pivot ;;
    let df_results := Pandas.merge_left df_results s (lit "hallticket") in
    df_results <- Pandas.reindex df_results (final_cols df_results df_marks) ;;
    df_results <- sort_by_hallticket df_results ;;
    df_grade_only <- Pandas.reset_index df_grade_pivot ;;
    let wb := Pandas.to_excel [] df_results (lit "results") in
    let wb := Pandas.to_excel wb df_grade_only (lit "grades") in
    let wb := Pandas.to_excel wb df_marks (lit "marks") in
    Return (Pandas.to_excel wb raw_df (lit "raw"))
  else
    let wb := Pandas.to_excel [] df_results (lit "results") in
    let wb := Pandas.to_excel wb (Pandas.DataFrame_of_columns [lit "hallticket"])
                (lit "grades") in
    let wb := Pandas.to_excel wb df_marks (lit "marks") in
    Return (Pandas.to_excel wb raw_df (lit "raw")).

End Report.

End App.

(* ================================================================= *)
(** ** [json_to_excel.py]: the standalone conversion *)

Module JsonToExcel.
Import Py Json.

(** One turn of the loop of lines 28-36. *)
Definition load_step (items : list json) (line : str) : list json :=
  let line := strip line in
  match line with
  | [] => items
  | _ :: _ =>
      match loads line with
      | Return v => items ++ [v]
      | Raise _ => items
      end
  end.

(** [load_items] on the text of the file: a text that starts with a
    bracket is one JSON array, any other text is read line by line with
    [splitlines]. *)
Definition load_items (raw : str) : outcome (list json) :=
  let txt := strip (universal_newlines raw) in
  match txt with
  | [] => Return []
  | c :: _ =>
      if c =? 91 then
        v <- loads txt ;;
        match v with
        | JList l => Return l
        | _ => Raise ValueError
        end
      else Return (fold_left load_step (splitlines txt) [])
  end.

(** [flatten_top] (lines 46-57). *)
Definition flatten_top (it : item) : dict cell :=
  fold_left
    (fun flat kv =>
       match snd kv with
       | VDict d =>
           fold_left
             (fun flat kv2 => dict_set flat (fst kv ++ lit "." ++ fst kv2) (snd kv2))
             d flat
       | VList _ => flat
       | VScalar c => dict_set flat (fst kv) c
       end)
    it [].

(** [(item.get("student") or {}).get("hallticket")]. *)
Definition hallticket_of (it : item) : outcome cell :=
  match dict_get it (lit "student") with
  | None => Return None
  | Some (VDict d) => Return (Pandas.rec_get d (lit "hallticket"))
  | Some (VList []) => Return None
  | Some (VList (_ :: _)) => Raise AttributeError
  | Some (VScalar None) => Return None
  | Some (VScalar (Some [])) => Return None
  | Some (VScalar (Some (_ :: _))) => Raise AttributeError
  end.

(** What [for m in item.get("marks", [])] runs over, each [m] already
    through [(m or {})]. *)
Definition marks_iter (it : item) : outcome (list (dict cell)) :=
  match dict_get it (lit "marks") with
  | None => Return []
  | Some (VList l) => Return l
  | Some (VDict d) =>
      fold_left
        (fun acc kv =>
           ms <- acc ;;
           match fst kv with
           | [] => Return (ms ++ [[]])
           | _ :: _ => Raise AttributeError
           end)
        d (Return [])
  | Some (VScalar None) => Raise TypeError
  | Some (VScalar (Some [])) => Return []
  | Some (VScalar (Some (_ :: _))) => Raise AttributeError
  end.

(** Lines 71-73. *)
Definition mark_row (ht : cell) (m : dict cell) : dict cell :=
  fold_left (fun row kv => dict_set row (fst kv) (snd kv)) m
    [(lit "hallticket", ht)].

(** One turn of the loop of lines 61-74 on [(rows, marks)]. *)
Definition rows_step (acc : list (dict cell) * list (dict cell)) (it : item)
  : outcome (list (dict cell) * list (dict cell)) :=
  let flat := flatten_top it in
  ht <- hallticket_of it ;;
  let flat := dict_set flat (lit "hallticket") ht in
  ms <- marks_iter it ;;
  Return (fst acc ++ [flat], snd acc ++ List.map (mark_row ht) ms).

Fixpoint rows_loop (acc : list (dict cell) * list (dict cell)) (items : list item)
  : outcome (list (dict cell) * list (dict cell)) :=
  match items with
  | [] => Return acc
  | it :: items' =>
      acc' <- rows_step acc it ;;
      rows_loop acc' items'
  end.

Definition expected_mark_cols : list str :=
  [lit "hallticket"; lit "code"; lit "subject"; lit "credits"; lit "grade"].

(** Lines 77-84. *)
Definition marks_frame (marks : list (dict cell)) : outcome Pandas.DataFrame :=
  let df_marks := Pandas.DataFrame_of_records marks in
  if Pandas.empty df_marks then Return (Pandas.DataFrame_of_columns expected_mark_cols)
  else
    df_marks <- Pandas.reindex df_marks expected_mark_cols ;;
    Return (Pandas.fillna df_marks []).

Definition raw_frame (items : list item) : Pandas.DataFrame :=
  Pandas.DataFrame_of_column (lit "json")
    (List.map (fun i => Some (dumps (item_json i))) items).

Definition core_pref : list str :=
  [lit "hallticket"; lit "student.name"; lit "student.father"].

(** [lambda x: f"{p}{x}" if x != 'hallticket' else x]. *)
Definition prefix_unless_hallticket (p : str) (x : str) : str :=
  if str_eqb x (lit "hallticket") then x else p ++ x.

Section Convert.

(** The conversion behind [astype(int)] on one string, and [str.isupper]. *)
Variable to_int : str -> option Z.
Variable isupper : str -> bool.

(** Lines 99-126: the column order of the results sheet. *)
Definition final_cols (df_rows df_marks : Pandas.DataFrame) : list str :=
  let cols := Pandas.columns df_rows in
  let core_cols := filter (fun c => mem c cols) core_pref in
  let codes_sorted :=
    if negb (Pandas.empty df_marks)
    then Pandas.value_counts_index (Pandas.column df_marks (lit "code"))
    else [] in
  let labs := filter (fun c => contains c (lit "LAB")) codes_sorted in
  let non_labs := filter (fun c => negb (mem c labs)) codes_sorted in
  let half := Nat.div (List.length non_labs) 2 in
  let common := firstn half non_labs in
  let uncommon := skipn half non_labs in
  let subject_codes_ordered :=
    filter (fun c => mem c cols) (common ++ labs ++ uncommon) in
  let final_cols := core_cols ++ subject_codes_ordered in
  let final_cols :=
    if mem (lit "result") cols then final_cols ++ [lit "result"] else final_cols in
  let remaining_code_cols :=
    filter
      (fun c =>
         negb (mem c final_cols) && isupper c &&
         negb (startswith c (lit "credits_") || startswith c (lit "subject_")))
      cols in
  final_cols ++ Pandas.sorted remaining_code_cols.

(** [series.astype(int)]. *)
Fixpoint astype_int (series : list cell) : outcome (list Z) :=
  match series with
  | [] => Return []
  | None :: _ => Raise TypeError
  | Some x :: series' =>
      match to_int x with
      | None => Raise ValueError
      | Some z =>
          zs <- astype_int series' ;;
          Return (z :: zs)
      end
  end.

(** Lines 136-140: as in [app.py]; a column labelled [hallticket_sort] is
    replaced by the integers and dropped when the conversion succeeds. *)
Definition sort_by_hallticket (df : Pandas.DataFrame) : outcome Pandas.DataFrame :=
  try_except
    (if mem (lit "hallticket") (Pandas.columns df) then
       ks <- astype_int (Pandas.column df (lit "hallticket")) ;;
       Return (Pandas.drop_column
                 (Pandas.mkDF (Pandas.columns df)
                    (List.map snd
                       (Pandas.isort (fun a b => Z.leb (fst a) (fst b))
                          (combine ks (Pandas.rows df)))))
                 (lit "hallticket_sort"))
     else Raise (KeyError (lit "hallticket")))
    (fun _ => Pandas.sort_values df (lit "hallticket")).

(** Lines 129-131: a column of [final_cols] the frame lacks is added,
    filled with the empty string. *)
Definition add_missing (df : Pandas.DataFrame) (cols : list str) : Pandas.DataFrame :=
  fold_left
    (fun df c =>
       if mem c (Pandas.columns df) then df else Pandas.add_column df c (Some []))
    cols df.

(** [items_to_excel] (lines 59-155): the four sheets of the workbook.  The
    optional protection of the grades sheet is not part of the model. *)
Definition items_to_excel (items : list item) : outcome Pandas.Workbook :=
  rm <- rows_loop ([], []) items ;;
  let df_rows := Pandas.DataFrame_of_records (fst rm) in
  df_marks <- marks_frame (snd rm) ;;
  let pivot v := Pandas.pivot_table df_marks (lit "hallticket") (lit "code") v in
  df_rows <-
    (if negb (Pandas.empty df_marks) then
       g <- Pandas.reset_index (pivot (lit "grade")) ;;
       let df_rows := Pandas.merge_left df_rows g (lit "hallticket") in
       c <- Pandas.reset_index (pivot (lit "credits")) ;;
       let df_rows :=
         Pandas.merge_left df_rows
           (Pandas.rename (prefix_unless_hallticket (lit "credits_")) c)
           (lit "hallticket") in
       s <- Pandas.reset_index (pivot (lit "subject")) ;;
       Return (Pandas.merge_left df_rows
                 (Pandas.rename (prefix_unless_hallticket (lit "subject_")) s)
                 (lit "hallticket"))
     else Return df_rows) ;;
  let cols := final_cols df_rows df_marks in
  let df_rows := add_missing df_rows cols in
  df_rows <- Pandas.reindex df_rows cols ;;
  let df_rows := Pandas.fillna df_rows [] in
  df_rows <- sort_by_hallticket df_rows ;;
  let raw_df := raw_frame items in
  let wb := Pandas.to_excel [] df_rows (lit "results") in
  wb <-
    (if negb (Pandas.empty df_marks) then
       df_grade_only <- Pandas.reset_index (pivot (lit "grade")) ;;
       Return (Pandas.to_excel wb df_grade_only (lit "grades"))
     else
       Return (Pandas.to_excel wb (Pandas.DataFrame_of_columns [lit "hallticket"])
                 (lit "grades"))) ;;
  let wb := Pandas.to_excel wb df_marks (lit "marks") in
  Return (Pandas.to_excel wb raw_df (lit "raw")).

End Convert.

End JsonToExcel.

(* ================================================================= *)
(** ** The vocabulary of the specification *)

Module Spec.
Import Py Json Bs4.

(** What a marks row contributes, in the words of the specification: one
    entry from the first four cells when there are four, nothing
    otherwise. *)
Definition mark_entries (row : Tag) : list (dict cell) :=
  match find_all (lit "td") row with
  | c0 :: c1 :: c2 :: c3 :: _ =>
      [ [ (lit "code", Some (get_text_strip c0));
          (lit "subject", Some (get_text_strip c1));
          (lit "credits", Some (get_text_strip c2));
          (lit "grade", Some (get_text_strip c3)) ] ]
  | _ => []
  end.

Definition marks_table (soup : Tag) : list (dict cell) :=
  match find_id (lit "AutoNumber4") soup with
  | Some table4 => flat_map mark_entries (skipn 2 (find_all (lit "tr") table4))
  | None => []
  end.

(** A record is complete when its student has the five fields, all set,
    and it carries marks and a result and nothing else. *)
Definition complete (it : item) : Prop :=
  exists hallticket gender name father course marks final_result,
    it = [ (lit "student",
            VDict [ (lit "hallticket", Some hallticket);
                    (lit "gender", Some gender);
                    (lit "name", Some name);
                    (lit "father", Some father);
                    (lit "course", Some course) ]);
           (lit "marks", VList marks);
           (lit "result", VScalar final_result) ].

(** The cells of Table A the parser reads: (row, cell). *)
Definition table_a_cells : list (nat * nat) :=
  [(1, 1); (1, 3); (2, 1); (2, 3); (3, 1)]%nat.

(** The records of the data model.  A mark entry has its four strings; a
    result record is either what the parser returns for a results page, or
    the placeholder for a hall ticket without one. *)
Record MarkEntry := mkMark {
  code : str;
  subject : str;
  credits : str;
  grade : str
}.

Inductive ResultRecord :=
| Parsed (hallticket gender name father course : str)
         (marks : list MarkEntry) (result : cell)
| Placeholder (hallticket : str).

Definition hallticket_of_record (r : ResultRecord) : str :=
  match r with
  | Parsed h _ _ _ _ _ _ => h
  | Placeholder h => h
  end.

Definition marks_of_record (r : ResultRecord) : list MarkEntry :=
  match r with
  | Parsed _ _ _ _ _ ms _ => ms
  | Placeholder _ => []
  end.

Definition mark_dict (m : MarkEntry) : dict cell :=
  [ (lit "code", Some (code m));
    (lit "subject", Some (subject m));
    (lit "credits", Some (credits m));
    (lit "grade", Some (grade m)) ].

(** The dict the worker appends for a record. *)
Definition to_item (r : ResultRecord) : item :=
  match r with
  | Parsed h g n f c ms res =>
      [ (lit "student",
         VDict [ (lit "hallticket", Some h);
                 (lit "gender", Some g);
                 (lit "name", Some n);
                 (lit "father", Some f);
                 (lit "course", Some c) ]);
        (lit "marks", VList (List.map mark_dict ms));
        (lit "result", VScalar res) ]
  | Placeholder h => App.placeholder h
  end.

(** The mark rows of a list of records: (hall ticket, entry), in order. *)
Definition all_marks (rs : list ResultRecord) : list (str * MarkEntry) :=
  flat_map (fun r => List.map (pair (hallticket_of_record r)) (marks_of_record r)) rs.

(** The row of the flattened table for a record, and the row of the
    long-form marks table for a mark of a hall ticket. *)
Definition flat_row (r : ResultRecord) : dict cell :=
  match r with
  | Parsed h g n f c _ res =>
      [ (lit "student.hallticket", Some h);
        (lit "student.gender", Some g);
        (lit "student.name", Some n);
        (lit "student.father", Some f);
        (lit "student.course", Some c);
        (lit "result", res);
        (lit "hallticket", Some h) ]
  | Placeholder h =>
      [ (lit "student.hallticket", Some h);
        (lit "result", None);
        (lit "status", Some (lit "NO_RESULT"));
        (lit "hallticket", Some h) ]
  end.

Definition mark_cells (hm : str * MarkEntry) : list cell :=
  [ Some (fst hm); Some (code (snd hm)); Some (subject (snd hm));
    Some (credits (snd hm)); Some (grade (snd hm)) ].

(** The long-form marks table of a list of records. *)
Definition marks_table_of (rs : list ResultRecord) : Pandas.DataFrame :=
  Pandas.mkDF App.expected_mark_cols (List.map mark_cells (all_marks rs)).

(** The codes of all mark rows, in order. *)
Definition codes_of (rs : list ResultRecord) : list str :=
  List.map (fun hm => code (snd hm)) (all_marks rs).

(** The three pivot columns of a subject code. *)
Definition pivot_columns (c : str) : list str :=
  [lit "grade_" ++ c; lit "credits_" ++ c; lit "subject_" ++ c].

(** The sheet of a workbook by name. *)
Definition sheet (wb : Pandas.Workbook) (name : string) : option Pandas.DataFrame :=
  dict_get wb (lit name).

(** [x] comes before [y] in [l]. *)
Definition precedes (x y : str) (l : list str) : Prop :=
  exists l1 l2 l3, l = l1 ++ x :: l2 ++ y :: l3.

(** The pivots of the marks table: the hall tickets and the codes that
    have a mark, sorted, and the cell of a hall ticket and a code, the
    first value among the marks of that pair. *)
Definition pivot_index (rs : list ResultRecord) : list str :=
  Pandas.sorted (Pandas.uniq (List.map fst (all_marks rs))).

Definition pivot_codes (rs : list ResultRecord) : list str :=
  Pandas.sorted (Pandas.uniq (codes_of rs)).

Definition pivot_cell (sel : MarkEntry -> str) (rs : list ResultRecord)
  (h c : str) : cell :=
  Pandas.first_value h c
    (List.map (fun hm => (fst hm, code (snd hm), sel (snd hm))) (all_marks rs)).

(** The flattened table of a list of records, and the table after the
    three pivots were merged into it: every record keeps its row, extended
    with the grade, credits and subject cells of its hall ticket. *)
Definition flat_table (rs : list ResultRecord) : Pandas.DataFrame :=
  Pandas.DataFrame_of_records (List.map flat_row rs).

Definition base_row (rs : list ResultRecord) (r : ResultRecord) : list cell :=
  List.map (Pandas.rec_get (flat_row r)) (Pandas.columns (flat_table rs)).

Definition pivot_cells (rs : list ResultRecord) (r : ResultRecord) : list cell :=
  List.map (pivot_cell grade rs (hallticket_of_record r)) (pivot_codes rs) ++
  List.map (pivot_cell credits rs (hallticket_of_record r)) (pivot_codes rs) ++
  List.map (pivot_cell subject rs (hallticket_of_record r)) (pivot_codes rs).

Definition merged_columns (rs : list ResultRecord) : list str :=
  Pandas.columns (flat_table rs) ++
  @List.map str str (fun c => lit "grade_" ++ c) (pivot_codes rs) ++
  @List.map str str (fun c => lit "credits_" ++ c) (pivot_codes rs) ++
  @List.map str str (fun c => lit "subject_" ++ c) (pivot_codes rs).

Definition merged_table (rs : list ResultRecord) : Pandas.DataFrame :=
  Pandas.mkDF (merged_columns rs)
    (List.map (fun r => base_row rs r ++ pivot_cells rs r) rs).

(** The rows of a pivot after [reset_index]: the hall ticket, then its
    cell under every code. *)
Definition pivot_rows (sel : MarkEntry -> str) (rs : list ResultRecord)
  : list (list cell) :=
  List.map (fun i => Some i :: List.map (pivot_cell sel rs i) (pivot_codes rs))
    (pivot_index rs).

(** The table the standalone conversion merges, lines 87-96 of
    [json_to_excel.py]: the grade pivot joins under the bare codes. *)
Definition standalone_merged (rs : list ResultRecord) : Pandas.DataFrame :=
  match all_marks rs with
  | [] => flat_table rs
  | _ :: _ =>
      Pandas.merge_left
        (Pandas.merge_left
           (Pandas.merge_left (flat_table rs)
              (Pandas.mkDF (lit "hallticket" :: pivot_codes rs) (pivot_rows grade rs))
              (lit "hallticket"))
           (Pandas.rename (JsonToExcel.prefix_unless_hallticket (lit "credits_"))
              (Pandas.mkDF (lit "hallticket" :: pivot_codes rs) (pivot_rows credits rs)))
           (lit "hallticket"))
        (Pandas.rename (JsonToExcel.prefix_unless_hallticket (lit "subject_"))
           (Pandas.mkDF (lit "hallticket" :: pivot_codes rs) (pivot_rows subject rs)))
        (lit "hallticket")
  end.

(** The column names a record brings to the flattened table. *)
Definition record_columns : list str :=
  [ lit "student.hallticket"; lit "student.gender"; lit "student.name";
    lit "student.father"; lit "student.course"; lit "result"; lit "status";
    lit "hallticket" ].

(** A subject code that is the name of no other column: not a column of
    the flattened table, not of the form [credits_...] or [subject_...],
    and not the label [hallticket_sort] of the helper column of the
    sort. *)
Definition plain_code (c : str) : bool :=
  negb (mem c record_columns) &&
  negb (startswith c (lit "credits_")) && negb (startswith c (lit "subject_")) &&
  negb (str_eqb c (lit "hallticket_sort")).

(** The merged table with the grades under the bare codes. *)
Definition bare_columns (rs : list ResultRecord) : list str :=
  Pandas.columns (flat_table rs) ++
  pivot_codes rs ++
  @List.map str str (fun c => lit "credits_" ++ c) (pivot_codes rs) ++
  @List.map str str (fun c => lit "subject_" ++ c) (pivot_codes rs).

Definition bare_table (rs : list ResultRecord) : Pandas.DataFrame :=
  Pandas.mkDF (bare_columns rs)
    (List.map (fun r => base_row rs r ++ pivot_cells rs r) rs).

(** The row of a record in the results sheet of the main run, read by
    column label: under every column of the flattened table the record's
    own field, and under the three pivot columns of a code the first grade,
    credits and subject among the marks of its hall ticket and that
    code. *)
Definition record_row (rs : list ResultRecord) (r : ResultRecord)
  (cols : list str) (row : list cell) : Prop :=
  List.length row = List.length cols /\
  (forall k, In k (Pandas.columns (flat_table rs)) ->
     Pandas.row_get cols row k = Pandas.rec_get (flat_row r) k) /\
  (forall c, In c (codes_of rs) ->
     Pandas.row_get cols row (lit "grade_" ++ c) =
       pivot_cell grade rs (hallticket_of_record r) c /\
     Pandas.row_get cols row (lit "credits_" ++ c) =
       pivot_cell credits rs (hallticket_of_record r) c /\
     Pandas.row_get cols row (lit "subject_" ++ c) =
       pivot_cell subject rs (hallticket_of_record r) c).

(** [fillna("")] on one cell. *)
Definition filled (c : cell) : cell :=
  match c with
  | None => Some []
  | Some _ => c
  end.

(** The row of a record in the results sheet of the standalone
    conversion, read by column label: under the columns of the flattened
    table that the sheet keeps the record's own field, and under the
    column of a code the first grade among the marks of its hall ticket and
    that code; what is missing is the empty string. *)
Definition standalone_row (rs : list ResultRecord) (r : ResultRecord)
  (cols : list str) (row : list cell) : Prop :=
  List.length row = List.length cols /\
  (forall k, In k (Pandas.columns (flat_table rs)) -> In k cols ->
     Pandas.row_get cols row k = filled (Pandas.rec_get (flat_row r) k)) /\
  (forall c, In c (codes_of rs) ->
     Pandas.row_get cols row c = filled (pivot_cell grade rs (hallticket_of_record r) c)).

(** Whether a list of records holds a placeholder. *)
Definition is_placeholder (r : ResultRecord) : bool :=
  match r with
  | Placeholder _ => true
  | Parsed _ _ _ _ _ _ _ => false
  end.

Definition has_placeholder (rs : list ResultRecord) : bool := existsb is_placeholder rs.

(** The core columns of the results sheet of a report with marks. *)
Definition core_columns (rs : list ResultRecord) : list str :=
  [lit "hallticket"; lit "student.name"; lit "student.father";
   lit "student.gender"; lit "student.course"; lit "result"] ++
  (if has_placeholder rs then [lit "status"] else []).

(** The line [append_result] writes for a record, and whether it can be
    written: whether it holds no surrogate code point. *)
Definition line_of (it : item) : str := dumps (item_json it) ++ [10].

Definition encodes (it : item) : bool := utf8_encodable (line_of it).

(** The appends of a run one after the other: an append that raises is
    caught by the handler of [worker] and leaves the file as it is. *)
Definition appended (AUTO_EXCEL : bool) (items : list item) (st : App.state)
  : App.state :=
  fold_left
    (fun st it =>
       match App.append_result AUTO_EXCEL it st with
       | Return st' => st'
       | Raise _ => st
       end)
    items st.

(** The items before the first one whose line cannot be written. *)
Fixpoint written_prefix (items : list item) : list item :=
  match items with
  | [] => []
  | it :: items' => if encodes it then it :: written_prefix items' else []
  end.

(** A cell reads as an integer when it holds a string that converts. *)
Definition reads (to_int : str -> option Z) (c : cell) (z : Z) : Prop :=
  exists s, c = Some s /\ to_int s = Some z.

(** The rows of a frame are in hall-ticket order: when every hall ticket
    converts to an integer, the integers ascend; otherwise the hall tickets
    ascend as strings, a missing one last. *)
Definition hallticket_sorted (to_int : str -> option Z) (df : Pandas.DataFrame) : Prop :=
  match App.astype_int to_int (Pandas.column df (lit "hallticket")) with
  | Return zs => StronglySorted Z.le zs
  | Raise _ =>
      StronglySorted (fun a b => Pandas.key_leb str_leb a b = true)
        (Pandas.column df (lit "hallticket"))
  end.

End Spec.

(* ================================================================= *)
(** ** Concrete data for the examples *)

Module Examples.
Import Py Json Bs4 Spec.

(** [int(s)] on a plain decimal numeral: digits [0-9] only. *)
Definition decimal_int (s : str) : option Z :=
  match s with
  | [] => None
  | _ :: _ =>
      fold_left
        (fun acc c =>
           match acc with
           | Some z =>
               if is_digit c then Some (z * 10 + Z.of_N (c - 48))%Z else None
           | None => None
           end)
        s (Some 0%Z)
  end.

(** [str.isupper] on ASCII text: an upper-case letter and no lower-case
    letter. *)
Definition ascii_isupper (s : str) : bool :=
  existsb (fun c => (65 <=? c) && (c <=? 90)) s &&
  negb (existsb (fun c => (97 <=? c) && (c <=? 122)) s).

Definition text (s : string) : Tag := NavigableString (lit s).
Definition td (s : string) : Tag := Element (lit "td") [] [text s].
Definition tr (cells : list Tag) : Tag := Element (lit "tr") [] cells.
Definition table (id : string) (trs : list Tag) : Tag :=
  Element (lit "table") [(lit "id", lit id)] trs.

(** A results page: personal details, two marks rows of which the second
    is too short, and the final result. *)
Definition page : Tag :=
  Element (lit "[document]") []
    [ table "AutoNumber3"
        [ tr [td "Personal Details"];
          tr [td "Hall Ticket No."; td " 110624861001 "; td "Gender"; td "F"];
          tr [td "Name"; td "ASHA"; td "Father's Name"; td "RAVI"];
          tr [td "Course"; td "B.Sc"] ];
      table "AutoNumber4"
        [ tr [td "Marks Details"];
          tr [td "Code"; td "Subject"; td "Credits"; td "Grade"];
          tr [td "MATH101"; td " Algebra "; td "4"; td "A"];
          tr [td "malformed"] ];
      table "AutoNumber5"
        [ tr [td "Result"];
          tr [td "Sem"; td "SGPA"; td "Result"];
          tr [td "1"; td "8.5"; td "PASSED"] ] ].

(** A page whose personal-details table has a short second row. *)
Definition short_page : Tag :=
  Element (lit "[document]") []
    [ table "AutoNumber3"
        [ tr [td "Personal Details"];
          tr [td "Hall Ticket No."; td "110624861001"] ] ].

Definition page_text : str := lit "<html>Personal Details ...</html>".

(** The record [fetch_result] returns for [page]. *)
Definition asha : item :=
  [ (lit "student",
     VDict [ (lit "hallticket", Some (lit "110624861001"));
             (lit "gender", Some (lit "F"));
             (lit "name", Some (lit "ASHA"));
             (lit "father", Some (lit "RAVI"));
             (lit "course", Some (lit "B.Sc")) ]);
    (lit "marks",
     VList [ [ (lit "code", Some (lit "MATH101"));
               (lit "subject", Some (lit "Algebra"));
               (lit "credits", Some (lit "4"));
               (lit "grade", Some (lit "A")) ] ]);
    (lit "result", VScalar (Some (lit "PASSED"))) ].

Definition initial : App.state := App.mkState [] [] false [].

(** Two records whose text holds a character that [str.splitlines] takes
    for a line boundary and [json.dumps] writes as it is: the line
    separator U+2028 in a name, the next-line character U+0085 in a
    father's name. *)
Definition rani : ResultRecord :=
  Parsed (lit "110624861002") (lit "F") (lit "RANI" ++ [8232] ++ lit "DEVI")
    (lit "MOHAN") (lit "B.Sc")
    [mkMark (lit "MATH101") (lit "Algebra") (lit "4") (lit "B")]
    (Some (lit "PASSED")).

Definition kiran : ResultRecord :=
  Parsed (lit "110624861003") (lit "M") (lit "KIRAN")
    (lit "SURESH" ++ [133] ++ lit "RAO") (lit "B.Sc") [] None.

(** A cohort of five candidates: MATH101 has five mark rows, PHYS201 two
    and ART100 one. *)
Definition entry (c : string) : MarkEntry :=
  mkMark (lit c) (lit "Subject") (lit "4") (lit "A").

Definition candidate (h : string) (codes : list string) : ResultRecord :=
  Parsed (lit h) (lit "F") (lit "NAME") (lit "FATHER") (lit "B.Sc")
    (List.map entry codes) (Some (lit "PASSED")).

Definition cohort : list ResultRecord :=
  [ candidate "110624861005" ["ART100"; "PHYS201"; "MATH101"];
    candidate "110624861004" ["MATH101"];
    candidate "110624861003" ["PHYS201"; "MATH101"];
    Placeholder (lit "110624861002");
    candidate "110624861001" ["MATH101"];
    candidate "110624861000" ["MATH101"] ].

(** Two hall tickets out of order: as placeholders, and as candidates of
    whom the first has a mark. *)
Definition two_placeholders : list ResultRecord :=
  [Placeholder (lit "110624861002"); Placeholder (lit "110624861001")].

Definition two_candidates : list ResultRecord :=
  [candidate "110624861002" ["MATH101"]; candidate "110624861001" []].

(** A candidate with a mark and a placeholder under one hall ticket: the
    hall ticket of a parsed record is read from the page. *)
Definition shared_ticket : list ResultRecord :=
  [candidate "110624861001" ["MATH101"]; Placeholder (lit "110624861001")].

(** The staging file after the given records were appended to an empty
    file. *)
Definition staged (rs : list ResultRecord) : str :=
  App.ndjson (appended true (List.map to_item rs) (App.clear_old_results initial)).

(** The results page with a lone surrogate, U+D800, at the end of the
    name, as [html.parser] gives it for a character reference. *)
Definition surrogate_page : Tag :=
  Element (lit "[document]") []
    [ table "AutoNumber3"
        [ tr [td "Personal Details"];
          tr [td "Hall Ticket No."; td " 110624861001 "; td "Gender"; td "F"];
          tr [td "Name"; Element (lit "td") [] [NavigableString (lit "ASHA" ++ [55296])];
              td "Father's Name"; td "RAVI"];
          tr [td "Course"; td "B.Sc"] ] ].

(** The record [fetch_result] returns for [surrogate_page]. *)
Definition asha_surrogate : item :=
  [ (lit "student",
     VDict [ (lit "hallticket", Some (lit "110624861001"));
             (lit "gender", Some (lit "F"));
             (lit "name", Some (lit "ASHA" ++ [55296]));
             (lit "father", Some (lit "RAVI"));
             (lit "course", Some (lit "B.Sc")) ]);
    (lit "marks", VList []);
    (lit "result", VScalar None) ].

(** A parser that rejects the markup of a body with an unfinished marked
    section and gives the results page for any other. *)
Definition rejected_text : str := lit "<html>Personal Details<![x[</html>".

Definition rejecting_parser (text : str) : outcome Tag :=
  if contains text (lit "<![x[") then Raise ParserRejectedMarkup else Return page.

End Examples.

(* ================================================================= *)
(** ** More of [app.py]: rewriting the staging file *)

Module Staging.
Import Py Json App.

(** The loop of [save_results]: the items are written in order; a write
    that raises ends the loop, and what was written before stays in the
    file when [with] closes it. *)
Fixpoint write_items (items : list item) (file : str) : str * option exn :=
  match items with
  | [] => (file, None)
  | item :: items' =>
      let text := dumps (item_json item) ++ [10] in
      if utf8_encodable text then write_items items' (file ++ text)
      else (file, Some UnicodeEncodeError)
  end.

(** [save_results] (lines 79-85): the staging file is opened for writing,
    which truncates it, and every item of the in-memory list is written as
    one JSON object and a line feed.  The result is the state after the
    call and the exception it raised, if any. *)
Definition save_results (st : state) : state * option exn :=
  let (file, e) := write_items (results st) [] in
  (mkState file (results st) (auto_excel_event st) (console st), e).

End Staging.

(** ** More of [app.py]: the prompts and the range of hall tickets *)

Module Cli.
Import Py.

(** Standard input as the list of the lines still to be read, each without
    its line feed.  [input()] takes the first; on an empty list it raises
    [EOFError], which [main] does not catch: [None]. *)
Definition stdin := list str.

Section Prompts.

(** [int(val)] on a string: the integer, or nothing when it raises
    [ValueError]. *)
Variable to_int : str -> option Z.

(** [prompt_url] (lines 252-260): lines are read until one, stripped, starts
    with [http://] or [https://]. *)
Fixpoint prompt_url (input : stdin) : option (str * stdin) :=
  match input with
  | [] => None
  | l :: input' =>
      let val := strip l in
      match val with
      | [] => prompt_url input'
      | _ :: _ =>
          if startswith val (lit "http://") || startswith val (lit "https://")
          then Some (val, input')
          else prompt_url input'
      end
  end.

(** [url = args.url if args.url else prompt_url(...)]: an empty [--url]
    counts as none. *)
Definition select_url (args_url : option str) (input : stdin) : option (str * stdin) :=
  match args_url with
  | Some ((_ :: _) as u) => Some (u, input)
  | _ => prompt_url input
  end.

(** [prompt_int] (lines 262-270): a blank line gives the default; another
    line gives its integer, or is asked again when [int] rejects it. *)
Fixpoint prompt_int (default : Z) (input : stdin) : option (Z * stdin) :=
  match input with
  | [] => None
  | l :: input' =>
      let val := strip l in
      match val with
      | [] => Some (default, input')
      | _ :: _ =>
          match to_int val with
          | Some z => Some (z, input')
          | None => prompt_int default input'
          end
      end
  end.

Definition START_HT : Z := 110624861001.
Definition END_HT : Z := 110624861064.

(** The loop of lines 280-282: the end is asked again while it is before
    the start.  Every turn reads at least one line, so the turns are
    bounded by the lines left. *)
Fixpoint end_loop (turns : nat) (start end_ : Z) (input : stdin) : option (Z * stdin) :=
  if (end_ <? start)%Z then
    match turns with
    | O => None
    | S turns' =>
        match prompt_int END_HT input with
        | None => None
        | Some (e, input') => end_loop turns' start e input'
        end
    end
  else Some (end_, input).

(** Lines 276-282: the start and the end of the range, from the arguments
    or from the prompts. *)
Definition select_range (args_start args_end : option Z) (input : stdin)
  : option (Z * Z * stdin) :=
  match
    match args_start with
    | Some s => Some (s, input)
    | None => prompt_int START_HT input
    end
  with
  | None => None
  | Some (start, input1) =>
      match
        match args_end with
        | Some e => Some (e, input1)
        | None => prompt_int END_HT input1
        end
      with
      | None => None
      | Some (end_, input2) =>
          match end_loop (List.length input2) start end_ input2 with
          | None => None
          | Some (e, rest) => Some (start, e, rest)
          end
      end
  end.

End Prompts.

(** [str(n)] for an integer: its decimal numeral, with a minus sign when
    negative. *)
Definition str_of_int (z : Z) : str := lit (NilZero.string_of_int (Z.to_int z)).

(** [range(a, b)]. *)
Definition range (a b : Z) : list Z :=
  List.map (fun i => (a + Z.of_nat i)%Z) (seq 0 (Z.to_nat (b - a))).

(** Line 314: [[str(ht) for ht in range(START_HT, END_HT + 1)]]. *)
Definition ht_numbers (start end_ : Z) : list str :=
  List.map str_of_int (range start (end_ + 1)).

End Cli.

(** ** The values that survive the staging file *)

Module Writable.
Import Py Json.

(** The values the program writes: [None], booleans, strings, lists, and
    dicts whose keys are distinct; no number. *)
Fixpoint distinct (l : list str) : bool :=
  match l with
  | [] => true
  | k :: l' => negb (mem k l') && distinct l'
  end.

Fixpoint writable (j : json) : bool :=
  match j with
  | JNull | JBool _ | JStr _ => true
  | JNum _ => false
  | JList l => forallb writable l
  | JDict d => distinct (List.map fst d) && forallb (fun kv => writable (snd kv)) d
  end.

(** No character of the text is NEL, the line separator or the paragraph
    separator. *)
Definition no_unicode_break (s : str) : Prop :=
  Forall (fun c => c <> 133 /\ c <> 8232 /\ c <> 8233) s.

End Writable.

(* ================================================================= *)
(** * The thread pool of [main] (lines 316-319) *)

Module Pool.
Import Py Json Bs4 App.

(** Where a call of [worker] stands.  The calls run on the threads of a
    [ThreadPoolExecutor]; each statement of [worker] is one step, and the
    steps of different calls interleave. *)
Inductive thread :=
| Queued (htno : str)
| Started (htno : str)
| Holding (htno : str) (found : bool) (data : item)
| Listed (htno : str) (found : bool) (data : item)
| Written (htno : str) (found : bool)
| Failed (htno : str) (e : exn)
| Done.

Section Run.

Variable session_post : str -> outcome str.
Variable BeautifulSoup : str -> outcome Tag.
Variable AUTO_EXCEL : bool.

(** One statement of [worker] (lines 207-228): the first [print]; the call
    of [fetch_result] and the test of what it returned; [results.append];
    [append_result], whose write is done under [lock] and can raise, which
    takes the call to the handler with the record already on the list; the
    last [print]; the [print] of the handler. *)
Definition step_thread (t : thread) (st : state) : thread * state :=
  match t with
  | Queued htno => (Started htno, print (Fetching htno) st)
  | Started htno =>
      match fetch_result session_post BeautifulSoup htno with
      | Raise e => (Failed htno e, st)
      | Return data =>
          match truthy data with
          | Some data => (Holding htno true data, st)
          | None => (Holding htno false (placeholder htno), st)
          end
      end
  | Holding htno found data => (Listed htno found data, results_append data st)
  | Listed htno found data =>
      match append_result AUTO_EXCEL data st with
      | Return st' => (Written htno found, st')
      | Raise e => (Failed htno e, st)
      end
  | Written htno found =>
      (Done, print (if found then Saved htno else NoResultSaved htno) st)
  | Failed htno e => (Done, print (Error htno e) st)
  | Done => (Done, st)
  end.

(** The thread at position [i] of the pool takes its next step. *)
Fixpoint advance (i : nat) (pool : list thread) (st : state)
  : list thread * state :=
  match pool, i with
  | [], _ => ([], st)
  | t :: pool', O =>
      let (t', st') := step_thread t st in (t' :: pool', st')
  | t :: pool', S i' =>
      let (p, st') := advance i' pool' st in (t :: p, st')
  end.

(** A schedule names the thread that steps next, turn by turn.  The
    executor starts at most [MAX_WORKERS] calls at a time, which only rules
    schedules out. *)
Definition run_schedule (schedule : list nat) (c : list thread * state)
  : list thread * state :=
  fold_left (fun c i => advance i (fst c) (snd c)) schedule c.

(** [executor.submit(worker, htno) for htno in ht_numbers]. *)
Definition submit (ht_numbers : list str) : list thread :=
  List.map Queued ht_numbers.

(** [as_completed(futures)] is exhausted: every call has returned. *)
Definition all_done (pool : list thread) : bool :=
  forallb (fun t => match t with Done => true | _ => false end) pool.

End Run.

(** The error lines on the console. *)
Definition errors (out : list message) : nat :=
  List.length (filter (fun m => match m with Error _ _ => true | _ => false end) out).



End Pool.

Module PoolExamples.
Import Py.

(** Two hall tickets; the request for the second one fails. *)
Definition two_tickets : list str := [lit "110624861001"; lit "110624861002"].


End PoolExamples.

(* ================================================================= *)
(** * Protecting the grades sheet *)

Module Openpyxl.
Import Py.

(** A worksheet as the protection code sees it: its dimensions, the
    [protection.locked] flag of the cell at a row and a column (both from
    1), and the protection of the sheet. *)
Record Worksheet := mkWS {
  max_row : nat;
  max_column : nat;
  locked : nat -> nat -> bool;
  protection_sheet : bool;
  protection_password : option str
}.

(** [ws.cell(row=r, column=c).protection = Protection(locked=v)]. *)
Definition set_locked (r c : nat) (v : bool) (ws : Worksheet) : Worksheet :=
  mkWS (max_row ws) (max_column ws)
       (fun r' c' => if (r' =? r)%nat && (c' =? c)%nat then v else locked ws r' c')
       (protection_sheet ws) (protection_password ws).

(** Two nested [for] loops that set the flag of every cell of the rows and
    columns given. *)
Definition set_cells (rows cols : list nat) (v : bool) (ws : Worksheet) : Worksheet :=
  fold_left (fun ws r => fold_left (fun ws c => set_locked r c v ws) cols ws) rows ws.

(** [range(a, b)]. *)
Definition nat_range (a b : nat) : list nat := seq a (b - a).

(** Lines 438-453 of [app.py], lines 166-183 of [json_to_excel.py], on the
    sheet [grades].  [ws.iter_rows()] goes over the rows 1 to [max_row] and
    in each over the columns 1 to [max_column]. *)
Definition protect (pw : str) (ws : Worksheet) : Worksheet :=
  let ws := set_cells (nat_range 1 (max_row ws + 1)) (nat_range 1 (max_column ws + 1)) false ws in
  let max_col := max_column ws in
  let max_row := max_row ws in
  let ws := set_cells (nat_range 2 (max_row + 1)) (nat_range 2 (max_col + 1)) true ws in
  mkWS (Openpyxl.max_row ws) (max_column ws) (locked ws) true (Some pw).

(** [if protect_password:] *)
Definition protect_grades (protect_password : option str) (ws : Worksheet) : Worksheet :=
  match protect_password with
  | Some ((_ :: _) as pw) => protect pw ws
  | _ => ws
  end.

End Openpyxl.

(* ================================================================= *)
(** * Properties of the parser and of the worker *)

Module ParserFacts.
Import Py Json Bs4 App Spec.

Lemma getitem_lt {A} (l : list A) (i : nat) :
  (i < List.length l)%nat -> exists x, getitem l i = Return x /\ nth_error l i = Some x.
Proof.
  intros H. unfold getitem.
  destruct (nth_error l i) as [x|] eqn:E.
  - now exists x.
  - apply nth_error_None in E. lia.
Qed.

Lemma marks_step_spec (marks : list (dict cell)) (row : Tag) :
  marks_step marks row = Return (marks ++ mark_entries row).
Proof.
  unfold marks_step, mark_entries.
  destruct (find_all (lit "td") row) as [|c0 [|c1 [|c2 [|c3 cols]]]];
    cbn; now rewrite ?app_nil_r.
Qed.

Lemma marks_loop_spec (rows : list Tag) : forall marks,
  marks_loop marks rows = Return (marks ++ flat_map mark_entries rows).
Proof.
  induction rows as [|row rows IH]; intros marks; cbn [marks_loop flat_map].
  - now rewrite app_nil_r.
  - rewrite marks_step_spec. cbn [bind]. rewrite IH. now rewrite app_assoc.
Qed.

Lemma marks_of_spec (soup : Tag) : marks_of soup = Return (marks_table soup).
Proof.
  unfold marks_of, marks_table.
  destruct (find_id (lit "AutoNumber4") soup); [|reflexivity].
  now rewrite marks_loop_spec.
Qed.

Lemma final_result_returns (soup : Tag) : exists r, final_result_of soup = Return r.
Proof.
  unfold final_result_of.
  destruct (find_id (lit "AutoNumber5") soup) as [table5|]; [|now eexists].
  destruct (2 <? List.length (find_all (lit "tr") table5))%nat eqn:E; [|now eexists].
  apply Nat.ltb_lt in E.
  destruct (getitem_lt _ _ E) as (row & -> & _). cbn [bind].
  destruct (2 <? List.length (find_all (lit "td") row))%nat eqn:E2; [|now eexists].
  apply Nat.ltb_lt in E2.
  destruct (getitem_lt _ _ E2) as (c & -> & _). cbn [bind]. now eexists.
Qed.

Lemma student_of_shape (rows : list Tag) (student : dict cell) :
  student_of rows = Return student ->
  exists hallticket gender name father course,
    student = [ (lit "hallticket", Some hallticket);
                (lit "gender", Some gender);
                (lit "name", Some name);
                (lit "father", Some father);
                (lit "course", Some course) ].
Proof.
  unfold student_of.
  destruct (cell_text rows 1 1) as [a|]; [|discriminate].
  destruct (cell_text rows 1 3) as [b|]; [|discriminate].
  destruct (cell_text rows 2 1) as [c|]; [|discriminate].
  destruct (cell_text rows 2 3) as [d|]; [|discriminate].
  destruct (cell_text rows 3 1) as [e|]; [|discriminate].
  cbn [bind]. intros [= <-]. now exists a, b, c, d, e.
Qed.

Lemma student_of_fails (rows : list Tag) (i j : nat) (e : exn) :
  In (i, j) table_a_cells -> cell_text rows i j = Raise e ->
  exists e', student_of rows = Raise e'.
Proof.
  unfold table_a_cells, student_of. cbn [In].
  intros [H|[H|[H|[H|[H|[]]]]]] E; injection H as <- <-;
    destruct (cell_text rows 1 1); cbn [bind]; try (eexists; reflexivity); try discriminate;
    destruct (cell_text rows 1 3); cbn [bind]; try (eexists; reflexivity); try discriminate;
    destruct (cell_text rows 2 1); cbn [bind]; try (eexists; reflexivity); try discriminate;
    destruct (cell_text rows 2 3); cbn [bind]; try (eexists; reflexivity); try discriminate;
    destruct (cell_text rows 3 1); cbn [bind]; try (eexists; reflexivity); try discriminate.
Qed.

(** What the parsing phase does: it classifies the page as absent, or the
    parser rejected the markup of a body that holds the marker and its
    exception leaves, or the parser gave a tree and the record is complete,
    with the marks of the tree. *)
Lemma parse_result_cases (BeautifulSoup : str -> outcome Tag) (text : str) :
  parse_result BeautifulSoup text = Return None \/
  (exists e, contains text (lit "Personal Details") = true /\
             BeautifulSoup text = Raise e /\
             parse_result BeautifulSoup text = Raise e) \/
  exists soup it,
    BeautifulSoup text = Return soup /\
    parse_result BeautifulSoup text = Return (Some it) /\ complete it /\
    dict_get it (lit "marks") = Some (VList (marks_table soup)).
Proof.
  unfold parse_result.
  destruct (contains text (lit "Personal Details")) eqn:Em; cbn [negb]; [|now left].
  destruct (BeautifulSoup text) as [soup|e]; cbn [bind];
    [|right; left; now exists e].
  destruct (find_id (lit "AutoNumber3") soup) as [table3|]; [|now left].
  destruct (student_of (find_all (lit "tr") table3)) as [student|] eqn:E; [|now left].
  right. right. rewrite marks_of_spec. cbn [bind].
  destruct (final_result_returns soup) as (r & ->). cbn [bind].
  exists soup. eexists. split; [reflexivity|]. split; [reflexivity|].
  destruct (student_of_shape _ _ E) as (a & b & c & d & e & ->).
  split; [now exists a, b, c, d, e, (marks_table soup), r | reflexivity].
Qed.

End ParserFacts.

(* ================================================================= *)
(** * The text [json.dumps] writes for a record *)

Module DumpsFacts.
Import Py Json.

(** No control character (so no line feed) survives in the output. *)
Definition printable (s : str) : Prop := Forall (fun c => 32 <= c) s.

Ltac printable_lit := unfold printable; cbn; repeat constructor; lia.

Lemma printable_app (a b : str) : printable a -> printable b -> printable (a ++ b).
Proof. unfold printable. intros; apply Forall_app; auto. Qed.

Lemma hex_digit_printable (n : N) : 32 <= hex_digit n.
Proof. unfold hex_digit. destruct (N.ltb_spec n 10); lia. Qed.

Lemma escape_char_printable (c : N) : printable (escape_char c).
Proof.
  unfold escape_char, printable.
  repeat match goal with
         | |- context [if ?b then _ else _] => destruct b eqn:?
         end;
    repeat constructor; try lia; try apply hex_digit_printable.
  apply N.ltb_ge in Heqb6. exact Heqb6.
Qed.

Lemma encode_str_printable (s : str) : printable (encode_str s).
Proof.
  unfold encode_str. apply printable_app; [printable_lit|].
  apply printable_app; [|printable_lit].
  induction s as [|c s IH]; cbn [flat_map]; [constructor|].
  apply printable_app; [apply escape_char_printable | exact IH].
Qed.

Lemma join_printable (sep : str) (parts : list str) :
  printable sep -> Forall printable parts -> printable (join sep parts).
Proof.
  intros Hs H. induction H as [|p ps Hp Hps IH]; cbn [join]; [constructor|].
  destruct ps as [|q ps]; [exact Hp|].
  apply printable_app; [exact Hp|]. apply printable_app; [exact Hs | exact IH].
Qed.

Lemma sep_printable : printable (lit ", ").
Proof. printable_lit. Qed.

Lemma cell_json_printable (c : cell) : printable (dumps (cell_json c)).
Proof.
  destruct c as [s|]; cbn [cell_json dumps].
  - apply encode_str_printable.
  - printable_lit.
Qed.

Lemma dict_body_printable {V} (f : V -> json) (d : dict V) :
  (forall v, printable (dumps (f v))) ->
  printable (dumps (JDict (List.map (fun kv => (fst kv, f (snd kv))) d))).
Proof.
  intros Hf. cbn [dumps]. apply printable_app; [printable_lit|].
  apply printable_app; [|printable_lit].
  apply join_printable; [apply sep_printable|].
  rewrite map_map. apply Forall_forall. intros x Hx.
  apply in_map_iff in Hx. destruct Hx as ([k v] & <- & _). cbn [fst snd].
  apply printable_app; [apply encode_str_printable|].
  apply printable_app; [printable_lit | apply Hf].
Qed.

Lemma dict_json_printable (d : dict cell) : printable (dumps (dict_json d)).
Proof. apply (dict_body_printable cell_json), cell_json_printable. Qed.

Lemma value_json_printable (v : value) : printable (dumps (value_json v)).
Proof.
  destruct v as [d|l|c]; cbn [value_json].
  - apply dict_json_printable.
  - cbn [dumps]. apply printable_app; [printable_lit|].
    apply printable_app; [|printable_lit].
    apply join_printable; [apply sep_printable|].
    rewrite map_map. apply Forall_forall. intros x Hx.
    apply in_map_iff in Hx. destruct Hx as (d & <- & _). apply dict_json_printable.
  - apply cell_json_printable.
Qed.

Lemma item_json_printable (it : item) : printable (dumps (item_json it)).
Proof. apply (dict_body_printable value_json), value_json_printable. Qed.


Lemma universal_newlines_printable (s : str) :
  printable s -> universal_newlines s = s.
Proof.
  induction 1 as [|c s Hc Hs IH]; [reflexivity|].
  cbn [universal_newlines]. rewrite IH.
  destruct (N.eqb_spec c 13); [lia | reflexivity].
Qed.

End DumpsFacts.

(* ================================================================= *)
(** * The parser fails closed; the marks follow the table *)

Module ParserClaims.
Import Py Json Bs4 App Spec ParserFacts.

(** C3, amended.  For every response body: when the marker text is
    missing the parsing phase of [fetch_result] returns the absent
    classification, and the HTML parser is not called.  When the parser
    gives a tree, the parsing phase returns and does not raise; it returns
    the absent classification when no element has the id of the
    personal-details table and when any of the five cell accesses of
    Table A raises; and a record it does return is complete: the student
    has all five fields.  When the body holds the marker and the parser
    rejects its markup, the exception of the parser leaves
    [fetch_result]: the call of [BeautifulSoup] is outside the [try]. *)
Theorem parse_result_fails_closed (BeautifulSoup : str -> outcome Tag) (text : str) :
  (contains text (lit "Personal Details") = false ->
   parse_result BeautifulSoup text = Return None) /\
  (forall soup,
     BeautifulSoup text = Return soup ->
     (exists r, parse_result BeautifulSoup text = Return r) /\
     (find_id (lit "AutoNumber3") soup = None ->
      parse_result BeautifulSoup text = Return None) /\
     (forall table3 i j e,
        find_id (lit "AutoNumber3") soup = Some table3 ->
        In (i, j) table_a_cells ->
        cell_text (find_all (lit "tr") table3) i j = Raise e ->
        parse_result BeautifulSoup text = Return None) /\
     (forall it, parse_result BeautifulSoup text = Return (Some it) -> complete it)) /\
  (forall e,
     contains text (lit "Personal Details") = true ->
     BeautifulSoup text = Raise e ->
     parse_result BeautifulSoup text = Raise e).
Proof.
  split; [|split].
  - intros H. unfold parse_result. now rewrite H.
  - intros soup Hs. repeat split.
    + destruct (parse_result_cases BeautifulSoup text)
        as [->|[(e & _ & He & _)|(soup' & it & _ & -> & _)]];
        [now eexists | congruence | now eexists].
    + intros H. unfold parse_result. rewrite Hs. cbn [bind]. rewrite H.
      now destruct (negb (contains text (lit "Personal Details"))).
    + intros table3 i j e Ht Hin Hc. unfold parse_result. rewrite Hs. cbn [bind].
      rewrite Ht. destruct (student_of_fails _ _ _ _ Hin Hc) as (e' & ->).
      now destruct (negb (contains text (lit "Personal Details"))).
    + intros it H.
      destruct (parse_result_cases BeautifulSoup text)
        as [E|[(e & _ & _ & E)|(soup' & it' & _ & E & Hc & _)]];
        rewrite E in H; try discriminate. now injection H as <-.
  - intros e Hm He. unfold parse_result. rewrite Hm, He. reflexivity.
Qed.

(** The body [rejected_text] holds the marker; the parser rejects its
    markup, and the parsing phase raises instead of returning. *)
Lemma parser_rejection_leaves_fetch_result :
  contains Examples.rejected_text (lit "Personal Details") = true /\
  parse_result Examples.rejecting_parser Examples.rejected_text =
    Raise ParserRejectedMarkup.
Proof. split; vm_compute; reflexivity. Qed.

(** A page with the marker whose second Table A row has two cells only is
    classified absent. *)
Lemma parse_result_fails_closed_witness :
  parse_result (fun _ => Return Examples.short_page) Examples.page_text = Return None.
Proof.
  refine (proj1 (proj2 (proj2
            (proj1 (proj2
               (parse_result_fails_closed (fun _ => Return Examples.short_page)
                  Examples.page_text))
               Examples.short_page eq_refl)))
          (Examples.table "AutoNumber3"
             [ Examples.tr [Examples.td "Personal Details"];
               Examples.tr [Examples.td "Hall Ticket No."; Examples.td "110624861001"] ])
          1%nat 3%nat IndexError _ _ _).
  - reflexivity.
  - right; left; reflexivity.
  - reflexivity.
Defined.

(** C7.  For every page the parser accepts, the marks of the record are
    the entries of the marks table (the element with id [AutoNumber4]): its
    rows from the third on, in order, each row with at least four cells
    giving one entry made of the stripped texts of its first four cells,
    each shorter row giving nothing; building them raises no error.
    Without a marks table the marks are empty. *)
Theorem marks_follow_table (BeautifulSoup : str -> outcome Tag) (text : str) (it : item) :
  parse_result BeautifulSoup text = Return (Some it) ->
  (exists soup,
     BeautifulSoup text = Return soup /\
     dict_get it (lit "marks") =
       Some (VList
               match find_id (lit "AutoNumber4") soup with
               | Some table4 =>
                   flat_map mark_entries (skipn 2 (find_all (lit "tr") table4))
               | None => []
               end) /\
     marks_of soup = Return (marks_table soup)) /\
  (forall row c0 c1 c2 c3 rest,
     find_all (lit "td") row = c0 :: c1 :: c2 :: c3 :: rest ->
     mark_entries row =
       [ [ (lit "code", Some (get_text_strip c0));
           (lit "subject", Some (get_text_strip c1));
           (lit "credits", Some (get_text_strip c2));
           (lit "grade", Some (get_text_strip c3)) ] ]) /\
  (forall row, (List.length (find_all (lit "td") row) < 4)%nat ->
               mark_entries row = []).
Proof.
  intros H. split; [|split].
  - destruct (parse_result_cases BeautifulSoup text)
      as [E|[(e & _ & _ & E)|(soup & it' & Hs & E & _ & Hm)]];
      rewrite E in H; try discriminate. injection H as <-.
    exists soup. split; [exact Hs|]. split; [exact Hm | apply marks_of_spec].
  - intros row c0 c1 c2 c3 rest E. unfold mark_entries. now rewrite E.
  - intros row Hlen. unfold mark_entries.
    destruct (find_all (lit "td") row) as [|c0 [|c1 [|c2 [|c3 cols]]]];
      try reflexivity. cbn in Hlen. lia.
Qed.

(** On the example page the third row gives the one entry and the short
    fourth row gives none. *)
Lemma marks_follow_table_witness :
  dict_get Examples.asha (lit "marks") =
    Some (VList [ [ (lit "code", Some (lit "MATH101"));
                    (lit "subject", Some (lit "Algebra"));
                    (lit "credits", Some (lit "4"));
                    (lit "grade", Some (lit "A")) ] ]).
Proof.
  destruct (proj1 (marks_follow_table (fun _ => Return Examples.page) Examples.page_text
                     Examples.asha eq_refl))
    as (soup & Hs & Hm & _).
  injection Hs as <-. exact Hm.
Defined.

End ParserClaims.

(* ================================================================= *)
(** * The worker appends one record per outcome that is not an exception *)

Module WorkerClaims.
Import Py Json Bs4 App Spec ParserFacts DumpsFacts.

Section Worker.

Variable session_post : str -> outcome str.
Variable BeautifulSoup : str -> outcome Tag.
Variable AUTO_EXCEL : bool.





End Worker.



End WorkerClaims.

(* ================================================================= *)
(** * Reading the staging file back *)

Module LoaderFacts.
Import Py Json App Spec.

(** The values a reader keeps from a list of lines: those of the lines
    that are not blank and that [json.loads] accepts once stripped. *)
Definition kept (lines : list str) : list json :=
  flat_map
    (fun line =>
       match strip line with
       | [] => []
       | (_ :: _) as l =>
           match loads l with
           | Return v => [v]
           | Raise _ => []
           end
       end)
    lines.

Lemma read_step_kept (lines : list str) : forall final,
  fold_left read_step lines final = final ++ kept lines.
Proof.
  induction lines as [|line lines IH]; intros final; cbn [fold_left kept flat_map].
  - now rewrite app_nil_r.
  - rewrite IH. fold (kept lines). unfold read_step.
    destruct (strip line) as [|c l]; [reflexivity|].
    destruct (loads (c :: l)); cbn [app]; [now rewrite <- app_assoc | reflexivity].
Qed.

Lemma load_step_kept (lines : list str) : forall items,
  fold_left JsonToExcel.load_step lines items = items ++ kept lines.
Proof.
  induction lines as [|line lines IH]; intros items; cbn [fold_left kept flat_map].
  - now rewrite app_nil_r.
  - rewrite IH. fold (kept lines). unfold JsonToExcel.load_step.
    destruct (strip line) as [|c l]; [reflexivity|].
    destruct (loads (c :: l)); cbn [app]; [now rewrite <- app_assoc | reflexivity].
Qed.

(** The reading loop of [main] returns, for every text of the file, the
    values of its acceptable lines in file order. *)
Lemma read_final_kept (raw : str) :
  read_final raw = kept (readlines (universal_newlines raw)).
Proof. unfold read_final. now rewrite read_step_kept. Qed.

(** [load_items] on a text that does not start with a bracket never raises
    and returns the values of the acceptable pieces [splitlines] cuts. *)
Lemma load_items_ndjson (raw : str) (c : N) (txt : str) :
  strip (universal_newlines raw) = c :: txt -> c <> 91 ->
  JsonToExcel.load_items raw = Return (kept (splitlines (c :: txt))).
Proof.
  intros E Hc. unfold JsonToExcel.load_items. rewrite E.
  destruct (N.eqb_spec c 91); [contradiction|].
  now rewrite load_step_kept.
Qed.

End LoaderFacts.

Module LoaderClaims.
Import Py Json App Spec Examples.

(** C6, evaluated where it fails.  A placeholder and the record [rani],
    whose name holds the line separator U+2028, are appended to an empty
    staging file.  [load_items] returns the placeholder only: the record of
    hall ticket 110624861002 is cut in two by [splitlines] and both halves
    are skipped as malformed.  The reading loop of [main] returns both
    records from the same file. *)
Theorem load_items_loses_appended_record :
  JsonToExcel.load_items (staged [Placeholder (lit "110624861001"); rani]) =
    Return [item_json (to_item (Placeholder (lit "110624861001")))] /\
  read_final (staged [Placeholder (lit "110624861001"); rani]) =
    [item_json (to_item (Placeholder (lit "110624861001")));
     item_json (to_item rani)].
Proof. split; vm_compute; reflexivity. Qed.

(** C10, evaluated where it fails.  The staging file holds the one record
    [kiran], whose father's name holds the character U+0085.  The file has
    one line, and [json.loads] accepts it; the reading loop of [main]
    returns its record; [load_items] returns nothing. *)
Theorem load_items_skips_well_formed_line :
  readlines (universal_newlines (staged [kiran])) =
    [dumps (item_json (to_item kiran)) ++ [10]] /\
  loads (strip (dumps (item_json (to_item kiran)) ++ [10])) =
    Return (item_json (to_item kiran)) /\
  read_final (staged [kiran]) = [item_json (to_item kiran)] /\
  JsonToExcel.load_items (staged [kiran]) = Return [].
Proof. repeat split; vm_compute; reflexivity. Qed.

End LoaderClaims.

(* ================================================================= *)
(** * Strings, membership and sorting *)

Module ListFacts.
Import Py Pandas.

Lemma str_eqb_eq (a b : str) : str_eqb a b = true <-> a = b.
Proof.
  revert b. induction a as [|x a IH]; intros [|y b]; cbn [str_eqb];
    try (split; [discriminate | discriminate]); [tauto|].
  rewrite andb_true_iff, N.eqb_eq, IH. split; [intros [-> ->] | intros [= -> ->]]; auto.
Qed.

Lemma str_eqb_refl (a : str) : str_eqb a a = true.
Proof. now apply str_eqb_eq. Qed.

Lemma str_eqb_neq (a b : str) : str_eqb a b = false <-> a <> b.
Proof.
  rewrite <- str_eqb_eq. destruct (str_eqb a b); split; congruence.
Qed.

Lemma str_eqb_sym (a b : str) : str_eqb a b = str_eqb b a.
Proof.
  destruct (str_eqb a b) eqn:E.
  - apply str_eqb_eq in E. subst. now rewrite str_eqb_refl.
  - symmetry. apply str_eqb_neq. apply str_eqb_neq in E. congruence.
Qed.

Lemma mem_In (k : str) (l : list str) : mem k l = true <-> In k l.
Proof.
  unfold mem. rewrite existsb_exists. split.
  - intros (x & Hx & E). apply str_eqb_eq in E. now subst.
  - intros H. exists k. split; [exact H | apply str_eqb_refl].
Qed.

Lemma mem_false (k : str) (l : list str) : mem k l = false <-> ~ In k l.
Proof. rewrite <- mem_In. destruct (mem k l); split; congruence. Qed.

Lemma mem_app (k : str) (a b : list str) : mem k (a ++ b) = mem k a || mem k b.
Proof. unfold mem. apply existsb_app. Qed.

(** [add_new] and [uniq]: first appearances, no repetition. *)
Lemma fold_add_new_In (l acc : list str) (x : str) :
  In x (fold_left add_new l acc) <-> In x acc \/ In x l.
Proof.
  revert acc. induction l as [|k l IH]; intros acc; cbn [fold_left In]; [tauto|].
  rewrite IH. unfold add_new. destruct (mem k acc) eqn:E.
  - apply mem_In in E. split; [tauto|]. intros [H|[<-|H]]; auto.
  - rewrite in_app_iff. cbn [In]. tauto.
Qed.

Lemma fold_add_new_NoDup (l acc : list str) :
  NoDup acc -> NoDup (fold_left add_new l acc).
Proof.
  revert acc. induction l as [|k l IH]; intros acc H; cbn [fold_left]; [exact H|].
  apply IH. unfold add_new. destruct (mem k acc) eqn:E; [exact H|].
  apply mem_false in E. apply NoDup_app; [exact H | repeat constructor; intros [] |].
  intros x Hx [<-|[]]. contradiction.
Qed.

Lemma fold_add_new_prefix (l acc : list str) :
  exists suffix, fold_left add_new l acc = acc ++ suffix.
Proof.
  revert acc. induction l as [|k l IH]; intros acc; cbn [fold_left].
  - exists []. now rewrite app_nil_r.
  - destruct (IH (add_new acc k)) as (s & ->). unfold add_new.
    destruct (mem k acc); [now exists s|]. exists (k :: s). now rewrite <- app_assoc.
Qed.

Lemma fold_add_new_present (l acc : list str) :
  (forall k, In k l -> In k acc) -> fold_left add_new l acc = acc.
Proof.
  revert acc. induction l as [|k l IH]; intros acc H; cbn [fold_left]; [reflexivity|].
  unfold add_new at 2. destruct (mem k acc) eqn:E.
  - apply IH. intros k' Hk'. apply H. now right.
  - apply mem_false in E. exfalso. apply E, H. now left.
Qed.

Lemma uniq_In (l : list str) (x : str) : In x (uniq l) <-> In x l.
Proof. unfold uniq. rewrite fold_add_new_In. cbn [In]. tauto. Qed.

Lemma uniq_NoDup (l : list str) : NoDup (uniq l).
Proof. apply fold_add_new_NoDup. constructor. Qed.

(** The insertion sort: a sorted permutation of its input. *)
Section Sorting.

Context {A : Type} (leb : A -> A -> bool).

Lemma insert_perm (x : A) (l : list A) : Permutation (insert leb x l) (x :: l).
Proof.
  induction l as [|y l IH]; cbn [insert]; [reflexivity|].
  destruct (leb x y); [reflexivity|].
  rewrite IH. apply perm_swap.
Qed.

Lemma isort_perm (l : list A) : Permutation (isort leb l) l.
Proof.
  induction l as [|x l IH]; cbn [isort]; [reflexivity|].
  rewrite insert_perm. now constructor.
Qed.

Hypothesis leb_total : forall a b, leb a b = true \/ leb b a = true.
Hypothesis leb_trans : forall a b c, leb a b = true -> leb b c = true -> leb a c = true.

Let le (a b : A) : Prop := leb a b = true.

Lemma insert_sorted (x : A) (l : list A) :
  StronglySorted le l -> StronglySorted le (insert leb x l).
Proof.
  induction 1 as [|y l Hs IH Hy]; cbn [insert]; [repeat constructor|].
  destruct (leb x y) eqn:E.
  - constructor; [now constructor|]. constructor; [exact E|].
    eapply Forall_impl; [|exact Hy]. intros z Hz. now apply (leb_trans x y z).
  - constructor; [exact IH|].
    eapply Permutation_Forall; [symmetry; apply insert_perm|].
    constructor; [|exact Hy].
    destruct (leb_total x y) as [H|H]; [congruence | exact H].
Qed.

Lemma isort_sorted (l : list A) : StronglySorted le (isort leb l).
Proof.
  induction l as [|x l IH]; cbn [isort]; [constructor | now apply insert_sorted].
Qed.

End Sorting.

Lemma Forall2_map_right {A B} (P : A -> B -> Prop) (f : A -> B) (l : list A) :
  (forall a, P a (f a)) -> Forall2 P l (List.map f l).
Proof. intros H. induction l; cbn [List.map]; constructor; auto. Qed.

End ListFacts.

(* ================================================================= *)
(** * The frames the report builder makes from result records *)

Module FrameFacts.
Import Py Json Pandas Spec ListFacts.

Lemma rec_get_combine_map (f : str -> cell) (cols : list str) (k : str) :
  rec_get (combine cols (List.map f cols)) k = if mem k cols then f k else None.
Proof.
  unfold rec_get. induction cols as [|c cols IH]; cbn [combine List.map dict_get mem existsb];
    [reflexivity|].
  rewrite (str_eqb_sym k c). destruct (str_eqb c k) eqn:E; cbn [orb].
  - apply str_eqb_eq in E. now subst.
  - exact IH.
Qed.

Lemma dict_get_app {V} (a b : dict V) (k : str) :
  dict_get (a ++ b) k =
    match dict_get a k with
    | Some v => Some v
    | None => dict_get b k
    end.
Proof.
  induction a as [|[k' v] a IH]; cbn [app dict_get]; [reflexivity|].
  destruct (str_eqb k' k); [reflexivity | exact IH].
Qed.

Lemma dict_get_combine_None (cols : list str) (row : list cell) (k : str) :
  mem k cols = false -> dict_get (combine cols row) k = None.
Proof.
  revert row. induction cols as [|c cols IH]; intros row H; [reflexivity|].
  destruct row as [|x row]; [reflexivity|]. cbn [combine dict_get].
  cbn [mem existsb] in H. apply orb_false_iff in H. destruct H as [H1 H2].
  rewrite str_eqb_sym, H1. now apply IH.
Qed.

Lemma dict_get_combine_Some (cols : list str) (row : list cell) (k : str) :
  mem k cols = true -> List.length cols = List.length row ->
  exists v, dict_get (combine cols row) k = Some v.
Proof.
  revert row. induction cols as [|c cols IH]; intros row H L; [discriminate|].
  destruct row as [|x row]; [discriminate|]. cbn [combine dict_get].
  cbn [mem existsb] in H. rewrite str_eqb_sym in H.
  destruct (str_eqb c k); [now eexists|]. cbn [orb] in H.
  apply IH; [exact H | now injection L].
Qed.

Lemma combine_app_same {A B} (a a' : list A) (b b' : list B) :
  List.length a = List.length b ->
  combine (a ++ a') (b ++ b') = combine a b ++ combine a' b'.
Proof.
  revert b. induction a as [|x a IH]; intros [|y b] L; try discriminate; [reflexivity|].
  cbn [app combine]. f_equal. apply IH. now injection L.
Qed.

(** Looking a column up in a row that was extended on the right. *)
Lemma row_get_app (cols cols' : list str) (row row' : list cell) (k : str) :
  List.length cols = List.length row ->
  row_get (cols ++ cols') (row ++ row') k =
    if mem k cols then row_get cols row k else row_get cols' row' k.
Proof.
  intros L. unfold row_get, rec_get.
  rewrite combine_app_same by exact L. rewrite dict_get_app.
  destruct (mem k cols) eqn:E.
  - destruct (dict_get_combine_Some cols row k E L) as (v & ->). reflexivity.
  - now rewrite dict_get_combine_None.
Qed.

Lemma row_get_missing (cols : list str) (row : list cell) (k : str) :
  mem k cols = false -> row_get cols row k = None.
Proof. intros H. unfold row_get, rec_get. now rewrite dict_get_combine_None. Qed.

Lemma row_get_all_None (cols : list str) (k : str) :
  row_get cols (List.map (fun _ => None) cols) k = None.
Proof.
  unfold row_get. rewrite (rec_get_combine_map (fun _ => None)).
  now destruct (mem k cols).
Qed.

(** *** Labels that occur once, and [reindex] *)

Lemma is_unique_NoDup (l : list str) : is_unique l = true <-> NoDup l.
Proof.
  induction l as [|k l IH]; cbn [is_unique].
  - split; [constructor | reflexivity].
  - rewrite andb_true_iff, negb_true_iff, mem_false, IH. split.
    + intros [H1 H2]. now constructor.
    + intros H. inversion H; subst. now split.
Qed.

Lemma labels_eqb_eq (a b : list str) : labels_eqb a b = true <-> a = b.
Proof.
  revert b. induction a as [|x a IH]; intros [|y b]; cbn [labels_eqb];
    try (split; [discriminate | discriminate]); [tauto|].
  rewrite andb_true_iff, str_eqb_eq, IH. split.
  - intros [-> ->]. reflexivity.
  - intros [= -> ->]. now split.
Qed.

Lemma reindex_unique (df : DataFrame) (cols : list str) :
  NoDup (columns df) -> reindex df cols = Return (select_columns df cols).
Proof. intros H. unfold reindex. now rewrite (proj2 (is_unique_NoDup _) H). Qed.

(** What [reindex] returns has the rows of the frame in number, and the
    columns asked for. *)
Lemma reindex_shape (df d : DataFrame) (cols : list str) :
  reindex df cols = Return d ->
  columns d = cols /\ List.length (rows d) = List.length (rows df).
Proof.
  unfold reindex. destruct (is_unique (columns df)).
  - intros [= <-]. cbn [select_columns columns rows]. now rewrite length_map.
  - destruct (labels_eqb (columns df) cols) eqn:E; [|discriminate].
    apply labels_eqb_eq in E. intros [= <-]. now split.
Qed.

(** *** Dropping a column *)

Lemma drop_cells_absent (c : str) (cols : list str) : forall row,
  mem c cols = false -> drop_cells c cols row = row.
Proof.
  induction cols as [|k cols IH]; intros row H; [now destruct row|].
  destruct row as [|x row]; [reflexivity|]. cbn [drop_cells].
  cbn [mem existsb] in H. apply orb_false_iff in H. destruct H as [H1 H2].
  rewrite str_eqb_sym, H1. f_equal. now apply IH.
Qed.

Lemma drop_column_absent (df : DataFrame) (c : str) :
  mem c (columns df) = false -> drop_column df c = df.
Proof.
  intros H. destruct df as [cols rs]. unfold drop_column. cbn [columns rows] in *.
  f_equal.
  - clear rs. induction cols as [|k cols IH]; [reflexivity|].
    cbn [mem existsb] in H. apply orb_false_iff in H. destruct H as [H1 H2].
    cbn [filter]. rewrite str_eqb_sym, H1. cbn [negb]. f_equal. now apply IH.
  - rewrite <- (map_id rs) at 2. apply map_ext. intros r. now apply drop_cells_absent.
Qed.

Lemma row_get_drop (c k : str) (cols : list str) : forall row,
  k <> c ->
  row_get (filter (fun x => negb (str_eqb x c)) cols) (drop_cells c cols row) k =
    row_get cols row k.
Proof.
  unfold row_get, rec_get.
  induction cols as [|x cols IH]; intros row Hk; [now destruct row|].
  destruct row as [|v row].
  - change (drop_cells c (x :: cols) []) with (@nil cell). now rewrite !combine_nil.
  - cbn [drop_cells filter]. destruct (str_eqb x c) eqn:E; cbn [negb combine dict_get].
    + apply str_eqb_eq in E. subst x.
      rewrite (proj2 (str_eqb_neq c k)) by (intros ->; now apply Hk).
      now apply IH.
    + destruct (str_eqb x k); [reflexivity | now apply IH].
Qed.

Lemma drop_cells_In (c : str) (cols : list str) : forall row x,
  In x (drop_cells c cols row) -> In x row.
Proof.
  induction cols as [|k cols IH]; intros row x H; [now destruct row|].
  destruct row as [|v row]; [exact H|]. cbn [drop_cells] in H.
  destruct (str_eqb k c).
  - right. now apply IH.
  - destruct H as [<-|H]; [now left | right; now apply IH].
Qed.

Lemma column_drop (df : DataFrame) (c k : str) :
  k <> c -> column (drop_column df c) k = column df k.
Proof.
  intros H. unfold column, drop_column. cbn [columns rows]. rewrite map_map.
  apply map_ext. intros r. now apply row_get_drop.
Qed.

End FrameFacts.

(* ================================================================= *)
(** * The rows and the marks table of a list of result records *)

Module RecordFrames.
Import Py Json Pandas Spec ListFacts FrameFacts.

Lemma mark_row_record (h : str) (m : MarkEntry) :
  App.mark_row (Some h) (mark_dict m) =
    combine App.expected_mark_cols (mark_cells (h, m)).
Proof. reflexivity. Qed.

Lemma rows_step_record (acc : list (dict cell) * list (dict cell)) (r : ResultRecord) :
  App.rows_step acc (to_item r) =
    Return (fst acc ++ [flat_row r],
            snd acc ++
              List.map (fun hm => combine App.expected_mark_cols (mark_cells hm))
                (List.map (pair (hallticket_of_record r)) (marks_of_record r))).
Proof.
  destruct r as [h g n f c ms res | h]; [|reflexivity].
  unfold App.rows_step. cbn [to_item hallticket_of_record marks_of_record].
  change (App.hallticket_of _) with (Return (A := cell) (Some h)).
  change (App.marks_iter _) with (Return (List.map mark_dict ms)).
  cbn [bind]. f_equal. f_equal. f_equal.
  rewrite !map_map. apply map_ext. intros m. apply mark_row_record.
Qed.

Definition mark_record (hm : str * MarkEntry) : dict cell :=
  combine App.expected_mark_cols (mark_cells hm).

Lemma rows_loop_records (rs : list ResultRecord) : forall acc,
  App.rows_loop acc (List.map to_item rs) =
    Return (fst acc ++ List.map flat_row rs,
            snd acc ++ List.map mark_record (all_marks rs)).
Proof.
  induction rs as [|r rs IH]; intros acc; cbn [List.map App.rows_loop].
  - cbn [all_marks flat_map List.map]. rewrite !app_nil_r. now destruct acc.
  - rewrite rows_step_record. cbn [bind]. rewrite IH. cbn [fst snd].
    unfold all_marks. cbn [flat_map]. rewrite map_app, <- !app_assoc. reflexivity.
Qed.

Lemma mark_columns (ms : list (str * MarkEntry)) : forall acc,
  (forall k, In k App.expected_mark_cols -> In k acc) ->
  fold_left (fun acc r => fold_left add_new (keys r) acc) (List.map mark_record ms) acc = acc.
Proof.
  induction ms as [|m ms IH]; intros acc H; cbn [List.map fold_left]; [reflexivity|].
  change (keys (mark_record m)) with App.expected_mark_cols.
  rewrite fold_add_new_present by exact H. now apply IH.
Qed.

Lemma DataFrame_of_mark_records (ms : list (str * MarkEntry)) :
  ms <> [] ->
  DataFrame_of_records (List.map mark_record ms) =
    mkDF App.expected_mark_cols (List.map mark_cells ms).
Proof.
  intros Hms.
  assert (Hc : fold_left (fun acc r => fold_left add_new (keys r) acc)
                 (List.map mark_record ms) [] = App.expected_mark_cols).
  { destruct ms as [|m ms]; [contradiction|]. cbn [List.map fold_left].
    change (keys (mark_record m)) with App.expected_mark_cols.
    change (fold_left add_new App.expected_mark_cols []) with App.expected_mark_cols.
    apply mark_columns. auto. }
  unfold DataFrame_of_records. cbv zeta. rewrite Hc. f_equal.
  rewrite map_map. apply map_ext. intros hm. reflexivity.
Qed.

(** The long-form marks table is the table of the mark rows, whether there
    are marks or not. *)
Lemma marks_frame_records (rs : list ResultRecord) :
  App.marks_frame (List.map mark_record (all_marks rs)) = Return (marks_table_of rs).
Proof.
  unfold marks_table_of. destruct (all_marks rs) as [|m ms] eqn:E; [reflexivity|].
  unfold App.marks_frame. rewrite DataFrame_of_mark_records by discriminate.
  change (empty _) with false. cbv iota.
  unfold reindex. cbn [columns].
  change (is_unique App.expected_mark_cols) with true. cbv iota. cbn [bind].
  unfold fillna, select_columns. cbn [columns rows]. f_equal. f_equal.
  rewrite !map_map.
  rewrite <- (map_id (List.map mark_cells (m :: ms))) at 1.
  rewrite map_map. apply map_ext. intros hm. reflexivity.
Qed.

Lemma marks_table_empty (rs : list ResultRecord) :
  empty (marks_table_of rs) = match all_marks rs with [] => true | _ => false end.
Proof. unfold marks_table_of. now destruct (all_marks rs). Qed.

(** The columns of [pd.DataFrame(records)] are the keys of the records in
    order of first appearance. *)
Lemma fold_keys_flat_map (records : list (dict cell)) : forall acc,
  fold_left (fun acc r => fold_left add_new (keys r) acc) records acc =
    fold_left add_new (flat_map keys records) acc.
Proof.
  induction records as [|r records IH]; intros acc; cbn [fold_left flat_map]; [reflexivity|].
  now rewrite fold_left_app, IH.
Qed.

Lemma DataFrame_of_records_columns (records : list (dict cell)) :
  columns (DataFrame_of_records records) = uniq (flat_map keys records).
Proof. unfold DataFrame_of_records, uniq. cbn [columns]. apply fold_keys_flat_map. Qed.

Lemma DataFrame_of_records_rows (records : list (dict cell)) :
  rows (DataFrame_of_records records) =
    List.map (fun r => List.map (rec_get r) (columns (DataFrame_of_records records)))
      records.
Proof. reflexivity. Qed.

Lemma flat_table_has_key (rs : list ResultRecord) (r : ResultRecord) (k : str) :
  In r rs -> In k (keys (flat_row r)) -> mem k (columns (flat_table rs)) = true.
Proof.
  intros Hr Hk. apply mem_In. unfold flat_table.
  rewrite DataFrame_of_records_columns, uniq_In. apply in_flat_map.
  exists (flat_row r). split; [now apply in_map | exact Hk].
Qed.

Lemma flat_row_hallticket (r : ResultRecord) :
  rec_get (flat_row r) (lit "hallticket") = Some (hallticket_of_record r).
Proof. now destruct r. Qed.

Lemma flat_row_has_hallticket (r : ResultRecord) :
  In (lit "hallticket") (keys (flat_row r)).
Proof. destruct r; cbn; tauto. Qed.

(** The hall tickets of the flattened table are those of the records, in
    order. *)
Lemma flat_table_hallticket (rs : list ResultRecord) :
  column (flat_table rs) (lit "hallticket") =
    List.map (fun r => Some (hallticket_of_record r)) rs.
Proof.
  unfold column, flat_table. rewrite DataFrame_of_records_rows, !map_map.
  apply map_ext_in. intros r Hr. unfold row_get.
  rewrite rec_get_combine_map.
  fold (flat_table rs).
  rewrite (flat_table_has_key rs r _ Hr (flat_row_has_hallticket r)).
  apply flat_row_hallticket.
Qed.

End RecordFrames.

(* ================================================================= *)
(** * The final conversion of [main] on result records *)

Module MainReport.
Import Py Json Pandas App Spec ListFacts FrameFacts RecordFrames.

Lemma no_marks_all_marks (rs : list ResultRecord) :
  Forall (fun r => marks_of_record r = []) rs <-> all_marks rs = [].
Proof.
  unfold all_marks. induction rs as [|r rs IH]; cbn [flat_map].
  - split; [reflexivity | constructor].
  - split.
    + intros H. inversion H as [|? ? Hr Hrs]; subst. rewrite Hr. cbn [List.map app].
      now apply IH.
    + intros H. apply app_eq_nil in H. destruct H as [H1 H2].
      constructor; [|now apply IH].
      destruct (marks_of_record r); [reflexivity | discriminate].
Qed.

Section Conversion.

Variable to_int : str -> option Z.

(** Without any mark row the conversion takes the short branch. *)
Lemma final_conversion_without_marks (rs : list ResultRecord) :
  all_marks rs = [] ->
  final_conversion to_int (List.map to_item rs) =
    Return [ (lit "results", flat_table rs);
             (lit "grades", DataFrame_of_columns [lit "hallticket"]);
             (lit "marks", DataFrame_of_columns expected_mark_cols);
             (lit "raw", raw_frame (List.map to_item rs)) ].
Proof.
  intros H. unfold final_conversion. rewrite rows_loop_records. cbn [bind fst snd app].
  rewrite marks_frame_records. cbn [bind]. rewrite marks_table_empty, H. cbn [negb].
  unfold marks_table_of. rewrite H. reflexivity.
Qed.

(** C9.  When every record has an empty marks list, the final conversion
    of [main] returns the workbook whose results sheet is the flattened
    table as [pd.DataFrame] built it: its columns are the keys of the
    flattened rows in order of first appearance, with no core-first
    reordering, and its rows are those of the records in the order of the
    staging file, with no sort; the grades and marks sheets have their
    headers only. *)
Theorem no_marks_no_reordering (rs : list ResultRecord) :
  Forall (fun r => marks_of_record r = []) rs ->
  final_conversion to_int (List.map to_item rs) =
    Return [ (lit "results", flat_table rs);
             (lit "grades", DataFrame_of_columns [lit "hallticket"]);
             (lit "marks", DataFrame_of_columns expected_mark_cols);
             (lit "raw", raw_frame (List.map to_item rs)) ] /\
  columns (flat_table rs) = uniq (flat_map (fun r => keys (flat_row r)) rs) /\
  rows (flat_table rs) =
    List.map (fun r => List.map (rec_get (flat_row r)) (columns (flat_table rs))) rs /\
  column (flat_table rs) (lit "hallticket") =
    List.map (fun r => Some (hallticket_of_record r)) rs.
Proof.
  intros H. apply no_marks_all_marks in H. repeat split.
  - now apply final_conversion_without_marks.
  - unfold flat_table. rewrite DataFrame_of_records_columns.
    f_equal. now rewrite flat_map_concat_map, map_map, <- flat_map_concat_map.
  - unfold flat_table. rewrite DataFrame_of_records_rows. now rewrite map_map.
  - apply flat_table_hallticket.
Qed.

End Conversion.

(** Two placeholders staged out of order stay out of order, and the
    [hallticket] column stays last. *)
Lemma no_marks_no_reordering_witness :
  final_conversion Examples.decimal_int
    (List.map to_item [Placeholder (lit "110624861002"); Placeholder (lit "110624861001")]) =
    Return
      [ (lit "results",
         mkDF [lit "student.hallticket"; lit "result"; lit "status"; lit "hallticket"]
           [ [Some (lit "110624861002"); None; Some (lit "NO_RESULT");
              Some (lit "110624861002")];
             [Some (lit "110624861001"); None; Some (lit "NO_RESULT");
              Some (lit "110624861001")] ]);
        (lit "grades", DataFrame_of_columns [lit "hallticket"]);
        (lit "marks", DataFrame_of_columns expected_mark_cols);
        (lit "raw",
         raw_frame
           (List.map to_item
              [Placeholder (lit "110624861002"); Placeholder (lit "110624861001")])) ].
Proof.
  refine (proj1 (no_marks_no_reordering Examples.decimal_int
                   [Placeholder (lit "110624861002"); Placeholder (lit "110624861001")] _)).
  repeat constructor.
Defined.

End MainReport.

(* ================================================================= *)
(** * Pivots and merges *)

Module PivotFacts.
Import Py Json Pandas App Spec ListFacts FrameFacts RecordFrames.

Lemma triples_marks (rs : list ResultRecord) (v : str) (sel : MarkEntry -> str) :
  (forall hm, row_get expected_mark_cols (mark_cells hm) v = Some (sel (snd hm))) ->
  triples (marks_table_of rs) (lit "hallticket") (lit "code") v =
    List.map (fun hm => (fst hm, code (snd hm), sel (snd hm))) (all_marks rs).
Proof.
  intros Hv. unfold triples, marks_table_of. cbn [rows columns].
  induction (all_marks rs) as [|hm ms IH]; [reflexivity|].
  cbn [List.map flat_map]. rewrite IH, Hv. reflexivity.
Qed.

Lemma pivot_table_marks (rs : list ResultRecord) (v : str) (sel : MarkEntry -> str) :
  (forall hm, row_get expected_mark_cols (mark_cells hm) v = Some (sel (snd hm))) ->
  pivot_table (marks_table_of rs) (lit "hallticket") (lit "code") v =
    mkPivot (lit "hallticket") (pivot_index rs) (pivot_codes rs)
      (List.map (fun i => List.map (pivot_cell sel rs i) (pivot_codes rs))
         (pivot_index rs)).
Proof.
  intros Hv. unfold pivot_table. rewrite (triples_marks rs v sel Hv).
  unfold pivot_index, pivot_codes, codes_of, pivot_cell. now rewrite !map_map.
Qed.

Lemma map_combine_map {A B C} (f : A -> B) (g : A * B -> C) (l : list A) :
  List.map g (combine l (List.map f l)) = List.map (fun x => g (x, f x)) l.
Proof.
  induction l as [|x l IH]; [reflexivity|]. cbn [List.map combine]. now rewrite IH.
Qed.

Lemma mem_map_false (k : str) (p : str -> str) (cs : list str) :
  (forall c, In c cs -> p c <> k) -> mem k (List.map p cs) = false.
Proof.
  intros H. apply mem_false. intros Hin. apply in_map_iff in Hin.
  destruct Hin as (c & E & Hc). now apply (H c).
Qed.

(** [reset_index] after the columns of a pivot were renamed with a prefix
    that keeps them apart from the index name. *)
Lemma reset_index_renamed (p : str -> str) (idx cs : list str)
  (fv : str -> str -> cell) :
  (forall c, In c cs -> p c <> lit "hallticket") ->
  reset_index
    (rename_columns p
       (mkPivot (lit "hallticket") idx cs
          (List.map (fun i => List.map (fv i) cs) idx))) =
    Return (mkDF (lit "hallticket" :: List.map p cs)
              (List.map (fun i => Some i :: List.map (fv i) cs) idx)).
Proof.
  intros Hp. unfold reset_index, rename_columns. cbn [index_name pcolumns index pvalues].
  rewrite (mem_map_false _ p cs Hp). f_equal. f_equal.
  apply (map_combine_map (fun i => List.map (fv i) cs)
           (fun iv => Some (fst iv) :: snd iv)).
Qed.

Lemma filter_all {A} (f : A -> bool) (l : list A) :
  (forall x, In x l -> f x = true) -> filter f l = l.
Proof.
  induction l as [|x l IH]; intros H; cbn [filter]; [reflexivity|].
  rewrite (H x) by now left. f_equal. apply IH. intros y Hy. apply H. now right.
Qed.

Lemma filter_none {A} (f : A -> bool) (l : list A) :
  (forall x, In x l -> f x = false) -> filter f l = [].
Proof.
  induction l as [|x l IH]; intros H; cbn [filter]; [reflexivity|].
  rewrite (H x) by now left. apply IH. intros y Hy. apply H. now right.
Qed.

Lemma filter_of_map {A B} (f : B -> bool) (g : A -> B) (l : list A) :
  filter f (List.map g l) = List.map g (filter (fun x => f (g x)) l).
Proof.
  induction l as [|x l IH]; [reflexivity|]. cbn [List.map filter].
  destruct (f (g x)); cbn [List.map]; now rewrite IH.
Qed.

Lemma flat_map_singleton {A B} (f : A -> B) (l : list A) :
  flat_map (fun x => [f x]) l = List.map f l.
Proof. induction l as [|x l IH]; [reflexivity|]. cbn [flat_map List.map app]. now rewrite IH. Qed.

(** In a list without repetition a key selects itself or nothing. *)
Lemma filter_key_NoDup (idx : list str) (h : str) :
  NoDup idx ->
  filter (fun i => str_eqb i h) idx = if mem h idx then [h] else [].
Proof.
  induction 1 as [|i idx Hi Hidx IH]; [reflexivity|].
  cbn [filter mem existsb]. rewrite (str_eqb_sym h i).
  destruct (str_eqb i h) eqn:E; cbn [orb].
  - apply str_eqb_eq in E. subst i. rewrite IH.
    apply mem_false in Hi. now rewrite Hi.
  - exact IH.
Qed.

Lemma rec_get_combine_inj (p : str -> str) (f : str -> cell) (cs : list str) (c : str) :
  (forall a b, p a = p b -> a = b) -> In c cs ->
  rec_get (combine (List.map p cs) (List.map f cs)) (p c) = f c.
Proof.
  intros Hp. unfold rec_get. induction cs as [|c0 cs IH]; intros Hin; [contradiction|].
  cbn [List.map combine dict_get]. destruct (str_eqb (p c0) (p c)) eqn:E.
  - apply str_eqb_eq, Hp in E. now subst.
  - apply IH. destruct Hin as [->|Hin]; [|exact Hin].
    now rewrite str_eqb_refl in E.
Qed.

(** A left merge with a frame made from a pivot: every left row is
    extended with the pivot cells of its key, or with missing cells when
    the pivot has no row for that key. *)
Lemma merge_left_pivot (lc : list str) (lrows : list (list cell))
  (p : str -> str) (idx cs : list str) (fv : str -> str -> cell) :
  let key := lit "hallticket" in
  (forall a b, p a = p b -> a = b) ->
  (forall c, In c cs -> p c <> key) ->
  (forall c c', In c lc -> In c' cs -> c <> p c') ->
  NoDup idx ->
  merge_left (mkDF lc lrows)
    (mkDF (key :: List.map p cs)
       (List.map (fun i => Some i :: List.map (fv i) cs) idx)) key =
    mkDF (lc ++ List.map p cs)
      (List.map
         (fun lr =>
            lr ++
              match row_get lc lr key with
              | Some h =>
                  if mem h idx then List.map (fv h) cs
                  else List.map (fun _ => None) cs
              | None => List.map (fun _ => None) cs
              end)
         lrows).
Proof.
  intros key Hinj Hkey Hdisj Hidx. unfold merge_left. cbn [columns rows].
  assert (Hrc : filter (fun c => negb (str_eqb c key)) (key :: List.map p cs) =
                List.map p cs).
  { cbn [filter]. rewrite str_eqb_refl. cbn [negb]. apply filter_all.
    intros x Hx. apply in_map_iff in Hx. destruct Hx as (c & <- & Hc).
    now apply negb_true_iff, str_eqb_neq, Hkey. }
  rewrite Hrc. f_equal.
  - f_equal.
    + rewrite <- (map_id lc) at 2. apply map_ext_in. intros c Hc.
      rewrite (proj2 (mem_false c (List.map p cs))); [reflexivity|].
      intros Hin. apply in_map_iff in Hin. destruct Hin as (c' & E & Hc').
      now apply (Hdisj c c' Hc Hc').
    + rewrite <- (map_id (List.map p cs)) at 2. apply map_ext_in. intros c Hc.
      rewrite (proj2 (mem_false c _)); [reflexivity|].
      intros Hin. apply filter_In in Hin. destruct Hin as [Hin _].
      apply in_map_iff in Hc. destruct Hc as (c' & <- & Hc').
      now apply (Hdisj _ c' Hin Hc').
  - rewrite <- (flat_map_singleton _ lrows). apply flat_map_ext. intros lr.
    rewrite filter_of_map.
    assert (Hk : forall i vs, row_get (key :: List.map p cs) (Some i :: vs) key = Some i).
    { intros i vs. unfold row_get, rec_get. cbn [combine dict_get].
      now rewrite str_eqb_refl. }
    destruct (row_get lc lr key) as [h|] eqn:Ek.
    + rewrite (filter_ext _ (fun i => str_eqb i h))
        by (intros i; now rewrite Hk).
      rewrite (filter_key_NoDup idx h Hidx).
      destruct (mem h idx) eqn:Em; cbn [List.map].
      * f_equal. f_equal. rewrite map_map. apply map_ext_in. intros c Hc.
        unfold row_get. unfold rec_get at 1. cbn [combine dict_get].
        rewrite (proj2 (str_eqb_neq key (p c))) by (intros E; now apply (Hkey c Hc)).
        now apply rec_get_combine_inj.
      * now rewrite map_map.
    + rewrite filter_none by (intros i _; now rewrite Hk).
      cbn [List.map]. now rewrite map_map.
Qed.

End PivotFacts.

(* ================================================================= *)
(** * The merged table of a list of result records *)

Module MergeFacts.
Import Py Json Pandas App Spec ListFacts FrameFacts RecordFrames PivotFacts.

Lemma flat_table_columns_known (rs : list ResultRecord) (c : str) :
  In c (columns (flat_table rs)) ->
  In c [ lit "student.hallticket"; lit "student.gender"; lit "student.name";
         lit "student.father"; lit "student.course"; lit "result"; lit "status";
         lit "hallticket" ].
Proof.
  unfold flat_table. rewrite DataFrame_of_records_columns, uniq_In, in_flat_map.
  intros (d & Hd & Hc). apply in_map_iff in Hd. destruct Hd as (r & <- & _).
  destruct r; cbn in Hc |- *; tauto.
Qed.

Lemma flat_table_not_pivot (rs : list ResultRecord) (c : str) :
  In c (columns (flat_table rs)) -> is_pivot_column c = false.
Proof.
  intros H. apply flat_table_columns_known in H. cbn [In] in H.
  repeat (destruct H as [<-|H]; [reflexivity|]). contradiction.
Qed.

Lemma pivot_columns_are_pivot (c x : str) :
  In x (pivot_columns c) -> is_pivot_column x = true.
Proof.
  unfold pivot_columns. cbn [In]. intros [<-|[<-|[<-|[]]]]; reflexivity.
Qed.

Lemma flat_table_NoDup (rs : list ResultRecord) : NoDup (columns (flat_table rs)).
Proof. unfold flat_table. rewrite DataFrame_of_records_columns. apply uniq_NoDup. Qed.

Lemma base_row_length (rs : list ResultRecord) (r : ResultRecord) :
  List.length (columns (flat_table rs)) = List.length (base_row rs r).
Proof. unfold base_row. now rewrite length_map. Qed.

Lemma base_row_get (rs : list ResultRecord) (r : ResultRecord) (k : str) :
  row_get (columns (flat_table rs)) (base_row rs r) k =
    if mem k (columns (flat_table rs)) then rec_get (flat_row r) k else None.
Proof. unfold row_get, base_row. apply rec_get_combine_map. Qed.

Lemma base_row_hallticket (rs : list ResultRecord) (r : ResultRecord) :
  In r rs ->
  row_get (columns (flat_table rs)) (base_row rs r) (lit "hallticket") =
    Some (hallticket_of_record r).
Proof.
  intros Hr. rewrite base_row_get.
  rewrite (flat_table_has_key rs r _ Hr (flat_row_has_hallticket r)).
  apply flat_row_hallticket.
Qed.

Lemma pivot_index_NoDup (rs : list ResultRecord) : NoDup (pivot_index rs).
Proof.
  unfold pivot_index, sorted.
  eapply Permutation_NoDup; [symmetry; apply isort_perm | apply uniq_NoDup].
Qed.

Lemma sorted_uniq_In (l : list str) (x : str) :
  In x (sorted (uniq l)) <-> In x l.
Proof.
  unfold sorted. split; intros H.
  - apply uniq_In. eapply Permutation_in; [apply isort_perm | exact H].
  - eapply Permutation_in; [symmetry; apply isort_perm|]. now apply uniq_In.
Qed.

Lemma pivot_index_In (rs : list ResultRecord) (h : str) :
  In h (pivot_index rs) <-> In h (List.map fst (all_marks rs)).
Proof. apply sorted_uniq_In. Qed.

Lemma pivot_codes_In (rs : list ResultRecord) (c : str) :
  In c (pivot_codes rs) <-> In c (codes_of rs).
Proof. apply sorted_uniq_In. Qed.

Lemma pivot_codes_NoDup (rs : list ResultRecord) : NoDup (pivot_codes rs).
Proof.
  unfold pivot_codes, sorted.
  eapply Permutation_NoDup; [symmetry; apply isort_perm | apply uniq_NoDup].
Qed.

(** A hall ticket without marks has no pivot cell. *)
Lemma pivot_cell_absent (sel : MarkEntry -> str) (rs : list ResultRecord) (h c : str) :
  ~ In h (List.map fst (all_marks rs)) -> pivot_cell sel rs h c = None.
Proof.
  unfold pivot_cell. induction (all_marks rs) as [|[h' m] ms IH]; intros H; [reflexivity|].
  cbn [List.map first_value fst snd]. cbn [List.map In fst] in H.
  destruct (str_eqb h' h) eqn:E.
  - apply str_eqb_eq in E. tauto.
  - cbn [andb]. apply IH. tauto.
Qed.

(** One merge: the table so far, extended by the cells of one pivot. *)
Lemma merge_step (rs : list ResultRecord) (extra : list str)
  (ext : ResultRecord -> list cell) (p : str -> str) (sel : MarkEntry -> str) :
  (forall a b, p a = p b -> a = b) ->
  (forall c, In c (pivot_codes rs) -> p c <> lit "hallticket") ->
  (forall c c', In c (columns (flat_table rs) ++ extra) -> In c' (pivot_codes rs) ->
     c <> p c') ->
  merge_left
    (mkDF (columns (flat_table rs) ++ extra)
       (List.map (fun r => base_row rs r ++ ext r) rs))
    (mkDF (lit "hallticket" :: List.map p (pivot_codes rs))
       (List.map (fun i => Some i :: List.map (pivot_cell sel rs i) (pivot_codes rs))
          (pivot_index rs)))
    (lit "hallticket") =
  mkDF ((columns (flat_table rs) ++ extra) ++ List.map p (pivot_codes rs))
    (List.map
       (fun r => (base_row rs r ++ ext r) ++
                 List.map (pivot_cell sel rs (hallticket_of_record r)) (pivot_codes rs))
       rs).
Proof.
  intros Hinj Hkey Hdisj.
  rewrite (merge_left_pivot _ _ p (pivot_index rs) (pivot_codes rs) (pivot_cell sel rs)
             Hinj Hkey Hdisj (pivot_index_NoDup rs)).
  f_equal. rewrite map_map. apply map_ext_in. intros r Hr. f_equal.
  rewrite row_get_app by apply base_row_length.
  rewrite (flat_table_has_key rs r _ Hr (flat_row_has_hallticket r)).
  rewrite (base_row_hallticket rs r Hr).
  destruct (mem (hallticket_of_record r) (pivot_index rs)) eqn:E; [reflexivity|].
  apply map_ext. intros c. symmetry. apply pivot_cell_absent.
  apply mem_false in E. now rewrite <- pivot_index_In.
Qed.

Lemma flat_table_eta (rs : list ResultRecord) :
  flat_table rs =
    mkDF (columns (flat_table rs) ++ [])
      (List.map (fun r => base_row rs r ++ []) rs).
Proof.
  rewrite app_nil_r. unfold flat_table at 1, DataFrame_of_records. cbv zeta.
  f_equal. rewrite map_map. apply map_ext. intros r. now rewrite app_nil_r.
Qed.

Lemma prefix_inj (p a b : str) : p ++ a = p ++ b -> a = b.
Proof. apply app_inv_head. Qed.

(** The three merges of lines 388-390 give the merged table. *)
Lemma three_merges (rs : list ResultRecord) :
  merge_left
    (merge_left
       (merge_left (flat_table rs)
          (mkDF (lit "hallticket" :: @List.map str str (fun c => lit "grade_" ++ c) (pivot_codes rs))
             (List.map
                (fun i => Some i :: List.map (pivot_cell grade rs i) (pivot_codes rs))
                (pivot_index rs)))
          (lit "hallticket"))
       (mkDF (lit "hallticket" :: @List.map str str (fun c => lit "credits_" ++ c) (pivot_codes rs))
          (List.map
             (fun i => Some i :: List.map (pivot_cell credits rs i) (pivot_codes rs))
             (pivot_index rs)))
       (lit "hallticket"))
    (mkDF (lit "hallticket" :: @List.map str str (fun c => lit "subject_" ++ c) (pivot_codes rs))
       (List.map
          (fun i => Some i :: List.map (pivot_cell subject rs i) (pivot_codes rs))
          (pivot_index rs)))
    (lit "hallticket") =
  merged_table rs.
Proof.
  rewrite (flat_table_eta rs).
  rewrite (merge_step rs [] (fun _ => []) (fun c => lit "grade_" ++ c) grade).
  2: { intros a b. apply prefix_inj. }
  2: { intros c _; discriminate. }
  2: { intros c c' Hc _. rewrite app_nil_r in Hc. apply flat_table_not_pivot in Hc.
       intros ->. discriminate. }
  rewrite <- app_assoc. cbn [app].
  rewrite (map_ext _ (fun r => base_row rs r ++
             List.map (pivot_cell grade rs (hallticket_of_record r)) (pivot_codes rs)))
    by (intros r; now rewrite app_nil_r).
  rewrite (merge_step rs _ _ (fun c => lit "credits_" ++ c) credits).
  2: { intros a b. apply prefix_inj. }
  2: { intros c _; discriminate. }
  2: { intros c c' Hc _. apply in_app_iff in Hc. destruct Hc as [Hc|Hc].
       - apply flat_table_not_pivot in Hc. intros ->. discriminate.
       - apply in_map_iff in Hc. destruct Hc as (x & <- & _). discriminate. }
  rewrite <- app_assoc.
  rewrite (map_ext _ (fun r => base_row rs r ++
             (List.map (pivot_cell grade rs (hallticket_of_record r)) (pivot_codes rs) ++
              List.map (pivot_cell credits rs (hallticket_of_record r)) (pivot_codes rs))))
    by (intros r; now rewrite <- app_assoc).
  rewrite (merge_step rs _ _ (fun c => lit "subject_" ++ c) subject).
  2: { intros a b. apply prefix_inj. }
  2: { intros c _; discriminate. }
  2: { intros c c' Hc _. rewrite !in_app_iff in Hc. destruct Hc as [Hc|[Hc|Hc]].
       - apply flat_table_not_pivot in Hc. intros ->. discriminate.
       - apply in_map_iff in Hc. destruct Hc as (x & <- & _). discriminate.
       - apply in_map_iff in Hc. destruct Hc as (x & <- & _). discriminate. }
  unfold merged_table, merged_columns, pivot_cells. rewrite <- !app_assoc. f_equal.
  apply map_ext. intros r. now rewrite <- !app_assoc.
Qed.

Lemma map_prefix_NoDup (p : str) (cs : list str) :
  NoDup cs -> NoDup (List.map (fun c => p ++ c) cs).
Proof.
  induction 1 as [|c cs Hc Hnd IH]; cbn [List.map]; constructor; [|exact IH].
  intros Hin. apply in_map_iff in Hin. destruct Hin as (x & E & Hx).
  apply prefix_inj in E. now subst.
Qed.

(** The labels of the merged table are distinct: no merge had to rename a
    column. *)
Lemma merged_columns_NoDup (rs : list ResultRecord) : NoDup (merged_columns rs).
Proof.
  unfold merged_columns.
  apply NoDup_app; [apply flat_table_NoDup | |].
  - apply NoDup_app; [apply map_prefix_NoDup, pivot_codes_NoDup | |].
    + apply NoDup_app; [apply map_prefix_NoDup, pivot_codes_NoDup
                       | apply map_prefix_NoDup, pivot_codes_NoDup |].
      intros a Ha Hb. apply in_map_iff in Ha. destruct Ha as (x & <- & _).
      apply in_map_iff in Hb. destruct Hb as (y & E & _). discriminate.
    + intros a Ha Hb. apply in_map_iff in Ha. destruct Ha as (x & <- & _).
      apply in_app_iff in Hb.
      destruct Hb as [Hb|Hb]; apply in_map_iff in Hb; destruct Hb as (y & E & _);
        discriminate.
  - intros a Ha Hb. apply flat_table_not_pivot in Ha.
    rewrite !in_app_iff in Hb.
    destruct Hb as [Hb|[Hb|Hb]]; apply in_map_iff in Hb; destruct Hb as (y & <- & _);
      discriminate.
Qed.

Section Main.

Variable to_int : str -> option Z.

(** The final conversion of [main] on records with at least one mark: the
    three pivots are merged into the flattened table, which is then
    reordered and sorted. *)
Lemma final_conversion_with_marks (rs : list ResultRecord) :
  all_marks rs <> [] ->
  final_conversion to_int (List.map to_item rs) =
    (df <- sort_by_hallticket to_int
             (select_columns (merged_table rs)
                (final_cols (merged_table rs) (marks_table_of rs))) ;;
     Return [ (lit "results", df);
              (lit "grades",
               mkDF (lit "hallticket" ::
                       @List.map str str (fun c => lit "grade_" ++ c) (pivot_codes rs))
                 (List.map
                    (fun i => Some i :: List.map (pivot_cell grade rs i) (pivot_codes rs))
                    (pivot_index rs)));
              (lit "marks", marks_table_of rs);
              (lit "raw", raw_frame (List.map to_item rs)) ]).
Proof.
  intros Hm. unfold final_conversion. rewrite rows_loop_records. cbn [bind fst snd app].
  rewrite marks_frame_records. cbn [bind]. rewrite marks_table_empty.
  destruct (all_marks rs) as [|m0 ms0] eqn:E; [contradiction|]. cbn [negb]. cbv zeta.
  rewrite (pivot_table_marks rs (lit "grade") grade) by reflexivity.
  rewrite (pivot_table_marks rs (lit "credits") credits) by reflexivity.
  rewrite (pivot_table_marks rs (lit "subject") subject) by reflexivity.
  rewrite !reset_index_renamed by (intros c _; discriminate). cbn [bind].
  fold (flat_table rs). rewrite three_merges.
  rewrite reindex_unique by apply merged_columns_NoDup. cbn [bind].
  destruct (sort_by_hallticket to_int _); reflexivity.
Qed.

End Main.

End MergeFacts.

(* ================================================================= *)
(** * The order of strings *)

Module OrderFacts.
Import Py Pandas ListFacts.

Lemma str_ltb_asym (a b : str) : str_ltb a b = true -> str_ltb b a = false.
Proof.
  revert b. induction a as [|x a IH]; intros [|y b]; cbn [str_ltb]; try discriminate;
    [reflexivity|].
  intros H. apply orb_true_iff in H. apply orb_false_iff.
  destruct H as [H|H].
  - apply N.ltb_lt in H. split; [apply N.ltb_ge; lia|].
    apply andb_false_iff. left. apply N.eqb_neq. lia.
  - apply andb_true_iff in H. destruct H as [H1 H2]. apply N.eqb_eq in H1. subst y.
    split; [apply N.ltb_irrefl|]. rewrite N.eqb_refl. cbn [andb]. now apply IH.
Qed.

Lemma str_ltb_cotrans (c a b : str) :
  str_ltb c a = true -> str_ltb c b = true \/ str_ltb b a = true.
Proof.
  revert a b. induction c as [|z c IH]; intros [|x a] [|y b]; cbn [str_ltb];
    try discriminate; auto.
  intros H. apply orb_true_iff in H.
  rewrite !orb_true_iff, !andb_true_iff, !N.ltb_lt, !N.eqb_eq.
  rewrite N.ltb_lt, andb_true_iff, N.eqb_eq in H.
  destruct (N.lt_trichotomy z y) as [Hzy|[Hzy|Hzy]].
  - left. now left.
  - subst y. destruct H as [H|[H1 H2]].
    + right. now left.
    + subst x. destruct (IH a b H2) as [H|H]; [left | right]; right; auto.
  - right. left. destruct H as [H|[H1 H2]]; lia.
Qed.

Lemma str_leb_total (a b : str) : str_leb a b = true \/ str_leb b a = true.
Proof.
  unfold str_leb. destruct (str_ltb b a) eqn:E; [right | now left].
  now rewrite (str_ltb_asym _ _ E).
Qed.

Lemma str_leb_trans (a b c : str) :
  str_leb a b = true -> str_leb b c = true -> str_leb a c = true.
Proof.
  unfold str_leb. rewrite !negb_true_iff. intros H1 H2.
  destruct (str_ltb c a) eqn:E; [|reflexivity].
  destruct (str_ltb_cotrans c a b E); congruence.
Qed.

(** [sorted(l)] is in order and has the strings of [l]. *)
Lemma sorted_sorted (l : list str) :
  StronglySorted (fun a b => str_leb a b = true) (sorted l).
Proof. apply isort_sorted; [apply str_leb_total | apply str_leb_trans]. Qed.

Lemma sorted_perm (l : list str) : Permutation (sorted l) l.
Proof. apply isort_perm. Qed.

Lemma StronglySorted_weaken {A} (R R' : A -> A -> Prop) (l : list A) :
  (forall a b, R a b -> R' a b) -> StronglySorted R l -> StronglySorted R' l.
Proof.
  intros HR. induction 1 as [|x l Hs IH Hx]; constructor; [exact IH|].
  eapply Forall_impl; [|exact Hx]. intros y. apply HR.
Qed.

(** [value_counts]: the distinct values, the more frequent before the less
    frequent. *)
Lemma value_counts_sorted (series : list cell) :
  StronglySorted
    (fun a b => (count b (present series) <= count a (present series))%nat)
    (value_counts_index series).
Proof.
  unfold value_counts_index.
  pose proof (isort_sorted
                (fun a b => Nat.leb (count b (present series)) (count a (present series))))
    as H.
  eapply StronglySorted_weaken; [|apply H].
  - intros a b Hab. now apply Nat.leb_le.
  - intros a b. rewrite !Nat.leb_le. lia.
  - intros a b c. rewrite !Nat.leb_le. lia.
Qed.

End OrderFacts.

(* ================================================================= *)
(** * The column order of the results sheet *)

Module ColumnFacts.
Import Py Json Pandas App Spec ListFacts FrameFacts RecordFrames PivotFacts MergeFacts
  OrderFacts.

Lemma column_marks_code (rs : list ResultRecord) :
  column (marks_table_of rs) (lit "code") = List.map Some (codes_of rs).
Proof.
  unfold column, marks_table_of, codes_of. cbn [rows columns].
  rewrite !map_map. apply map_ext. intros hm. reflexivity.
Qed.

Lemma present_Some (l : list str) : present (List.map Some l) = l.
Proof.
  unfold present. induction l as [|x l IH]; [reflexivity|].
  cbn [List.map flat_map app]. now rewrite IH.
Qed.

Lemma value_counts_In (l : list str) (c : str) :
  In c (value_counts_index (List.map Some l)) <-> In c l.
Proof.
  unfold value_counts_index. rewrite present_Some. split; intros H.
  - apply uniq_In. eapply Permutation_in; [apply isort_perm | exact H].
  - eapply Permutation_in; [symmetry; apply isort_perm|]. now apply uniq_In.
Qed.

Lemma value_counts_NoDup (l : list str) : NoDup (value_counts_index (List.map Some l)).
Proof.
  unfold value_counts_index.
  eapply Permutation_NoDup; [symmetry; apply isort_perm | apply uniq_NoDup].
Qed.

Lemma merged_columns_In (rs : list ResultRecord) (c : str) :
  In c (merged_columns rs) <->
  In c (columns (flat_table rs)) \/
  exists code, In code (codes_of rs) /\ In c (pivot_columns code).
Proof.
  unfold merged_columns, pivot_columns. rewrite !in_app_iff, !in_map_iff. split.
  - intros [H|[(x & <- & Hx)|[(x & <- & Hx)|(x & <- & Hx)]]]; [now left|..];
      right; exists x; (split; [now apply pivot_codes_In | cbn [In]; tauto]).
  - intros [H|(x & Hx & Hc)]; [now left|]. apply pivot_codes_In in Hx.
    cbn [In] in Hc. destruct Hc as [<-|[<-|[<-|[]]]]; right;
      [left | right; left | right; right]; now exists x.
Qed.

Lemma mem_merged_not_pivot (rs : list ResultRecord) (c : str) :
  is_pivot_column c = false ->
  mem c (merged_columns rs) = mem c (columns (flat_table rs)).
Proof.
  intros Hc. destruct (mem c (columns (flat_table rs))) eqn:E.
  - apply mem_In, merged_columns_In. left. now apply mem_In.
  - apply mem_false. intros H. apply merged_columns_In in H.
    destruct H as [H|(code & _ & H)].
    + apply mem_In in H. congruence.
    + apply pivot_columns_are_pivot in H. congruence.
Qed.

Lemma flat_map_ext_in {A B} (f g : A -> list B) (l : list A) :
  (forall x, In x l -> f x = g x) -> flat_map f l = flat_map g l.
Proof.
  induction l as [|x l IH]; intros H; [reflexivity|]. cbn [flat_map].
  rewrite (H x) by now left. f_equal. apply IH. intros y Hy. apply H. now right.
Qed.

(** The column order lines 393-407 compute for the merged table: the core
    columns that exist, the three pivot columns of every code from the
    most frequent code on, and the columns that are neither. *)
Lemma final_cols_merged (rs : list ResultRecord) :
  final_cols (merged_table rs) (marks_table_of rs) =
    filter (fun c => mem c (columns (flat_table rs))) core_pref ++
    flat_map pivot_columns (value_counts_index (List.map Some (codes_of rs))) ++
    filter (fun c => negb (mem c core_pref)) (columns (flat_table rs)).
Proof.
  unfold final_cols. cbn [columns merged_table]. rewrite column_marks_code.
  set (vc := value_counts_index (List.map Some (codes_of rs))).
  assert (Hcore : filter (fun c => mem c (merged_columns rs)) core_pref =
                  filter (fun c => mem c (columns (flat_table rs))) core_pref).
  { apply filter_ext_in. intros c Hc. apply mem_merged_not_pivot.
    unfold core_pref in Hc. cbn [In] in Hc.
    repeat (destruct Hc as [<-|Hc]; [reflexivity|]). contradiction. }
  assert (Hsubj :
    flat_map
      (fun code =>
         filter (fun prefix => mem prefix (merged_columns rs))
           [lit "grade_" ++ code; lit "credits_" ++ code; lit "subject_" ++ code])
      vc = flat_map pivot_columns vc).
  { apply flat_map_ext_in. intros code Hcode. unfold vc in Hcode.
    apply (proj1 (value_counts_In _ _)) in Hcode.
    apply filter_all. intros x Hx. apply mem_In, merged_columns_In. right.
    now exists code. }
  rewrite Hcore, Hsubj.
  assert (Hsub : forall c, In c (merged_columns rs) -> is_pivot_column c = true ->
                           mem c (flat_map pivot_columns vc) = true).
  { intros c Hc Hp. apply merged_columns_In in Hc. destruct Hc as [Hc|(code & Hcode & Hc)].
    - apply flat_table_not_pivot in Hc. congruence.
    - apply mem_In, in_flat_map. exists code. split; [|exact Hc].
      now apply value_counts_In. }
  rewrite (filter_none _ (merged_columns rs)).
  2: { intros c Hc. destruct (is_pivot_column c) eqn:Hp; [|reflexivity].
       now rewrite (Hsub c Hc Hp). }
  change (sorted []) with (@nil str). rewrite app_nil_r.
  f_equal. f_equal.
  unfold merged_columns. rewrite !filter_app.
  rewrite (filter_none _ (List.map _ _)), (filter_none _ (List.map _ _)),
    (filter_none _ (List.map _ _)), !app_nil_r.
  - apply filter_ext_in. intros c Hc. f_equal. rewrite mem_app.
    pose proof (flat_table_not_pivot rs c Hc) as Hp.
    assert (Hs : mem c (flat_map pivot_columns vc) = false).
    { apply mem_false. intros H. apply in_flat_map in H. destruct H as (code & _ & H).
      apply pivot_columns_are_pivot in H. congruence. }
    rewrite Hs, orb_false_r.
    destruct (mem c core_pref) eqn:Ec.
    + apply mem_In, filter_In. split; [now apply mem_In | now apply mem_In].
    + apply mem_false. intros H. apply filter_In in H. destruct H as [H _].
      apply mem_In in H. congruence.
  - intros c Hc. apply negb_false_iff. rewrite mem_app. apply orb_true_iff. right.
    apply Hsub; [|apply in_map_iff in Hc; destruct Hc as (x & <- & _); reflexivity].
    unfold merged_columns. rewrite !in_app_iff. tauto.
  - intros c Hc. apply negb_false_iff. rewrite mem_app. apply orb_true_iff. right.
    apply Hsub; [|apply in_map_iff in Hc; destruct Hc as (x & <- & _); reflexivity].
    unfold merged_columns. rewrite !in_app_iff. tauto.
  - intros c Hc. apply negb_false_iff. rewrite mem_app. apply orb_true_iff. right.
    apply Hsub; [|apply in_map_iff in Hc; destruct Hc as (x & <- & _); reflexivity].
    unfold merged_columns. rewrite !in_app_iff. tauto.
Qed.

(** The label of the helper column of the sort is not among them. *)
Lemma final_cols_no_helper (rs : list ResultRecord) :
  mem (lit "hallticket_sort") (final_cols (merged_table rs) (marks_table_of rs)) = false.
Proof.
  apply mem_false. rewrite final_cols_merged, !in_app_iff. intros [H|[H|H]].
  - apply filter_In in H. destruct H as [H _]. unfold core_pref in H. cbn [In] in H.
    repeat (destruct H as [H|H]; [vm_compute in H; discriminate H|]). contradiction.
  - apply in_flat_map in H. destruct H as (code & _ & H). cbn [pivot_columns In] in H.
    repeat (destruct H as [H|H]; [vm_compute in H; discriminate H|]). contradiction.
  - apply filter_In in H. destruct H as [H _]. apply flat_table_columns_known in H.
    cbn [In] in H.
    repeat (destruct H as [H|H]; [vm_compute in H; discriminate H|]). contradiction.
Qed.

End ColumnFacts.

(* ================================================================= *)
(** * Sorting the rows by hall ticket *)

Module SortFacts.
Import Py Json Pandas App Spec ListFacts FrameFacts OrderFacts.

Section Sort.

Variable to_int : str -> option Z.

Lemma astype_int_reads (series : list cell) (zs : list Z) :
  astype_int to_int series = Return zs <-> Forall2 (reads to_int) series zs.
Proof.
  revert zs. induction series as [|c series IH]; intros zs; cbn [astype_int].
  - split; [intros [= <-]; constructor | intros H; now inversion H].
  - split.
    + destruct c as [s|]; [|discriminate].
      destruct (to_int s) as [z|] eqn:E; [|discriminate].
      destruct (astype_int to_int series) as [zs'|e] eqn:E'; cbn [bind]; [|discriminate].
      intros [= <-]. constructor; [now exists s | now apply IH].
    + intros H. inversion H as [|c0 z l zs' Hr Hrest]; subst.
      destruct Hr as (s & -> & Hs). rewrite Hs. apply IH in Hrest. now rewrite Hrest.
Qed.

Lemma key_leb_total (a b : cell) :
  key_leb str_leb a b = true \/ key_leb str_leb b a = true.
Proof. destruct a, b; cbn [key_leb]; auto. apply str_leb_total. Qed.

Lemma key_leb_trans (a b c : cell) :
  key_leb str_leb a b = true -> key_leb str_leb b c = true ->
  key_leb str_leb a c = true.
Proof. destruct a, b, c; cbn [key_leb]; try congruence. apply str_leb_trans. Qed.

Lemma StronglySorted_map {A B} (R : B -> B -> Prop) (f : A -> B) (l : list A) :
  StronglySorted (fun x y => R (f x) (f y)) l -> StronglySorted R (List.map f l).
Proof.
  induction 1 as [|x l Hs IH Hx]; cbn [List.map]; constructor; [exact IH|].
  apply Forall_map. exact Hx.
Qed.

Lemma Forall2_combine_In {A B} (R : A -> B -> Prop) (l : list A) (l' : list B) :
  Forall2 R l l' -> forall p, In p (combine l' l) -> R (snd p) (fst p).
Proof.
  induction 1 as [|x y l l' Hxy H IH]; intros p Hp; [contradiction|].
  cbn [combine In] in Hp. destruct Hp as [<-|Hp]; [exact Hxy | now apply IH].
Qed.

Lemma Forall2_of_pairs {A B C} (R : C -> B -> Prop) (g : A -> C) (ps : list (B * A)) :
  (forall p, In p ps -> R (g (snd p)) (fst p)) ->
  Forall2 R (List.map (fun p => g (snd p)) ps) (List.map fst ps).
Proof.
  induction ps as [|p ps IH]; intros H; cbn [List.map]; constructor.
  - apply H. now left.
  - apply IH. intros q Hq. apply H. now right.
Qed.

Lemma combine_snd_length {A B} (l : list A) (l' : list B) :
  List.length l = List.length l' -> List.map snd (combine l l') = l'.
Proof.
  revert l'. induction l as [|x l IH]; intros [|y l'] H; try discriminate; [reflexivity|].
  cbn [combine List.map snd]. f_equal. apply IH. now injection H.
Qed.

(** The sort before the helper column is dropped. *)
Definition sort_core (df : DataFrame) : outcome DataFrame :=
  try_except
    (if mem (lit "hallticket") (columns df) then
       ks <- astype_int to_int (column df (lit "hallticket")) ;;
       Return (mkDF (columns df)
                 (List.map snd
                    (isort (fun a b => Z.leb (fst a) (fst b))
                       (combine ks (rows df)))))
     else Raise (KeyError (lit "hallticket")))
    (fun _ => sort_values df (lit "hallticket")).

(** It gives the same columns and the same rows, in hall-ticket order. *)
Lemma sort_core_spec (df df' : DataFrame) :
  sort_core df = Return df' ->
  columns df' = columns df /\
  Permutation (rows df') (rows df) /\
  hallticket_sorted to_int df'.
Proof.
  unfold sort_core, sort_values.
  destruct (mem (lit "hallticket") (columns df)) eqn:Em; [|discriminate].
  destruct (astype_int to_int (column df (lit "hallticket"))) as [ks|e] eqn:Ea;
    cbn [bind try_except].
  - intros [= <-]. cbn [columns rows].
    apply astype_int_reads in Ea.
    set (leb := fun a b : Z * list cell => Z.leb (fst a) (fst b)).
    assert (Hlen : List.length ks = List.length (rows df)).
    { apply Forall2_length in Ea. unfold column in Ea. now rewrite length_map in Ea. }
    assert (Hperm : Permutation (isort leb (combine ks (rows df))) (combine ks (rows df)))
      by apply isort_perm.
    split; [reflexivity|]. split.
    + rewrite <- (combine_snd_length ks (rows df) Hlen) at 2.
      now apply Permutation_map.
    + unfold hallticket_sorted, column. cbn [columns rows].
      assert (Hr : Forall2 (reads to_int)
                     (List.map (fun r => row_get (columns df) r (lit "hallticket"))
                        (List.map snd (isort leb (combine ks (rows df)))))
                     (List.map fst (isort leb (combine ks (rows df))))).
      { rewrite map_map.
        apply (Forall2_of_pairs (reads to_int)
                 (fun r => row_get (columns df) r (lit "hallticket"))).
        intros p Hp. apply (Permutation_in _ Hperm) in Hp.
        unfold column in Ea.
        pose proof (Forall2_combine_In _ _ _ Ea) as H.
        rewrite <- (map_id ks) in Hp at 1.
        assert (Hq : In (fst p, row_get (columns df) (snd p) (lit "hallticket"))
                       (combine ks
                          (List.map (fun r => row_get (columns df) r (lit "hallticket"))
                             (rows df)))).
        { rewrite map_id in Hp. clear -Hp. revert Hp. generalize (rows df) as rs.
          induction ks as [|k ks IH]; intros [|r rs] Hp; try contradiction.
          cbn [combine List.map In] in Hp |- *. destruct Hp as [<-|Hp]; [now left|].
          right. now apply IH. }
        apply (H _ Hq). }
      assert (Hr' := Hr).
      rewrite map_map in Hr'.
      rewrite map_map.
      apply astype_int_reads in Hr'. rewrite Hr'.
      apply StronglySorted_map.
      eapply StronglySorted_weaken; [|apply (isort_sorted leb)].
      * intros a b Hab. unfold leb in Hab. now apply Z.leb_le.
      * intros a b. unfold leb. rewrite !Z.leb_le. lia.
      * intros a b c. unfold leb. rewrite !Z.leb_le. lia.
  - intros [= <-]. cbn [columns rows]. split; [reflexivity|]. split; [apply isort_perm|].
    unfold hallticket_sorted, column. cbn [columns rows].
    set (leb := fun r1 r2 : list cell =>
                  key_leb str_leb (row_get (columns df) r1 (lit "hallticket"))
                    (row_get (columns df) r2 (lit "hallticket"))).
    assert (Hraise : exists e', astype_int to_int
               (List.map (fun r => row_get (columns df) r (lit "hallticket"))
                  (isort leb (rows df))) = Raise e').
    { destruct (astype_int to_int
                  (List.map (fun r => row_get (columns df) r (lit "hallticket"))
                     (isort leb (rows df)))) as [zs|e'] eqn:E; [|now eexists].
      exfalso. apply astype_int_reads in E.
      assert (Hall : forall r, In r (rows df) ->
                exists z, reads to_int (row_get (columns df) r (lit "hallticket")) z).
      { intros r Hr. apply (Permutation_in _ (Permutation_sym (isort_perm leb (rows df)))) in Hr.
        clear -E Hr. revert zs E. induction (isort leb (rows df)) as [|r0 l IH];
          intros zs E; [contradiction|].
        cbn [List.map] in E. inversion E as [|? z ? zs' Hz Hrest]; subst.
        destruct Hr as [<-|Hr]; [now exists z | now apply (IH Hr zs')]. }
      assert (Hok : exists zs', Forall2 (reads to_int) (column df (lit "hallticket")) zs').
      { unfold column. clear -Hall. induction (rows df) as [|r l IH].
        - exists []. constructor.
        - destruct (Hall r (or_introl eq_refl)) as (z & Hz).
          destruct IH as (zs' & Hzs'); [intros r' Hr'; apply Hall; now right|].
          exists (z :: zs'). now constructor. }
      destruct Hok as (zs' & Hzs'). apply astype_int_reads in Hzs'. congruence. }
    destruct Hraise as (e' & ->).
    apply StronglySorted_map.
    apply (isort_sorted leb).
    + intros a b. apply key_leb_total.
    + intros a b c. apply key_leb_trans.
Qed.

(** Lines 411-415 are that sort, followed by [drop] when the hall tickets
    convert. *)
Lemma sort_by_hallticket_core (df df' : DataFrame) :
  sort_by_hallticket to_int df = Return df' ->
  exists d,
    sort_core df = Return d /\
    (df' = d \/ df' = drop_column d (lit "hallticket_sort")).
Proof.
  unfold sort_by_hallticket, sort_core.
  destruct (mem (lit "hallticket") (columns df));
    [|intros H; exists df'; split; [exact H | now left]].
  destruct (astype_int to_int (column df (lit "hallticket"))) as [ks|e];
    cbn [bind try_except].
  - intros [= <-]. eexists. split; [reflexivity | now right].
  - intros H. exists df'. split; [exact H | now left].
Qed.

Lemma hallticket_sorted_drop (d : DataFrame) :
  hallticket_sorted to_int d ->
  hallticket_sorted to_int (drop_column d (lit "hallticket_sort")).
Proof.
  unfold hallticket_sorted.
  now rewrite column_drop by (intros E; vm_compute in E; discriminate E).
Qed.

(** What lines 411-415 return, for every frame: as many rows, in
    hall-ticket order, each row one of the frame's without the cells of a
    column [hallticket_sort]. *)
Lemma sort_by_hallticket_general (df df' : DataFrame) :
  sort_by_hallticket to_int df = Return df' ->
  List.length (rows df') = List.length (rows df) /\
  hallticket_sorted to_int df' /\
  (forall row x, In row (rows df') -> In x row ->
     exists row0, In row0 (rows df) /\ In x row0).
Proof.
  intros H. destruct (sort_by_hallticket_core df df' H) as (d & Hd & Hcase).
  destruct (sort_core_spec df d Hd) as (Hc & Hp & Hs).
  destruct Hcase as [->| ->].
  - split; [now apply Permutation_length|]. split; [exact Hs|].
    intros row x Hrow Hx. exists row. split; [|exact Hx].
    now apply (Permutation_in _ Hp).
  - split; [|split].
    + unfold drop_column. cbn [rows]. rewrite length_map. now apply Permutation_length.
    + now apply hallticket_sorted_drop.
    + intros row x Hrow Hx. unfold drop_column in Hrow. cbn [rows] in Hrow.
      apply in_map_iff in Hrow. destruct Hrow as (row0 & <- & Hrow0).
      exists row0. split; [now apply (Permutation_in _ Hp)|].
      now apply drop_cells_In in Hx.
Qed.

(** On a frame without a column [hallticket_sort] they return the same
    columns and the same rows, in hall-ticket order. *)
Lemma sort_by_hallticket_spec (df df' : DataFrame) :
  mem (lit "hallticket_sort") (columns df) = false ->
  sort_by_hallticket to_int df = Return df' ->
  columns df' = columns df /\
  Permutation (rows df') (rows df) /\
  hallticket_sorted to_int df'.
Proof.
  intros Hno H. destruct (sort_by_hallticket_core df df' H) as (d & Hd & Hcase).
  destruct (sort_core_spec df d Hd) as (Hc & Hp & Hs).
  assert (E : df' = d).
  { destruct Hcase as [->| ->]; [reflexivity|].
    apply drop_column_absent. now rewrite Hc. }
  subst df'. repeat split; assumption.
Qed.

(** The sort returns whenever the frame has a [hallticket] column. *)
Lemma sort_by_hallticket_returns (df : DataFrame) :
  mem (lit "hallticket") (columns df) = true ->
  exists df', sort_by_hallticket to_int df = Return df'.
Proof.
  intros Hm. unfold sort_by_hallticket, sort_values. rewrite Hm.
  destruct (astype_int to_int (column df (lit "hallticket"))); cbn [bind try_except];
    now eexists.
Qed.

End Sort.

End SortFacts.

(* ================================================================= *)
(** * The rows of the results sheet of the main run *)

Module ResultRows.
Import Py Json Pandas App Spec ListFacts FrameFacts RecordFrames PivotFacts.
Import MergeFacts OrderFacts ColumnFacts SortFacts.

Lemma filter_perm {A} (f : A -> bool) (l l' : list A) :
  Permutation l l' -> Permutation (filter f l) (filter f l').
Proof.
  induction 1 as [|x l l' H IH|x y l|l l' l'' H IH H' IH']; cbn [filter].
  - constructor.
  - destruct (f x); [now constructor | exact IH].
  - destruct (f x), (f y); try apply Permutation_refl. constructor.
  - now transitivity (filter f l').
Qed.

Lemma final_cols_complete (rs : list ResultRecord) (k : str) :
  In k (merged_columns rs) ->
  In k (final_cols (merged_table rs) (marks_table_of rs)).
Proof.
  intros Hk. rewrite final_cols_merged. apply merged_columns_In in Hk.
  rewrite !in_app_iff. destruct Hk as [Hk|(c & Hc & Hk)].
  - destruct (mem k core_pref) eqn:E.
    + left. apply filter_In. split; [now apply mem_In | now apply mem_In].
    + right. right. apply filter_In. split; [exact Hk | now rewrite E].
  - right. left. apply in_flat_map. exists c. split; [|exact Hk].
    now apply value_counts_In.
Qed.

Lemma row_get_none (cols : list str) (cells : list cell) (k : str) :
  (forall c, In c cells -> c = None) -> row_get cols cells k = None.
Proof.
  unfold row_get, rec_get. revert cells.
  induction cols as [|x cols IH]; intros [|c cells] H; cbn [combine dict_get];
    try reflexivity.
  destruct (str_eqb x k); [apply H; now left|].
  apply IH. intros c' Hc'. apply H. now right.
Qed.

(** The cells of a record without mark rows in the merged table. *)
Lemma merged_row_get (rs : list ResultRecord) (r : ResultRecord) (k : str) :
  ~ In (hallticket_of_record r) (List.map fst (all_marks rs)) ->
  row_get (merged_columns rs) (base_row rs r ++ pivot_cells rs r) k =
    if mem k (columns (flat_table rs)) then rec_get (flat_row r) k else None.
Proof.
  intros Hno. unfold merged_columns. rewrite row_get_app by apply base_row_length.
  rewrite base_row_get. destruct (mem k (columns (flat_table rs))); [reflexivity|].
  apply row_get_none. intros c Hc. unfold pivot_cells in Hc.
  rewrite !in_app_iff, !in_map_iff in Hc.
  destruct Hc as [(x & <- & _)|[(x & <- & _)|(x & <- & _)]];
    now apply pivot_cell_absent.
Qed.

(** The cells of a record in the merged table: its own fields, and the
    pivot cells of its hall ticket. *)
Lemma merged_row_flat (rs : list ResultRecord) (r : ResultRecord) (k : str) :
  In k (columns (flat_table rs)) ->
  row_get (merged_columns rs) (base_row rs r ++ pivot_cells rs r) k =
    rec_get (flat_row r) k.
Proof.
  intros H. unfold merged_columns. rewrite row_get_app by apply base_row_length.
  rewrite base_row_get. now rewrite (proj2 (mem_In _ _) H).
Qed.

Lemma prefixed_cells (p : str) (f : str -> cell) (cs : list str) (c : str)
  (more : list str) (cells : list cell) :
  In c cs ->
  row_get (List.map (fun x => p ++ x) cs ++ more) (List.map f cs ++ cells) (p ++ c) = f c.
Proof.
  intros H. rewrite row_get_app by (now rewrite !length_map).
  rewrite (proj2 (mem_In _ _)) by (apply in_map_iff; now exists c).
  unfold row_get. apply (rec_get_combine_inj (fun x => p ++ x) f cs c); [|exact H].
  intros a b. apply prefix_inj.
Qed.

Lemma skipped_cells (p q : str) (f : str -> cell) (cs : list str) (c : str)
  (more : list str) (cells : list cell) :
  (forall x, p ++ x <> q ++ c) ->
  row_get (List.map (fun x => p ++ x) cs ++ more) (List.map f cs ++ cells) (q ++ c) =
    row_get more cells (q ++ c).
Proof.
  intros H. rewrite row_get_app by (now rewrite !length_map).
  rewrite mem_map_false; [reflexivity|]. intros x _. apply H.
Qed.

Lemma merged_row_pivot (rs : list ResultRecord) (r : ResultRecord) (c : str) :
  In c (codes_of rs) ->
  row_get (merged_columns rs) (base_row rs r ++ pivot_cells rs r) (lit "grade_" ++ c) =
    pivot_cell grade rs (hallticket_of_record r) c /\
  row_get (merged_columns rs) (base_row rs r ++ pivot_cells rs r) (lit "credits_" ++ c) =
    pivot_cell credits rs (hallticket_of_record r) c /\
  row_get (merged_columns rs) (base_row rs r ++ pivot_cells rs r) (lit "subject_" ++ c) =
    pivot_cell subject rs (hallticket_of_record r) c.
Proof.
  intros H. apply pivot_codes_In in H.
  assert (Hflat : forall p, is_pivot_column (p ++ c) = true ->
            row_get (merged_columns rs) (base_row rs r ++ pivot_cells rs r) (p ++ c) =
            row_get
              (List.map (fun x => lit "grade_" ++ x) (pivot_codes rs) ++
               List.map (fun x => lit "credits_" ++ x) (pivot_codes rs) ++
               List.map (fun x => lit "subject_" ++ x) (pivot_codes rs))
              (pivot_cells rs r) (p ++ c)).
  { intros p Hp. unfold merged_columns. rewrite row_get_app by apply base_row_length.
    destruct (mem (p ++ c) (columns (flat_table rs))) eqn:E; [|reflexivity].
    apply mem_In, flat_table_not_pivot in E. congruence. }
  unfold pivot_cells in *. split; [|split].
  - rewrite (Hflat (lit "grade_")) by reflexivity.
    now apply (prefixed_cells (lit "grade_")).
  - rewrite (Hflat (lit "credits_")) by reflexivity.
    rewrite (skipped_cells (lit "grade_") (lit "credits_")) by (intros x; discriminate).
    now apply (prefixed_cells (lit "credits_")).
  - rewrite (Hflat (lit "subject_")) by reflexivity.
    rewrite (skipped_cells (lit "grade_") (lit "subject_")) by (intros x; discriminate).
    rewrite (skipped_cells (lit "credits_") (lit "subject_")) by (intros x; discriminate).
    rewrite <- (app_nil_r (List.map (fun x => lit "subject_" ++ x) (pivot_codes rs))).
    rewrite <- (app_nil_r (List.map (pivot_cell subject rs (hallticket_of_record r))
                             (pivot_codes rs))).
    now apply (prefixed_cells (lit "subject_")).
Qed.

(** The row of a record in the results sheet: the cells of the merged
    table under the columns of the sheet. *)
Definition main_row (rs : list ResultRecord) (r : ResultRecord) : list cell :=
  List.map (row_get (merged_columns rs) (base_row rs r ++ pivot_cells rs r))
    (final_cols (merged_table rs) (marks_table_of rs)).

Lemma main_row_get (rs : list ResultRecord) (r : ResultRecord) (k : str) :
  In k (merged_columns rs) ->
  row_get (final_cols (merged_table rs) (marks_table_of rs)) (main_row rs r) k =
    row_get (merged_columns rs) (base_row rs r ++ pivot_cells rs r) k.
Proof.
  intros H. unfold main_row, row_get at 1. rewrite rec_get_combine_map.
  now rewrite (proj2 (mem_In _ _) (final_cols_complete rs k H)).
Qed.

Lemma main_row_record (rs : list ResultRecord) (r : ResultRecord) :
  record_row rs r (final_cols (merged_table rs) (marks_table_of rs)) (main_row rs r).
Proof.
  split; [unfold main_row; apply length_map|]. split.
  - intros k Hk. rewrite main_row_get by (apply merged_columns_In; now left).
    now apply merged_row_flat.
  - intros c Hc.
    rewrite !main_row_get
      by (apply merged_columns_In; right; exists c; split; [exact Hc | cbn; tauto]).
    now apply merged_row_pivot.
Qed.

Lemma main_row_hallticket (rs : list ResultRecord) (r : ResultRecord) :
  In r rs ->
  row_get (final_cols (merged_table rs) (marks_table_of rs)) (main_row rs r)
    (lit "hallticket") = Some (hallticket_of_record r).
Proof.
  intros Hr.
  assert (Hk : In (lit "hallticket") (columns (flat_table rs))).
  { apply mem_In. apply (flat_table_has_key rs r); [exact Hr|].
    apply flat_row_has_hallticket. }
  rewrite (proj1 (proj2 (main_row_record rs r)) _ Hk). apply flat_row_hallticket.
Qed.

Section Main.

Variable to_int : str -> option Z.

(** The workbook of the main run for records with at least one mark: the
    rows of the results sheet are the rows of the records, rearranged into
    hall-ticket order. *)
Lemma main_results (rs : list ResultRecord) :
  all_marks rs <> [] ->
  exists df order,
    final_conversion to_int (List.map to_item rs) =
      Return [ (lit "results", df);
               (lit "grades",
                mkDF (lit "hallticket" ::
                        @List.map str str (fun c => lit "grade_" ++ c) (pivot_codes rs))
                  (List.map
                     (fun i => Some i :: List.map (pivot_cell grade rs i) (pivot_codes rs))
                     (pivot_index rs)));
               (lit "marks", marks_table_of rs);
               (lit "raw", raw_frame (List.map to_item rs)) ] /\
    columns df = final_cols (merged_table rs) (marks_table_of rs) /\
    Permutation order rs /\
    rows df = List.map (main_row rs) order /\
    hallticket_sorted to_int df.
Proof.
  intros H.
  assert (Hr : exists r, In r rs).
  { destruct rs as [|r rs']; [now contradiction H | exists r; now left]. }
  destruct Hr as (r & Hr).
  set (fc := final_cols (merged_table rs) (marks_table_of rs)).
  assert (Hht : mem (lit "hallticket") fc = true).
  { apply mem_In, final_cols_complete, merged_columns_In. left. apply mem_In.
    apply (flat_table_has_key rs r); [exact Hr | apply flat_row_has_hallticket]. }
  destruct (sort_by_hallticket_returns to_int (select_columns (merged_table rs) fc) Hht)
    as (df & Es).
  destruct (sort_by_hallticket_spec to_int (select_columns (merged_table rs) fc) df
              (final_cols_no_helper rs) Es)
    as (Hc & Hp & Hs).
  assert (Hrows : rows (select_columns (merged_table rs) fc) = List.map (main_row rs) rs).
  { unfold select_columns, merged_table, main_row. cbn [rows columns].
    now rewrite map_map. }
  rewrite Hrows in Hp. apply Permutation_map_inv in Hp.
  destruct Hp as (order & Hrows' & Hperm).
  exists df, order. split; [|split; [|split; [|split]]].
  - rewrite (final_conversion_with_marks to_int rs H). fold fc. now rewrite Es.
  - exact Hc.
  - now apply Permutation_sym.
  - exact Hrows'.
  - exact Hs.
Qed.

End Main.

End ResultRows.

(* ================================================================= *)
(** * The column order of the results sheet *)

Module OrderClaims.
Import Py Json Pandas App Spec ListFacts FrameFacts RecordFrames PivotFacts.
Import MergeFacts OrderFacts ColumnFacts SortFacts ResultRows.

Lemma flat_table_In (rs : list ResultRecord) (k : str) :
  In k (columns (flat_table rs)) <-> exists r, In r rs /\ In k (keys (flat_row r)).
Proof.
  unfold flat_table. rewrite DataFrame_of_records_columns, uniq_In, in_flat_map.
  split.
  - intros (d & Hd & Hk). apply in_map_iff in Hd. destruct Hd as (r & <- & Hr).
    now exists r.
  - intros (r & Hr & Hk). exists (flat_row r). split; [now apply in_map | exact Hk].
Qed.

Lemma marks_have_parsed (rs : list ResultRecord) :
  all_marks rs <> [] ->
  exists h g n f c ms res, In (Parsed h g n f c ms res) rs.
Proof.
  induction rs as [|r rs IH]; intros H; [now contradiction H|].
  destruct r as [h g n f c ms res|h].
  - exists h, g, n, f, c, ms, res. now left.
  - cbn in H. destruct (IH H) as (h' & g & n & f & c & ms & res & Hin).
    exists h', g, n, f, c, ms, res. now right.
Qed.

Lemma status_column (rs : list ResultRecord) :
  mem (lit "status") (columns (flat_table rs)) = has_placeholder rs.
Proof.
  destruct (has_placeholder rs) eqn:E; unfold has_placeholder in E.
  - apply existsb_exists in E. destruct E as (r & Hr & Hp).
    apply (flat_table_has_key rs r); [exact Hr|].
    destruct r; [discriminate|]. cbn. tauto.
  - apply mem_false. intros Hin. apply flat_table_In in Hin.
    destruct Hin as (r & Hr & Hk).
    assert (Hp : is_placeholder r = true).
    { destruct r; [|reflexivity]. cbn in Hk.
      repeat (destruct Hk as [Hk|Hk]; [discriminate Hk|]). contradiction. }
    assert (existsb is_placeholder rs = true) by (apply existsb_exists; now exists r).
    congruence.
Qed.

Lemma core_cols_merged (rs : list ResultRecord) :
  all_marks rs <> [] ->
  filter (fun c => mem c (columns (flat_table rs))) core_pref = core_columns rs.
Proof.
  intros H. destruct (marks_have_parsed rs H) as (h & g & n & f & c & ms & res & Hin).
  assert (Hk : forall k, In k (keys (flat_row (Parsed h g n f c ms res))) ->
                 mem k (columns (flat_table rs)) = true)
    by (intros k; now apply flat_table_has_key).
  unfold core_pref, core_columns. cbn [filter].
  rewrite !Hk by (cbn; tauto). rewrite status_column.
  now destruct (has_placeholder rs).
Qed.

Lemma filter_only {A} (f : A -> bool) (a : A) (l : list A) :
  NoDup l -> In a l -> f a = true ->
  (forall x, In x l -> f x = true -> x = a) ->
  filter f l = [a].
Proof.
  induction 1 as [|x l Hx Hnd IH]; intros Hin Ha Honly; [contradiction|].
  cbn [filter]. destruct Hin as [->|Hin].
  - rewrite Ha. f_equal. apply filter_none. intros y Hy.
    destruct (f y) eqn:E; [|reflexivity].
    exfalso. apply Hx. rewrite <- (Honly y); [exact Hy | now right | exact E].
  - destruct (f x) eqn:E.
    + exfalso. apply Hx. rewrite (Honly x); [exact Hin | now left | exact E].
    + apply IH; [exact Hin | exact Ha |]. intros y Hy. apply Honly. now right.
Qed.

Lemma other_cols_merged (rs : list ResultRecord) :
  rs <> [] ->
  filter (fun c => negb (mem c core_pref)) (columns (flat_table rs)) =
    [lit "student.hallticket"].
Proof.
  intros H. apply filter_only.
  - apply flat_table_NoDup.
  - destruct rs as [|r rs]; [now contradiction H|].
    apply mem_In. apply (flat_table_has_key _ r); [now left|].
    destruct r; cbn; tauto.
  - reflexivity.
  - intros x Hx Hf. apply flat_table_columns_known in Hx.
    cbn [In] in Hx.
    repeat (destruct Hx as [<-|Hx]; [first [reflexivity | discriminate Hf]|]).
    contradiction.
Qed.

Lemma sorted_order {A} (R : A -> A -> Prop) (l : list A) (a b : A) :
  StronglySorted R l -> In a l -> In b l -> a <> b -> ~ R b a ->
  exists l1 l2 l3, l = l1 ++ a :: l2 ++ b :: l3.
Proof.
  induction 1 as [|x l Hs IH Hx]; intros Ha Hb Hne Hn; [contradiction|].
  destruct Ha as [->|Ha].
  - destruct Hb as [->|Hb]; [now contradiction Hne|].
    apply in_split in Hb. destruct Hb as (l2 & l3 & ->).
    now exists [], l2, l3.
  - destruct Hb as [->|Hb].
    + exfalso. apply Hn. rewrite Forall_forall in Hx. now apply Hx.
    + destruct (IH Ha Hb Hne Hn) as (l1 & l2 & l3 & ->).
      now exists (x :: l1), l2, l3.
Qed.

Lemma count_In (x : str) (l : list str) : (0 < count x l)%nat <-> In x l.
Proof.
  unfold count. split.
  - intros H. destruct (filter (str_eqb x) l) as [|y t] eqn:E; [cbn in H; lia|].
    assert (Hy : In y (filter (str_eqb x) l)) by (rewrite E; now left).
    apply filter_In in Hy. destruct Hy as (Hy & Hxy).
    apply str_eqb_eq in Hxy. now subst.
  - intros H.
    assert (Hx : In x (filter (str_eqb x) l))
      by (apply filter_In; split; [exact H | apply str_eqb_refl]).
    destruct (filter (str_eqb x) l); [contradiction | cbn; lia].
Qed.

Lemma grouped_precedes (core other codes : list str) (a b : str) :
  (exists l1 l2 l3, codes = l1 ++ a :: l2 ++ b :: l3) ->
  precedes (lit "grade_" ++ a) (lit "grade_" ++ b)
    (core ++ flat_map pivot_columns codes ++ other).
Proof.
  intros (l1 & l2 & l3 & ->).
  exists (core ++ flat_map pivot_columns l1),
         ([lit "credits_" ++ a; lit "subject_" ++ a] ++ flat_map pivot_columns l2),
         ([lit "credits_" ++ b; lit "subject_" ++ b] ++ flat_map pivot_columns l3 ++ other).
  rewrite flat_map_app. cbn [flat_map]. rewrite flat_map_app. cbn [flat_map].
  unfold pivot_columns at 2 4. rewrite <- !app_assoc. cbn [app]. reflexivity.
Qed.

Section Order.

Variable to_int : str -> option Z.

(** C4, amended.  In the results sheet of the main run's final conversion
    of a list of records with at least one mark, the columns are: the core
    columns [hallticket], [student.name], [student.father],
    [student.gender], [student.course], [result] and, when a placeholder is
    present, [status]; then, for each subject code of the mark rows, the
    most frequent first, its three columns [grade_], [credits_] and
    [subject_] together; then the one column left, [student.hallticket].
    Every pivot column belongs to a code, so none is left over to be sorted
    by name.  A code with more mark rows than another has its grade column
    before the other's.  The cells moved with their labels: the rows of the
    sheet are the rows of the records, one each, and a row holds under
    every label the record's own field or the pivot cell of its hall ticket
    and that code. *)
Theorem results_column_order (rs : list ResultRecord) :
  all_marks rs <> [] ->
  exists wb results codes order,
    final_conversion to_int (List.map to_item rs) = Return wb /\
    sheet wb "results" = Some results /\
    columns results =
      core_columns rs ++ flat_map pivot_columns codes ++ [lit "student.hallticket"] /\
    NoDup codes /\
    (forall c, In c codes <-> In c (codes_of rs)) /\
    StronglySorted
      (fun a b => (count b (codes_of rs) <= count a (codes_of rs))%nat) codes /\
    (forall a b,
        In b (codes_of rs) ->
        (count b (codes_of rs) < count a (codes_of rs))%nat ->
        precedes (lit "grade_" ++ a) (lit "grade_" ++ b) (columns results)) /\
    Permutation order rs /\
    Forall2 (fun r row => record_row rs r (columns results) row) order (rows results).
Proof.
  intros H.
  assert (Hrs : rs <> []) by (intros ->; now apply H).
  assert (Hcols : final_cols (merged_table rs) (marks_table_of rs) =
                    core_columns rs ++
                    flat_map pivot_columns (value_counts_index (List.map Some (codes_of rs))) ++
                    [lit "student.hallticket"]).
  { rewrite final_cols_merged, core_cols_merged, other_cols_merged by assumption.
    reflexivity. }
  set (vc := value_counts_index (List.map Some (codes_of rs))) in *.
  destruct (main_results to_int rs H) as (df' & order & Hwb & Hc & Hperm & Hrows & _).
  assert (Hsorted : StronglySorted
            (fun a b => (count b (codes_of rs) <= count a (codes_of rs))%nat) vc).
  { pose proof (value_counts_sorted (List.map Some (codes_of rs))) as Hs.
    now rewrite present_Some in Hs. }
  eexists. exists df', vc, order.
  split; [exact Hwb|]. split; [reflexivity|].
  split; [now rewrite Hc|].
  split; [apply value_counts_NoDup|].
  split; [intros c; apply value_counts_In|].
  split; [exact Hsorted|]. split; [|split; [exact Hperm|]].
  - intros a b Hb Hlt. rewrite Hc, Hcols.
    apply grouped_precedes.
    apply (sorted_order _ vc a b Hsorted).
    + apply value_counts_In. apply count_In. lia.
    + now apply value_counts_In.
    + intros ->. lia.
    + lia.
  - rewrite Hrows, Hc. apply Forall2_map_right. intros r. apply main_row_record.
Qed.

End Order.

(** Two placeholders and no mark: the conversion does not reorder, the
    sheet starts with [student.hallticket] and [hallticket] comes last. *)
Lemma no_marks_core_columns_not_first :
  match final_conversion Examples.decimal_int
          (List.map to_item Examples.two_placeholders) with
  | Return wb =>
      match sheet wb "results" with
      | Some results =>
          columns results =
            [lit "student.hallticket"; lit "result"; lit "status"; lit "hallticket"]
      | None => False
      end
  | Raise _ => False
  end.
Proof. vm_compute. reflexivity. Qed.

(** The cohort of the examples: MATH101 has five mark rows and PHYS201
    two, and [grade_MATH101] comes before [grade_PHYS201]; ART100, first
    by name, comes last with its single mark row. *)
Lemma results_column_order_witness :
  all_marks Examples.cohort <> [] /\
  exists wb results,
    final_conversion Examples.decimal_int (List.map to_item Examples.cohort) = Return wb /\
    sheet wb "results" = Some results /\
    precedes (lit "grade_MATH101") (lit "grade_PHYS201") (columns results).
Proof.
  split; [discriminate|].
  destruct (results_column_order Examples.decimal_int Examples.cohort)
    as (wb & results & codes & order & Hwb & Hs & _ & _ & _ & _ & Hp & _); [discriminate|].
  exists wb, results. split; [exact Hwb|]. split; [exact Hs|].
  apply (Hp (lit "MATH101") (lit "PHYS201")).
  - vm_compute. tauto.
  - vm_compute. lia.
Defined.

End OrderClaims.

(* ================================================================= *)
(** * The standalone conversion on result records *)

Module StandaloneFacts.
Import Py Json Pandas Spec ListFacts FrameFacts RecordFrames PivotFacts.
Import MergeFacts OrderFacts ColumnFacts SortFacts ResultRows OrderClaims.

(** The key column keeps its name through a left merge. *)
Lemma merge_left_key (left right : DataFrame) (key : str) :
  mem key (columns left) = true ->
  mem key (columns (merge_left left right key)) = true.
Proof.
  intros H. unfold merge_left. cbn [columns]. rewrite mem_app.
  apply orb_true_iff. left. apply mem_In. apply mem_In in H.
  apply in_map_iff. exists key. split; [|exact H].
  rewrite (proj2 (mem_false key _)); [reflexivity|].
  intros Hin. apply filter_In in Hin. destruct Hin as [_ Hin].
  now rewrite str_eqb_refl in Hin.
Qed.

Lemma reset_index_pivot (rs : list ResultRecord) (v : str) (sel : MarkEntry -> str) :
  (forall hm, row_get App.expected_mark_cols (mark_cells hm) v = Some (sel (snd hm))) ->
  ~ In (lit "hallticket") (codes_of rs) ->
  reset_index (pivot_table (marks_table_of rs) (lit "hallticket") (lit "code") v) =
    Return (mkDF (lit "hallticket" :: pivot_codes rs) (pivot_rows sel rs)).
Proof.
  intros Hv Hno. rewrite (pivot_table_marks rs v sel Hv).
  unfold reset_index. cbn [index_name pcolumns index pvalues].
  rewrite (proj2 (mem_false _ _)) by (now rewrite pivot_codes_In).
  f_equal. f_equal.
  apply (map_combine_map (fun i => List.map (pivot_cell sel rs i) (pivot_codes rs))
           (fun iv => Some (fst iv) :: snd iv)).
Qed.

Section Standalone.

Variable to_int : str -> option Z.
Variable isupper : str -> bool.

Lemma final_cols_incl (df m : DataFrame) (c : str) :
  In c (JsonToExcel.final_cols isupper df m) -> In c (columns df).
Proof.
  unfold JsonToExcel.final_cols. cbv zeta. intros H.
  apply in_app_iff in H. destruct H as [H|H].
  - assert (H' : In c (filter (fun c => mem c (columns df)) JsonToExcel.core_pref ++
                       filter (fun c => mem c (columns df))
                         (let cs := if negb (empty m)
                                    then value_counts_index (column m (lit "code"))
                                    else [] in
                          let labs := filter (fun c => contains c (lit "LAB")) cs in
                          let non := filter (fun c => negb (mem c labs)) cs in
                          firstn (Nat.div (List.length non) 2) non ++ labs ++
                          skipn (Nat.div (List.length non) 2) non)) \/
                 (mem (lit "result") (columns df) = true /\ c = lit "result")).
    { cbv zeta. destruct (mem (lit "result") (columns df)) eqn:E.
      - apply in_app_iff in H. destruct H as [H|[<-|[]]]; [now left | now right].
      - now left. }
    destruct H' as [H'|[H' ->]]; [|now apply mem_In].
    apply in_app_iff in H'. destruct H' as [H'|H']; apply filter_In in H';
      now apply mem_In.
  - apply (Permutation_in _ (sorted_perm _)) in H. apply filter_In in H. tauto.
Qed.

Lemma final_cols_hallticket (df m : DataFrame) :
  mem (lit "hallticket") (columns df) = true ->
  mem (lit "hallticket") (JsonToExcel.final_cols isupper df m) = true.
Proof.
  intros H. apply mem_In. unfold JsonToExcel.final_cols. cbv zeta.
  apply in_app_iff. left.
  assert (Hc : In (lit "hallticket")
                 (filter (fun c => mem c (columns df)) JsonToExcel.core_pref)).
  { apply filter_In. split; [now left | exact H]. }
  destruct (mem (lit "result") (columns df)); rewrite !in_app_iff; tauto.
Qed.

Lemma add_missing_present (df : DataFrame) (cols : list str) :
  (forall c, In c cols -> In c (columns df)) ->
  JsonToExcel.add_missing df cols = df.
Proof.
  unfold JsonToExcel.add_missing. induction cols as [|c cols IH]; intros H;
    [reflexivity|].
  cbn [fold_left]. rewrite (proj2 (mem_In c (columns df))) by (apply H; now left).
  apply IH. intros c' Hc'. apply H. now right.
Qed.

(** The standalone conversion on a list of records none of whose codes is
    the string [hallticket]. *)
Lemma items_to_excel_records (rs : list ResultRecord) :
  ~ In (lit "hallticket") (codes_of rs) ->
  JsonToExcel.items_to_excel to_int isupper (List.map to_item rs) =
    (d <- reindex (standalone_merged rs)
            (JsonToExcel.final_cols isupper (standalone_merged rs) (marks_table_of rs)) ;;
     df <- App.sort_by_hallticket to_int (fillna d []) ;;
     Return [ (lit "results", df);
              (lit "grades",
               mkDF (lit "hallticket" :: pivot_codes rs) (pivot_rows grade rs));
              (lit "marks", marks_table_of rs);
              (lit "raw", App.raw_frame (List.map to_item rs)) ]).
Proof.
  intros Hno. unfold JsonToExcel.items_to_excel.
  change JsonToExcel.rows_loop with App.rows_loop.
  rewrite rows_loop_records. cbn [bind fst snd app].
  change JsonToExcel.marks_frame with App.marks_frame.
  rewrite marks_frame_records. cbn [bind]. rewrite marks_table_empty. cbv zeta.
  fold (flat_table rs). unfold standalone_merged.
  destruct (all_marks rs) as [|m0 ms0] eqn:E; cbn [negb bind].
  - rewrite add_missing_present by apply final_cols_incl.
    assert (Hg : DataFrame_of_columns [lit "hallticket"] =
                 mkDF (lit "hallticket" :: pivot_codes rs) (pivot_rows grade rs)).
    { unfold pivot_rows, pivot_index, pivot_codes, codes_of. now rewrite E. }
    rewrite Hg.
    change JsonToExcel.sort_by_hallticket with App.sort_by_hallticket.
    destruct (reindex _ _); cbn [bind]; [|reflexivity].
    destruct (App.sort_by_hallticket to_int _); reflexivity.
  - rewrite (reset_index_pivot rs (lit "grade") grade) by (reflexivity || exact Hno).
    rewrite (reset_index_pivot rs (lit "credits") credits) by (reflexivity || exact Hno).
    rewrite (reset_index_pivot rs (lit "subject") subject) by (reflexivity || exact Hno).
    cbn [bind].
    rewrite add_missing_present by apply final_cols_incl.
    change JsonToExcel.sort_by_hallticket with App.sort_by_hallticket.
    destruct (reindex _ _); cbn [bind]; [|reflexivity].
    destruct (App.sort_by_hallticket to_int _); reflexivity.
Qed.

Lemma standalone_merged_key (rs : list ResultRecord) :
  rs <> [] -> mem (lit "hallticket") (columns (standalone_merged rs)) = true.
Proof.
  intros H.
  assert (Hf : mem (lit "hallticket") (columns (flat_table rs)) = true).
  { destruct rs as [|r rs]; [now contradiction H|].
    apply (flat_table_has_key _ r); [now left | apply flat_row_has_hallticket]. }
  unfold standalone_merged. destruct (all_marks rs); [exact Hf|].
  now repeat apply merge_left_key.
Qed.

End Standalone.

Lemma rename_prefix (p : str) (cs : list str) (cells : list (list cell)) :
  ~ In (lit "hallticket") cs ->
  rename (JsonToExcel.prefix_unless_hallticket p) (mkDF (lit "hallticket" :: cs) cells) =
    mkDF (lit "hallticket" :: List.map (fun c => p ++ c) cs) cells.
Proof.
  intros H. unfold rename. cbn [columns rows List.map]. f_equal. f_equal.
  apply map_ext_in. intros c Hc. unfold JsonToExcel.prefix_unless_hallticket.
  rewrite (proj2 (str_eqb_neq c (lit "hallticket"))); [reflexivity|].
  intros ->. now apply H.
Qed.

Lemma plain_code_spec (c : str) :
  plain_code c = true ->
  ~ In c record_columns /\
  (forall c', c <> lit "credits_" ++ c') /\ (forall c', c <> lit "subject_" ++ c') /\
  c <> lit "hallticket_sort".
Proof.
  unfold plain_code. rewrite !andb_true_iff, !negb_true_iff.
  intros [[[H1 H2] H3] H4]. split; [now apply mem_false|].
  split; [intros c' ->; discriminate|]. split; [intros c' ->; discriminate|].
  now apply str_eqb_neq.
Qed.

(** With plain codes the three merges of the standalone conversion give
    the merged table, the grades under the bare codes. *)
Lemma standalone_merged_plain (rs : list ResultRecord) :
  (forall c, In c (codes_of rs) -> plain_code c = true) ->
  standalone_merged rs = bare_table rs.
Proof.
  intros Hplain.
  assert (Hno : ~ In (lit "hallticket") (pivot_codes rs)).
  { rewrite pivot_codes_In. intros Hin. apply Hplain, plain_code_spec in Hin.
    apply (proj1 Hin). cbn. tauto. }
  assert (Hcode : forall c, In c (pivot_codes rs) -> plain_code c = true)
    by (intros c Hc; apply Hplain; now apply pivot_codes_In).
  unfold standalone_merged.
  destruct (all_marks rs) as [|m0 ms0] eqn:E.
  - unfold bare_table, bare_columns, pivot_cells, pivot_codes, codes_of.
    rewrite E. cbn [List.map app].
    change (sorted (uniq [])) with (@nil str). cbn [List.map app].
    apply flat_table_eta.
  - unfold pivot_rows. rewrite !rename_prefix by exact Hno.
    rewrite (flat_table_eta rs).
    pose proof (merge_step rs [] (fun _ => []) (fun c => c) grade) as H1.
    rewrite map_id in H1. rewrite H1; clear H1.
    2: { intros a b Hab; exact Hab. }
    2: { intros c Hc ->. now apply Hno. }
    2: { intros c c' Hc Hc' ->. rewrite app_nil_r in Hc.
         apply Hcode, plain_code_spec in Hc'. apply (proj1 Hc').
         now apply flat_table_columns_known in Hc. }
    rewrite <- app_assoc. cbn [app].
    rewrite (map_ext _ (fun r => base_row rs r ++
               List.map (pivot_cell grade rs (hallticket_of_record r)) (pivot_codes rs)))
      by (intros r; now rewrite app_nil_r).
    rewrite (merge_step rs _ _ (fun c => lit "credits_" ++ c) credits).
    2: { intros a b. apply prefix_inj. }
    2: { intros c _; discriminate. }
    2: { intros c c' Hc _. apply in_app_iff in Hc. destruct Hc as [Hc|Hc].
         - apply flat_table_not_pivot in Hc. intros ->. discriminate.
         - apply Hcode, plain_code_spec in Hc. apply Hc. }
    rewrite <- app_assoc.
    rewrite (map_ext _ (fun r => base_row rs r ++
               (List.map (pivot_cell grade rs (hallticket_of_record r)) (pivot_codes rs) ++
                List.map (pivot_cell credits rs (hallticket_of_record r)) (pivot_codes rs))))
      by (intros r; now rewrite <- app_assoc).
    rewrite (merge_step rs _ _ (fun c => lit "subject_" ++ c) subject).
    2: { intros a b. apply prefix_inj. }
    2: { intros c _; discriminate. }
    2: { intros c c' Hc _. rewrite !in_app_iff in Hc. destruct Hc as [Hc|[Hc|Hc]].
         - apply flat_table_not_pivot in Hc. intros ->. discriminate.
         - apply Hcode, plain_code_spec in Hc. apply Hc.
         - apply in_map_iff in Hc. destruct Hc as (x & <- & _). discriminate. }
    unfold bare_table, bare_columns, pivot_cells. rewrite <- !app_assoc. f_equal.
    apply map_ext. intros r. now rewrite <- !app_assoc.
Qed.

(** With plain codes the labels of that table are distinct. *)
Lemma bare_columns_NoDup (rs : list ResultRecord) :
  (forall c, In c (codes_of rs) -> plain_code c = true) -> NoDup (bare_columns rs).
Proof.
  intros Hplain.
  assert (Hcode : forall c, In c (pivot_codes rs) -> plain_code c = true)
    by (intros c Hc; apply Hplain; now apply pivot_codes_In).
  unfold bare_columns.
  apply NoDup_app; [apply flat_table_NoDup | |].
  - apply NoDup_app; [apply pivot_codes_NoDup | |].
    + apply NoDup_app; [apply map_prefix_NoDup, pivot_codes_NoDup
                       | apply map_prefix_NoDup, pivot_codes_NoDup |].
      intros a Ha Hb. apply in_map_iff in Ha. destruct Ha as (x & <- & _).
      apply in_map_iff in Hb. destruct Hb as (y & E & _). discriminate.
    + intros a Ha Hb. apply Hcode, plain_code_spec in Ha.
      destruct Ha as (_ & Hc & Hs & _). apply in_app_iff in Hb.
      destruct Hb as [Hb|Hb]; apply in_map_iff in Hb; destruct Hb as (y & E & _);
        [now apply (Hc y) | now apply (Hs y)].
  - intros a Ha Hb. rewrite !in_app_iff in Hb. destruct Hb as [Hb|[Hb|Hb]].
    + apply Hcode, plain_code_spec in Hb. apply (proj1 Hb).
      now apply flat_table_columns_known in Ha.
    + apply flat_table_not_pivot in Ha. apply in_map_iff in Hb.
      destruct Hb as (y & <- & _). discriminate.
    + apply flat_table_not_pivot in Ha. apply in_map_iff in Hb.
      destruct Hb as (y & <- & _). discriminate.
Qed.

Lemma bare_columns_no_helper (rs : list ResultRecord) :
  (forall c, In c (codes_of rs) -> plain_code c = true) ->
  ~ In (lit "hallticket_sort") (bare_columns rs).
Proof.
  intros Hplain H. unfold bare_columns in H. rewrite !in_app_iff in H.
  destruct H as [H|[H|[H|H]]].
  - apply flat_table_columns_known in H. cbn [In] in H.
    repeat (destruct H as [H|H]; [vm_compute in H; discriminate H|]). contradiction.
  - apply pivot_codes_In, Hplain, plain_code_spec in H. now apply H.
  - apply in_map_iff in H. destruct H as (y & E & _). vm_compute in E. discriminate E.
  - apply in_map_iff in H. destruct H as (y & E & _). vm_compute in E. discriminate E.
Qed.

(** The cells of a record in that table. *)
Lemma bare_row_flat (rs : list ResultRecord) (r : ResultRecord) (k : str) :
  In k (columns (flat_table rs)) ->
  row_get (bare_columns rs) (base_row rs r ++ pivot_cells rs r) k =
    rec_get (flat_row r) k.
Proof.
  intros H. unfold bare_columns. rewrite row_get_app by apply base_row_length.
  rewrite base_row_get. now rewrite (proj2 (mem_In _ _) H).
Qed.

Lemma bare_row_code (rs : list ResultRecord) (r : ResultRecord) (c : str) :
  (forall c, In c (codes_of rs) -> plain_code c = true) ->
  In c (codes_of rs) ->
  row_get (bare_columns rs) (base_row rs r ++ pivot_cells rs r) c =
    pivot_cell grade rs (hallticket_of_record r) c.
Proof.
  intros Hplain Hc. unfold bare_columns, pivot_cells.
  rewrite row_get_app by apply base_row_length.
  assert (Hn : mem c (columns (flat_table rs)) = false).
  { apply mem_false. intros Hin. apply flat_table_columns_known in Hin.
    apply Hplain, plain_code_spec in Hc. now apply (proj1 Hc). }
  rewrite Hn. rewrite row_get_app by (now rewrite length_map).
  rewrite (proj2 (mem_In _ _)) by (now apply pivot_codes_In).
  unfold row_get. rewrite rec_get_combine_map.
  now rewrite (proj2 (mem_In _ _)) by (now apply pivot_codes_In).
Qed.

(** The row of a record in the results sheet of the standalone
    conversion: the cells of the merged table under the columns of the
    sheet, filled. *)
Definition bare_row (rs : list ResultRecord) (fc : list str) (r : ResultRecord)
  : list cell :=
  List.map filled
    (List.map (row_get (bare_columns rs) (base_row rs r ++ pivot_cells rs r)) fc).

Lemma bare_row_get (rs : list ResultRecord) (fc : list str) (r : ResultRecord) (k : str) :
  In k fc ->
  row_get fc (bare_row rs fc r) k =
    filled (row_get (bare_columns rs) (base_row rs r ++ pivot_cells rs r) k).
Proof.
  intros H. unfold bare_row, row_get at 1. rewrite map_map.
  rewrite (rec_get_combine_map
             (fun k => filled (row_get (bare_columns rs)
                                 (base_row rs r ++ pivot_cells rs r) k))).
  now rewrite (proj2 (mem_In _ _) H).
Qed.

Section Rows.

Variable to_int : str -> option Z.
Variable isupper : str -> bool.

(** Every code is a column of the sheet. *)
Lemma final_cols_codes (rs : list ResultRecord) (c : str) :
  In c (codes_of rs) ->
  In c (JsonToExcel.final_cols isupper (bare_table rs) (marks_table_of rs)).
Proof.
  intros Hc. unfold JsonToExcel.final_cols. cbv zeta.
  assert (Hm : all_marks rs <> []).
  { intros E. unfold codes_of in Hc. now rewrite E in Hc. }
  rewrite marks_table_empty. destruct (all_marks rs) eqn:E; [now contradiction Hm|].
  cbn [negb]. rewrite column_marks_code.
  set (codes := value_counts_index (List.map Some (codes_of rs))).
  set (labs := filter (fun c => contains c (lit "LAB")) codes).
  set (non := filter (fun c => negb (mem c labs)) codes).
  assert (Hin : In c (firstn (Nat.div (List.length non) 2) non ++ labs ++
                      skipn (Nat.div (List.length non) 2) non)).
  { assert (Hcodes : In c codes) by (now apply value_counts_In).
    rewrite !in_app_iff. destruct (mem c labs) eqn:El.
    - right. left. now apply mem_In.
    - assert (Hn : In c non) by (apply filter_In; split; [exact Hcodes | now rewrite El]).
      rewrite <- (firstn_skipn (Nat.div (List.length non) 2) non) in Hn.
      apply in_app_iff in Hn. tauto. }
  assert (Hcol : mem c (columns (bare_table rs)) = true).
  { apply mem_In. cbn [bare_table columns]. unfold bare_columns. rewrite !in_app_iff.
    right. left. now apply pivot_codes_In. }
  apply in_app_iff. left.
  assert (Hsub : In c (filter (fun c => mem c (columns (bare_table rs)))
                         (firstn (Nat.div (List.length non) 2) non ++ labs ++
                          skipn (Nat.div (List.length non) 2) non)))
    by (apply filter_In; now split).
  destruct (mem (lit "result") (columns (bare_table rs))); rewrite !in_app_iff; tauto.
Qed.

(** The workbook of the standalone conversion for a non-empty list of
    records with plain codes: the rows of the results sheet are the rows of
    the records, rearranged into hall-ticket order. *)
Lemma standalone_results (rs : list ResultRecord) :
  rs <> [] ->
  (forall c, In c (codes_of rs) -> plain_code c = true) ->
  exists df order,
    JsonToExcel.items_to_excel to_int isupper (List.map to_item rs) =
      Return [ (lit "results", df);
               (lit "grades",
                mkDF (lit "hallticket" :: pivot_codes rs) (pivot_rows grade rs));
               (lit "marks", marks_table_of rs);
               (lit "raw", App.raw_frame (List.map to_item rs)) ] /\
    columns df = JsonToExcel.final_cols isupper (bare_table rs) (marks_table_of rs) /\
    Permutation order rs /\
    rows df =
      List.map
        (bare_row rs (JsonToExcel.final_cols isupper (bare_table rs) (marks_table_of rs)))
        order /\
    hallticket_sorted to_int df.
Proof.
  intros Hrs Hplain.
  assert (Hno : ~ In (lit "hallticket") (codes_of rs)).
  { intros Hin. apply Hplain, plain_code_spec in Hin. apply (proj1 Hin). cbn. tauto. }
  set (fc := JsonToExcel.final_cols isupper (bare_table rs) (marks_table_of rs)).
  set (d := fillna (select_columns (bare_table rs) fc) []).
  assert (Hht : mem (lit "hallticket") (columns d) = true).
  { unfold d. cbn [fillna select_columns columns]. apply final_cols_hallticket.
    rewrite <- (standalone_merged_plain rs Hplain). now apply standalone_merged_key. }
  assert (Hhelper : mem (lit "hallticket_sort") (columns d) = false).
  { unfold d. cbn [fillna select_columns columns]. apply mem_false. intros Hin.
    unfold fc in Hin. apply (final_cols_incl to_int isupper) in Hin.
    now apply (bare_columns_no_helper rs Hplain). }
  destruct (sort_by_hallticket_returns to_int d Hht) as (df & Es).
  destruct (sort_by_hallticket_spec to_int d df Hhelper Es) as (Hc & Hp & Hs).
  assert (Hrows : rows d = List.map (bare_row rs fc) rs).
  { unfold d, fillna, select_columns, bare_table, bare_row. cbn [rows columns].
    now rewrite !map_map. }
  rewrite Hrows in Hp. apply Permutation_map_inv in Hp.
  destruct Hp as (order & Hrows' & Hperm).
  exists df, order. split; [|split; [|split; [|split]]].
  - rewrite (items_to_excel_records to_int isupper rs Hno).
    rewrite (standalone_merged_plain rs Hplain).
    rewrite reindex_unique by (now apply bare_columns_NoDup). cbn [bind].
    fold fc. fold d. now rewrite Es.
  - exact Hc.
  - now apply Permutation_sym.
  - exact Hrows'.
  - exact Hs.
Qed.

Lemma bare_row_record (rs : list ResultRecord) (r : ResultRecord) :
  (forall c, In c (codes_of rs) -> plain_code c = true) ->
  standalone_row rs r
    (JsonToExcel.final_cols isupper (bare_table rs) (marks_table_of rs))
    (bare_row rs (JsonToExcel.final_cols isupper (bare_table rs) (marks_table_of rs)) r).
Proof.
  intros Hplain. split; [unfold bare_row; now rewrite !length_map|]. split.
  - intros k Hk Hin. rewrite bare_row_get by exact Hin. now rewrite bare_row_flat.
  - intros c Hc. rewrite bare_row_get by (now apply final_cols_codes).
    now rewrite bare_row_code.
Qed.

End Rows.

End StandaloneFacts.

(* ================================================================= *)
(** * The left join keeps the records without marks *)

Module JoinClaims.
Import Py Json Pandas App Spec ListFacts FrameFacts RecordFrames PivotFacts.
Import MergeFacts OrderFacts ColumnFacts SortFacts ResultRows OrderClaims StandaloneFacts.

(** A record that is the only one under its hall ticket and has no marks
    has no mark row under its hall ticket. *)
Lemma only_record_In (rs : list ResultRecord) (r : ResultRecord) :
  filter (fun r' => str_eqb (hallticket_of_record r') (hallticket_of_record r)) rs = [r] ->
  In r rs.
Proof.
  intros H.
  assert (Hin : In r (filter (fun r' => str_eqb (hallticket_of_record r')
                                           (hallticket_of_record r)) rs))
    by (rewrite H; now left).
  now apply filter_In in Hin.
Qed.

Lemma only_record_no_mark (rs : list ResultRecord) (r : ResultRecord) :
  filter (fun r' => str_eqb (hallticket_of_record r') (hallticket_of_record r)) rs = [r] ->
  marks_of_record r = [] ->
  ~ In (hallticket_of_record r) (List.map fst (all_marks rs)).
Proof.
  intros Hone Hm Hin. apply in_map_iff in Hin. destruct Hin as ((h & m) & Eh & Hin).
  cbn [fst] in Eh. unfold all_marks in Hin. apply in_flat_map in Hin.
  destruct Hin as (r' & Hr' & Hin). apply in_map_iff in Hin.
  destruct Hin as (m' & [= <- <-] & Hm').
  assert (Hf : In r' (filter (fun r' => str_eqb (hallticket_of_record r')
                                          (hallticket_of_record r)) rs)).
  { apply filter_In. split; [exact Hr' | now apply str_eqb_eq]. }
  rewrite Hone in Hf. destruct Hf as [<-|[]]. rewrite Hm in Hm'. contradiction.
Qed.

(** The rows of a sheet under a hall ticket, when the rows are those of
    the records in some order and each holds its record's hall ticket. *)
Lemma rows_under_ticket (rs order : list ResultRecord) (r : ResultRecord)
  (cols : list str) (f : ResultRecord -> list cell) :
  Permutation order rs ->
  (forall r', In r' rs ->
     row_get cols (f r') (lit "hallticket") = Some (hallticket_of_record r')) ->
  filter (fun r' => str_eqb (hallticket_of_record r') (hallticket_of_record r)) rs = [r] ->
  filter
    (fun row' => cell_eqb (row_get cols row' (lit "hallticket"))
                   (Some (hallticket_of_record r)))
    (List.map f order) = [f r].
Proof.
  intros Hp Hkey Hone. rewrite filter_of_map.
  rewrite (filter_ext_in _ (fun r' => str_eqb (hallticket_of_record r')
                                         (hallticket_of_record r))).
  2: { intros r' Hr'. rewrite Hkey; [reflexivity|]. now apply (Permutation_in _ Hp). }
  assert (Hf : Permutation
                 (filter (fun r' => str_eqb (hallticket_of_record r')
                                      (hallticket_of_record r)) order) [r]).
  { rewrite <- Hone. now apply filter_perm. }
  apply Permutation_sym, Permutation_length_1_inv in Hf. now rewrite Hf.
Qed.

Section Join.

Variable to_int : str -> option Z.
Variable isupper : str -> bool.

(** C8, amended.  In a list of records with at least one mark, take a
    record without marks that is the only record under its hall ticket.
    In the results sheet of the main run's final conversion it has exactly
    one row under its hall ticket; the sheet has one row per record; that
    row carries the record's own fields, and its cell is missing under
    every pivot column, which is what a left join on the hall ticket gives
    a key the pivots lack.  The standalone conversion, when every subject
    code is the name of no other column, gives it exactly one row as well,
    with the empty string under the column of every code. *)
Theorem zero_mark_record_keeps_row (rs : list ResultRecord) (r : ResultRecord) :
  marks_of_record r = [] -> all_marks rs <> [] ->
  filter (fun r' => str_eqb (hallticket_of_record r') (hallticket_of_record r)) rs = [r] ->
  (exists wb results row,
     final_conversion to_int (List.map to_item rs) = Return wb /\
     sheet wb "results" = Some results /\
     List.length (rows results) = List.length rs /\
     filter
       (fun row' =>
          cell_eqb (row_get (columns results) row' (lit "hallticket"))
            (Some (hallticket_of_record r)))
       (rows results) = [row] /\
     (forall k, In k (columns (flat_table rs)) ->
        row_get (columns results) row k = rec_get (flat_row r) k) /\
     (forall c p, In c (codes_of rs) -> In p (pivot_columns c) ->
        In p (columns results) /\ row_get (columns results) row p = None)) /\
  ((forall c, In c (codes_of rs) -> plain_code c = true) ->
   exists wb results row,
     JsonToExcel.items_to_excel to_int isupper (List.map to_item rs) = Return wb /\
     sheet wb "results" = Some results /\
     List.length (rows results) = List.length rs /\
     filter
       (fun row' =>
          cell_eqb (row_get (columns results) row' (lit "hallticket"))
            (Some (hallticket_of_record r)))
       (rows results) = [row] /\
     (forall c, In c (codes_of rs) ->
        In c (columns results) /\ row_get (columns results) row c = Some [])).
Proof.
  intros Hm H Hone.
  pose proof (only_record_In rs r Hone) as Hr.
  pose proof (only_record_no_mark rs r Hone Hm) as Hno.
  assert (Hrs : rs <> []) by (intros ->; now apply H).
  split.
  - destruct (main_results to_int rs H) as (df & order & Hwb & Hc & Hperm & Hrows & _).
    eexists. exists df, (main_row rs r).
    split; [exact Hwb|]. split; [reflexivity|]. split; [|split; [|split]].
    + rewrite Hrows, length_map. now apply Permutation_length.
    + rewrite Hrows, Hc.
      apply (rows_under_ticket rs order r _ (main_row rs)); [exact Hperm | | exact Hone].
      intros r' Hr'. now apply main_row_hallticket.
    + intros k Hk. rewrite Hc. now apply (proj1 (proj2 (main_row_record rs r))).
    + intros c p Hcode Hpc.
      assert (Hin : In p (merged_columns rs))
        by (apply merged_columns_In; right; now exists c).
      rewrite Hc. split; [now apply final_cols_complete|].
      rewrite (main_row_get rs r p Hin), (merged_row_get rs r p Hno).
      destruct (mem p (columns (flat_table rs))) eqn:Em; [|reflexivity].
      apply mem_In, flat_table_not_pivot in Em.
      now rewrite (pivot_columns_are_pivot c p Hpc) in Em.
  - intros Hplain.
    destruct (standalone_results to_int isupper rs Hrs Hplain)
      as (df & order & Hwb & Hc & Hperm & Hrows & _).
    set (fc := JsonToExcel.final_cols isupper (bare_table rs) (marks_table_of rs)) in *.
    assert (Hht : In (lit "hallticket") fc).
    { apply mem_In. unfold fc. apply final_cols_hallticket. apply mem_In.
      cbn [bare_table columns]. unfold bare_columns. apply in_app_iff. left.
      apply mem_In. apply (flat_table_has_key rs r); [exact Hr|].
      apply flat_row_has_hallticket. }
    eexists. exists df, (bare_row rs fc r).
    split; [exact Hwb|]. split; [reflexivity|]. split; [|split].
    + rewrite Hrows, length_map. now apply Permutation_length.
    + rewrite Hrows, Hc.
      apply (rows_under_ticket rs order r _ (bare_row rs fc)); [exact Hperm | | exact Hone].
      intros r' Hr'. rewrite bare_row_get by exact Hht.
      rewrite bare_row_flat
        by (apply mem_In; apply (flat_table_has_key rs r'); [exact Hr'|];
            apply flat_row_has_hallticket).
      now rewrite flat_row_hallticket.
    + intros c Hcode. rewrite Hc.
      assert (Hin : In c fc) by (now apply final_cols_codes).
      split; [exact Hin|].
      rewrite (bare_row_get rs fc r c Hin), (bare_row_code rs r c Hplain Hcode).
      now rewrite (pivot_cell_absent grade rs _ c Hno).
Qed.

End Join.

(** A candidate with a mark and a placeholder under one hall ticket: the
    results sheet of the main run has two rows under it, and the row of
    the placeholder, the one with a status, holds the grade of the other
    record under [grade_MATH101]. *)
Lemma shared_ticket_fills_pivot_cells :
  match final_conversion Examples.decimal_int
          (List.map to_item Examples.shared_ticket) with
  | Return wb =>
      match sheet wb "results" with
      | Some results =>
          List.map
            (fun row =>
               ( row_get (columns results) row (lit "hallticket"),
                 row_get (columns results) row (lit "status"),
                 row_get (columns results) row (lit "grade_MATH101") ))
            (rows results) =
          [ (Some (lit "110624861001"), None, Some (lit "A"));
            (Some (lit "110624861001"), Some (lit "NO_RESULT"), Some (lit "A")) ]
      | None => False
      end
  | Raise _ => False
  end.
Proof. vm_compute. reflexivity. Qed.

(** In the cohort of the examples the placeholder of hall ticket
    110624861002 keeps its row, in both conversions. *)
Lemma zero_mark_record_keeps_row_witness :
  (exists wb results row,
     final_conversion Examples.decimal_int (List.map to_item Examples.cohort) = Return wb /\
     sheet wb "results" = Some results /\
     List.length (rows results) = 6%nat /\
     filter
       (fun row' =>
          cell_eqb (row_get (columns results) row' (lit "hallticket"))
            (Some (lit "110624861002")))
       (rows results) = [row] /\
     row_get (columns results) row (lit "status") = Some (lit "NO_RESULT") /\
     row_get (columns results) row (lit "grade_MATH101") = None) /\
  (exists wb results row,
     JsonToExcel.items_to_excel Examples.decimal_int Examples.ascii_isupper
       (List.map to_item Examples.cohort) = Return wb /\
     sheet wb "results" = Some results /\
     filter
       (fun row' =>
          cell_eqb (row_get (columns results) row' (lit "hallticket"))
            (Some (lit "110624861002")))
       (rows results) = [row] /\
     row_get (columns results) row (lit "MATH101") = Some []).
Proof.
  destruct (zero_mark_record_keeps_row Examples.decimal_int Examples.ascii_isupper
              Examples.cohort (Placeholder (lit "110624861002")))
    as [Hmain Halone].
  - reflexivity.
  - discriminate.
  - vm_compute. reflexivity.
  - split.
    + destruct Hmain as (wb & results & row & Hwb & Hs & Hl & Hf & Hb & Hp).
      exists wb, results, row. repeat split; [exact Hwb | exact Hs | exact Hl | exact Hf | |].
      * apply (Hb (lit "status")). vm_compute. tauto.
      * apply (Hp (lit "MATH101") (lit "grade_MATH101")); vm_compute; tauto.
    + destruct Halone as (wb & results & row & Hwb & Hs & _ & Hf & Hcells).
      * intros c Hc. vm_compute in Hc.
        repeat (destruct Hc as [<-|Hc]; [reflexivity|]). contradiction.
      * exists wb, results, row. repeat split; [exact Hwb | exact Hs | exact Hf |].
        apply (Hcells (lit "MATH101")). vm_compute. tauto.
Defined.

End JoinClaims.

(* ================================================================= *)
(** * The order of the rows of the results sheet *)

Module SortClaims.
Import Py Json Pandas Spec ListFacts FrameFacts RecordFrames PivotFacts.
Import MergeFacts OrderFacts ColumnFacts SortFacts ResultRows OrderClaims StandaloneFacts.

(** The hall-ticket column of a frame whose rows are those of the records
    in some order, each holding its record's hall ticket. *)
Lemma column_of_order (df : DataFrame) (rs order : list ResultRecord)
  (f : ResultRecord -> list cell) :
  Permutation order rs ->
  rows df = List.map f order ->
  (forall r, In r rs ->
     row_get (columns df) (f r) (lit "hallticket") = Some (hallticket_of_record r)) ->
  column df (lit "hallticket") = List.map (fun r => Some (hallticket_of_record r)) order.
Proof.
  intros Hp Hrows Hkey. unfold column. rewrite Hrows, map_map.
  apply map_ext_in. intros r Hr. apply Hkey. now apply (Permutation_in _ Hp).
Qed.

Section Sheets.

Variable to_int : str -> option Z.
Variable isupper : str -> bool.

(** The four sheets of the main run, for every list of records. *)
Lemma main_sheets (rs : list ResultRecord) :
  exists df,
    App.final_conversion to_int (List.map to_item rs) =
      Return [ (lit "results", df);
               (lit "grades",
                mkDF (lit "hallticket" ::
                        @List.map str str (fun c => lit "grade_" ++ c) (pivot_codes rs))
                  (pivot_rows grade rs));
               (lit "marks", marks_table_of rs);
               (lit "raw", App.raw_frame (List.map to_item rs)) ] /\
    Permutation (column df (lit "hallticket"))
      (List.map (fun r => Some (hallticket_of_record r)) rs) /\
    (all_marks rs <> [] -> hallticket_sorted to_int df) /\
    (all_marks rs = [] -> df = flat_table rs).
Proof.
  destruct (all_marks rs) as [|m0 ms0] eqn:E.
  - exists (flat_table rs). split; [|split; [|split]].
    + rewrite (MainReport.final_conversion_without_marks to_int rs E).
      unfold pivot_rows, pivot_index, pivot_codes, codes_of, marks_table_of.
      rewrite E. reflexivity.
    + rewrite flat_table_hallticket. apply Permutation_refl.
    + intros H. now contradiction H.
    + reflexivity.
  - assert (H : all_marks rs <> []) by (rewrite E; discriminate).
    destruct (main_results to_int rs H) as (df & order & Hwb & Hc & Hperm & Hrows & Hs).
    exists df. split; [exact Hwb|]. split; [|split].
    + rewrite (column_of_order df rs order (main_row rs) Hperm Hrows).
      * now apply Permutation_map.
      * intros r Hr. rewrite Hc. now apply main_row_hallticket.
    + intros _. exact Hs.
    + intros H'. discriminate H'.
Qed.

End Sheets.

Section Sorted.

Variable to_int : str -> option Z.
Variable isupper : str -> bool.

(** C5, amended.  The main run sorts the rows of its results sheet when
    the list of records has at least one mark: by the hall ticket as an
    integer when every hall ticket converts, as a string otherwise.
    Without any mark it leaves the rows in the order of the staging file.
    The standalone conversion sorts them the same way for every non-empty
    list of records whose subject codes are the names of no other column.
    The sort moves whole rows: the rows of the sheet are the rows of the
    records, one each, in the order of the hall-ticket column. *)
Theorem results_rows_sorted (rs : list ResultRecord) :
  (all_marks rs <> [] ->
   exists wb results order,
     App.final_conversion to_int (List.map to_item rs) = Return wb /\
     sheet wb "results" = Some results /\
     hallticket_sorted to_int results /\
     Permutation order rs /\
     column results (lit "hallticket") =
       List.map (fun r => Some (hallticket_of_record r)) order /\
     Forall2 (fun r row => record_row rs r (columns results) row) order (rows results)) /\
  (all_marks rs = [] ->
   exists wb results,
     App.final_conversion to_int (List.map to_item rs) = Return wb /\
     sheet wb "results" = Some results /\
     column results (lit "hallticket") =
       List.map (fun r => Some (hallticket_of_record r)) rs) /\
  (rs <> [] -> (forall c, In c (codes_of rs) -> plain_code c = true) ->
   exists wb results order,
     JsonToExcel.items_to_excel to_int isupper (List.map to_item rs) = Return wb /\
     sheet wb "results" = Some results /\
     hallticket_sorted to_int results /\
     Permutation order rs /\
     column results (lit "hallticket") =
       List.map (fun r => Some (hallticket_of_record r)) order /\
     Forall2 (fun r row => standalone_row rs r (columns results) row) order (rows results)).
Proof.
  split; [|split].
  - intros H.
    destruct (main_results to_int rs H) as (df & order & Hwb & Hc & Hperm & Hrows & Hs).
    eexists. exists df, order. split; [exact Hwb|]. split; [reflexivity|].
    split; [exact Hs|]. split; [exact Hperm|]. split.
    + apply (column_of_order df rs order (main_row rs) Hperm Hrows).
      intros r Hr. rewrite Hc. now apply main_row_hallticket.
    + rewrite Hrows, Hc. apply Forall2_map_right. intros r. apply main_row_record.
  - intros H. destruct (main_sheets to_int rs) as (df & Hwb & _ & _ & Hflat).
    eexists. exists df. split; [exact Hwb|]. split; [reflexivity|].
    rewrite (Hflat H). apply flat_table_hallticket.
  - intros Hrs Hplain.
    destruct (standalone_results to_int isupper rs Hrs Hplain)
      as (df & order & Hwb & Hc & Hperm & Hrows & Hs).
    set (fc := JsonToExcel.final_cols isupper (bare_table rs) (marks_table_of rs)) in *.
    eexists. exists df, order. split; [exact Hwb|]. split; [reflexivity|].
    split; [exact Hs|]. split; [exact Hperm|]. split.
    + apply (column_of_order df rs order (bare_row rs fc) Hperm Hrows).
      intros r Hr. rewrite Hc.
      assert (Hk : In (lit "hallticket") (columns (flat_table rs))).
      { apply mem_In. apply (flat_table_has_key rs r); [exact Hr|].
        apply flat_row_has_hallticket. }
      rewrite bare_row_get.
      * rewrite bare_row_flat by exact Hk. now rewrite flat_row_hallticket.
      * apply mem_In. unfold fc. apply final_cols_hallticket. apply mem_In.
        cbn [bare_table columns]. unfold bare_columns. apply in_app_iff. now left.
    + rewrite Hrows, Hc. apply Forall2_map_right. intros r.
      now apply bare_row_record.
Qed.

End Sorted.

(** The main run on two placeholders whose hall tickets are out of order:
    both hall tickets convert to integers, and the results sheet keeps the
    rows as they came, 110624861002 first. *)
Lemma main_keeps_staging_order :
  exists wb results,
    App.final_conversion Examples.decimal_int
      (List.map to_item Examples.two_placeholders) = Return wb /\
    sheet wb "results" = Some results /\
    column results (lit "hallticket") =
      [Some (lit "110624861002"); Some (lit "110624861001")] /\
    App.astype_int Examples.decimal_int (column results (lit "hallticket")) =
      Return [110624861002%Z; 110624861001%Z] /\
    ~ hallticket_sorted Examples.decimal_int results.
Proof.
  eexists. eexists. split; [vm_compute; reflexivity|]. split; [reflexivity|].
  split; [vm_compute; reflexivity|]. split; [vm_compute; reflexivity|].
  intros H. vm_compute in H.
  inversion H as [|? ? _ Hall]. inversion Hall as [|? ? Hle _]. now apply Hle.
Qed.

Lemma sorted_pair (results : DataFrame) :
  hallticket_sorted Examples.decimal_int results ->
  Permutation (column results (lit "hallticket"))
    [Some (lit "110624861002"); Some (lit "110624861001")] ->
  column results (lit "hallticket") =
    [Some (lit "110624861001"); Some (lit "110624861002")].
Proof.
  intros Hs Hp. apply Permutation_sym, Permutation_length_2_inv in Hp.
  destruct Hp as [Hp|Hp]; [|exact Hp].
  exfalso. unfold hallticket_sorted in Hs. rewrite Hp in Hs. vm_compute in Hs.
  inversion Hs as [|? ? _ Hall]. inversion Hall as [|? ? Hle _]. now apply Hle.
Defined.

(** Hall tickets 110624861002 and 110624861001 come out as 110624861001,
    110624861002: from the main run when a mark is present, from the
    standalone conversion also for two placeholders. *)
Lemma results_rows_sorted_witness :
  (exists wb results,
     App.final_conversion Examples.decimal_int
       (List.map to_item Examples.two_candidates) = Return wb /\
     sheet wb "results" = Some results /\
     column results (lit "hallticket") =
       [Some (lit "110624861001"); Some (lit "110624861002")]) /\
  (exists wb results,
     JsonToExcel.items_to_excel Examples.decimal_int Examples.ascii_isupper
       (List.map to_item Examples.two_placeholders) = Return wb /\
     sheet wb "results" = Some results /\
     column results (lit "hallticket") =
       [Some (lit "110624861001"); Some (lit "110624861002")]).
Proof.
  split.
  - destruct (results_rows_sorted Examples.decimal_int Examples.ascii_isupper
                Examples.two_candidates) as (Hmain & _ & _).
    destruct Hmain as (wb & results & order & Hwb & Hsh & Hs & Hp & Hcol & _);
      [discriminate|].
    exists wb, results. split; [exact Hwb|]. split; [exact Hsh|].
    apply sorted_pair; [exact Hs|]. rewrite Hcol.
    apply (Permutation_map (fun r => Some (hallticket_of_record r)) Hp).
  - destruct (results_rows_sorted Examples.decimal_int Examples.ascii_isupper
                Examples.two_placeholders) as (_ & _ & Halone).
    destruct Halone as (wb & results & order & Hwb & Hsh & Hs & Hp & Hcol & _);
      [discriminate | intros c [] |].
    exists wb, results. split; [exact Hwb|]. split; [exact Hsh|].
    apply sorted_pair; [exact Hs|]. rewrite Hcol.
    apply (Permutation_map (fun r => Some (hallticket_of_record r)) Hp).
Defined.

End SortClaims.

(* ================================================================= *)
(** * The two conversions on arbitrary items *)

Module ConversionFacts.
Import Py Json Pandas Spec ListFacts FrameFacts PivotFacts OrderFacts SortFacts StandaloneFacts.

Lemma rows_loop_rows (items : list item) : forall acc acc',
  App.rows_loop acc items = Return acc' ->
  List.length (fst acc') = (List.length (fst acc) + List.length items)%nat.
Proof.
  induction items as [|it items IH]; intros acc acc' H; cbn [App.rows_loop] in H.
  - injection H as <-. cbn [List.length]. lia.
  - unfold App.rows_step in H.
    destruct (App.hallticket_of it) as [ht|e]; [|discriminate]. cbn [bind] in H.
    destruct (App.marks_iter it) as [ms|e]; [|discriminate]. cbn [bind] in H.
    apply IH in H. rewrite H. cbn [fst List.length]. rewrite length_app. cbn [List.length]. lia.
Qed.

(** A re-indexing to labels without a repetition, when it returns, has
    selected the columns. *)
Lemma reindex_to_unique (df d : DataFrame) (cols : list str) :
  is_unique cols = true -> reindex df cols = Return d -> d = select_columns df cols.
Proof.
  intros Hu. unfold reindex. destruct (is_unique (columns df)) eqn:E.
  - now intros [= <-].
  - destruct (labels_eqb (columns df) cols) eqn:El; [|discriminate].
    apply labels_eqb_eq in El. rewrite El in E. now rewrite Hu in E.
Qed.

(** The marks frame, when it is built. *)
Lemma marks_frame_inv (mr : list (dict cell)) (m : DataFrame) :
  App.marks_frame mr = Return m ->
  m = if empty (DataFrame_of_records mr)
      then DataFrame_of_columns App.expected_mark_cols
      else fillna (select_columns (DataFrame_of_records mr) App.expected_mark_cols) [].
Proof.
  unfold App.marks_frame. cbv zeta. destruct (empty _); [now intros [= <-]|].
  destruct (reindex _ _) as [d|e] eqn:E; cbn [bind]; [|discriminate].
  intros [= <-].
  assert (Hu : is_unique App.expected_mark_cols = true) by (vm_compute; reflexivity).
  now rewrite (reindex_to_unique _ _ _ Hu E).
Qed.

Lemma marks_frame_columns (mr : list (dict cell)) (m : DataFrame) :
  App.marks_frame mr = Return m -> columns m = App.expected_mark_cols.
Proof. intros H. rewrite (marks_frame_inv mr m H). now destruct (empty _). Qed.

(** Every row of the marks sheet has its five cells, none of them missing. *)
Lemma marks_frame_filled (mr : list (dict cell)) (m : DataFrame) :
  App.marks_frame mr = Return m ->
  Forall (fun row => List.length row = 5%nat /\ Forall (fun c => c <> None) row)
    (rows m).
Proof.
  intros H. rewrite (marks_frame_inv mr m H). destruct (empty _); [constructor|].
  cbn [fillna select_columns rows columns]. rewrite map_map. apply Forall_map.
  apply Forall_forall. intros r _. split; [reflexivity|].
  apply Forall_map. apply Forall_forall. intros c _. now destruct c.
Qed.

(** A frame in which no two rows have the same key. *)
Definition key_unique (df : DataFrame) (key : str) : Prop :=
  forall k,
    (List.length
       (filter (fun rr => cell_eqb (row_get (columns df) rr key) k) (rows df)) <= 1)%nat.

Lemma merge_left_length (left right : DataFrame) (key : str) :
  key_unique right key ->
  List.length (rows (merge_left left right key)) = List.length (rows left).
Proof.
  intros Hu. unfold merge_left. cbn [rows].
  induction (rows left) as [|lr lrs IH]; [reflexivity|].
  cbn [flat_map]. rewrite length_app, IH. cbn [List.length]. f_equal.
  specialize (Hu (row_get (columns left) lr key)).
  destruct (filter _ (rows right)) as [|m ms]; [reflexivity|].
  destruct ms; [reflexivity | cbn in Hu; lia].
Qed.

Lemma cell_eqb_eq (a b : cell) : cell_eqb a b = true <-> a = b.
Proof.
  destruct a, b; cbn [cell_eqb]; try (split; [discriminate | discriminate]);
    [|tauto].
  rewrite str_eqb_eq. split; [now intros -> | now intros [= ->]].
Qed.

Lemma keyed_rows_unique (name : str) (cols : list str) (ps : list (str * list cell)) :
  NoDup (List.map fst ps) ->
  key_unique (mkDF (name :: cols) (List.map (fun iv => Some (fst iv) :: snd iv) ps)) name.
Proof.
  intros Hnd k. cbn [columns rows]. rewrite filter_of_map, length_map.
  assert (Hk : forall iv : str * list cell,
             row_get (name :: cols) (Some (fst iv) :: snd iv) name = Some (fst iv)).
  { intros iv. unfold row_get, rec_get. cbn [combine dict_get]. now rewrite str_eqb_refl. }
  rewrite (filter_ext _ (fun iv => cell_eqb (Some (fst iv)) k)) by (intros iv; now rewrite Hk).
  induction ps as [|p ps IH]; [cbn; lia|].
  cbn [List.map] in Hnd. inversion Hnd as [|? ? Hp Hnd']; subst.
  cbn [filter].
  match goal with |- context [if ?b then _ else _] => destruct b eqn:E end;
    [|now apply IH].
  apply cell_eqb_eq in E.
  rewrite (filter_none _ ps); [cbn; lia|].
  intros q Hq. destruct (cell_eqb (Some (fst q)) k) eqn:E'; [|exact E'].
  apply cell_eqb_eq in E'. exfalso. apply Hp.
  rewrite <- E in E'. injection E' as E'.
  pose proof (in_map fst ps q Hq) as Hin. unfold cell in *.
  now rewrite E' in Hin.
Qed.

Lemma combine_fst_NoDup {A B} (l : list A) (l' : list B) :
  NoDup l -> NoDup (List.map fst (combine l l')).
Proof.
  intros H. revert l'. induction H as [|x l Hx Hnd IH]; intros [|y l']; cbn; try constructor.
  - intros Hin. apply Hx. apply in_map_iff in Hin. destruct Hin as ((a & b) & <- & Hin).
    now apply in_combine_l in Hin.
  - apply IH.
Qed.

Lemma sorted_uniq_NoDup (l : list str) : NoDup (sorted (uniq l)).
Proof.
  apply (Permutation_NoDup (Permutation_sym (sorted_perm _))). apply uniq_NoDup.
Qed.

(** What [reset_index] returns for a pivot has one row per index label. *)
Lemma reset_index_unique (p : Pivot) (g : DataFrame) :
  NoDup (index p) -> reset_index p = Return g -> key_unique g (index_name p).
Proof.
  intros Hnd. unfold reset_index. destruct (mem _ _); [discriminate|].
  intros [= <-]. apply keyed_rows_unique. now apply combine_fst_NoDup.
Qed.

Lemma rename_unique (f : str -> str) (df : DataFrame) (key : str) (cols : list str) :
  columns df = key :: cols -> f key = key ->
  key_unique df key -> key_unique (rename f df) key.
Proof.
  intros Hc Hf Hu k. specialize (Hu k). unfold rename. cbn [columns rows].
  rewrite Hc in *. cbn [List.map]. rewrite Hf.
  erewrite filter_ext; [exact Hu|].
  intros rr. unfold row_get, rec_get. destruct rr as [|c rr]; [reflexivity|].
  cbn [combine dict_get]. now rewrite str_eqb_refl.
Qed.

Lemma reset_index_columns (p : Pivot) (g : DataFrame) :
  reset_index p = Return g -> columns g = index_name p :: pcolumns p.
Proof.
  unfold reset_index. destruct (mem _ _); [discriminate|]. now intros [= <-].
Qed.

Lemma pivot_table_index_NoDup (df : DataFrame) (idx col v : str) :
  NoDup (index (pivot_table df idx col v)).
Proof. unfold pivot_table. cbv zeta. cbn [index]. apply sorted_uniq_NoDup. Qed.

Lemma DataFrame_of_records_length (records : list (dict cell)) :
  List.length (rows (DataFrame_of_records records)) = List.length records.
Proof. unfold DataFrame_of_records. cbv zeta. cbn [rows]. apply length_map. Qed.

Lemma renamed_pivot_unique (f : str -> str) (df : DataFrame) (idx col v : str)
  (g : DataFrame) :
  reset_index (rename_columns f (pivot_table df idx col v)) = Return g ->
  key_unique g idx.
Proof.
  intros H.
  exact (reset_index_unique (rename_columns f (pivot_table df idx col v)) g
           (pivot_table_index_NoDup df idx col v) H).
Qed.

Lemma pivot_unique (df : DataFrame) (idx col v : str) (g : DataFrame) :
  reset_index (pivot_table df idx col v) = Return g -> key_unique g idx.
Proof.
  intros H.
  exact (reset_index_unique (pivot_table df idx col v) g
           (pivot_table_index_NoDup df idx col v) H).
Qed.

Section Shape.

Variable to_int : str -> option Z.
Variable isupper : str -> bool.

Lemma sort_by_hallticket_length (df df' : DataFrame) :
  App.sort_by_hallticket to_int df = Return df' ->
  List.length (rows df') = List.length (rows df).
Proof.
  intros H. now apply sort_by_hallticket_general in H.
Qed.

(** What the workbook of the main run is made of, for every list of
    items. *)
Lemma final_conversion_inv (items : list item) (wb : Workbook) :
  App.final_conversion to_int items = Return wb ->
  exists results grades marks cs,
    wb = [ (lit "results", results); (lit "grades", grades);
           (lit "marks", marks); (lit "raw", App.raw_frame items) ] /\
    List.length (rows results) = List.length items /\
    columns marks = App.expected_mark_cols /\
    Forall (fun row => List.length row = 5%nat /\ Forall (fun c => c <> None) row)
      (rows marks) /\
    columns grades = lit "hallticket" :: cs.
Proof.
  unfold App.final_conversion.
  destruct (App.rows_loop ([], []) items) as [[rr mr]|e] eqn:E; [|discriminate].
  apply rows_loop_rows in E. cbn [fst List.length] in E.
  cbn [bind fst snd]. cbv zeta.
  destruct (App.marks_frame mr) as [m|e] eqn:Em; cbn [bind]; [|discriminate].
  pose proof (marks_frame_columns mr m Em) as Hmc.
  pose proof (marks_frame_filled mr m Em) as Hmf.
  destruct (negb (empty m)).
  - repeat match goal with
           | |- context [bind (reset_index ?p) _] =>
               let Eg := fresh "Eg" in
               destruct (reset_index p) as [?g|?e] eqn:Eg; cbn [bind]; [|discriminate]
           end.
    match goal with
    | |- context [bind (reindex ?d ?c) _] =>
        destruct (reindex d c) as [dr|?e] eqn:Er; cbn [bind]; [|discriminate]
    end.
    match goal with
    | |- context [bind (App.sort_by_hallticket to_int ?d) _] =>
        destruct (App.sort_by_hallticket to_int d) as [df'|?e] eqn:Es; cbn [bind];
          [|discriminate]
    end.
    intros [= <-].
    exists df', g. eexists. eexists. split; [reflexivity|].
    split; [|split; [exact Hmc|split; [exact Hmf|]]].
    + rewrite (sort_by_hallticket_length _ _ Es).
      rewrite (proj2 (reindex_shape _ _ _ Er)).
      rewrite !merge_left_length
        by first [ exact (renamed_pivot_unique _ _ _ _ _ _ Eg)
                 | exact (renamed_pivot_unique _ _ _ _ _ _ Eg0)
                 | exact (renamed_pivot_unique _ _ _ _ _ _ Eg1) ].
      now rewrite DataFrame_of_records_length.
    + apply (reset_index_columns _ _ Eg).
  - intros [= <-]. do 3 eexists. exists []. split; [reflexivity|].
    split; [|split; [exact Hmc|split; [exact Hmf|]]].
    + now rewrite DataFrame_of_records_length.
    + reflexivity.
Qed.

Lemma fillna_length (df : DataFrame) (v : str) :
  List.length (rows (fillna df v)) = List.length (rows df).
Proof. unfold fillna. cbn [rows]. apply length_map. Qed.

Lemma fillna_filled (df : DataFrame) (v : str) :
  Forall (Forall (fun c => c <> None)) (rows (fillna df v)).
Proof.
  unfold fillna. cbn [rows]. apply Forall_map. apply Forall_forall. intros r _.
  apply Forall_map. apply Forall_forall. intros c _. now destruct c.
Qed.

(** Rows whose cells all come from a filled frame have no missing cell. *)
Lemma sorted_cells_filled (d : DataFrame) (rws : list (list cell)) :
  (forall row x, In row rws -> In x row ->
     exists row0, In row0 (rows (fillna d [])) /\ In x row0) ->
  Forall (Forall (fun c => c <> None)) rws.
Proof.
  intros H. apply Forall_forall. intros row Hrow. apply Forall_forall. intros x Hx.
  destruct (H row x Hrow Hx) as (row0 & Hr0 & Hx0).
  pose proof (fillna_filled d []) as Hf.
  rewrite Forall_forall in Hf. specialize (Hf row0 Hr0).
  rewrite Forall_forall in Hf. now apply Hf.
Qed.

(** What the workbook of the standalone conversion is made of, for every
    list of items. *)
Lemma items_to_excel_inv (items : list item) (wb : Workbook) :
  JsonToExcel.items_to_excel to_int isupper items = Return wb ->
  exists results grades marks cs,
    wb = [ (lit "results", results); (lit "grades", grades);
           (lit "marks", marks); (lit "raw", JsonToExcel.raw_frame items) ] /\
    List.length (rows results) = List.length items /\
    hallticket_sorted to_int results /\
    Forall (Forall (fun c => c <> None)) (rows results) /\
    columns marks = JsonToExcel.expected_mark_cols /\
    Forall (fun row => List.length row = 5%nat /\ Forall (fun c => c <> None) row)
      (rows marks) /\
    columns grades = lit "hallticket" :: cs.
Proof.
  unfold JsonToExcel.items_to_excel.
  change JsonToExcel.rows_loop with App.rows_loop.
  change JsonToExcel.marks_frame with App.marks_frame.
  change JsonToExcel.sort_by_hallticket with App.sort_by_hallticket.
  destruct (App.rows_loop ([], []) items) as [[rr mr]|e] eqn:E; [|discriminate].
  apply rows_loop_rows in E. cbn [fst List.length] in E.
  cbn [bind fst snd]. cbv zeta.
  destruct (App.marks_frame mr) as [m|e] eqn:Em; cbn [bind]; [|discriminate].
  pose proof (marks_frame_columns mr m Em) as Hmc.
  pose proof (marks_frame_filled mr m Em) as Hmf.
  destruct (negb (empty m)).
  - repeat match goal with
           | |- context [bind (reset_index ?p) _] =>
               let Eg := fresh "Eg" in
               destruct (reset_index p) as [?g|?e] eqn:Eg; cbn [bind]; [|discriminate]
           end.
    rewrite add_missing_present
      by (intros c Hc; exact (final_cols_incl to_int isupper _ _ c Hc)).
    match goal with
    | |- context [bind (reindex ?d ?c) _] =>
        destruct (reindex d c) as [dr|?e] eqn:Er; cbn [bind]; [|discriminate]
    end.
    match goal with
    | |- context [bind (App.sort_by_hallticket to_int ?d) _] =>
        destruct (App.sort_by_hallticket to_int d) as [df'|?e] eqn:Es; cbn [bind];
          [|discriminate]
    end.
    intros [= <-].
    destruct (sort_by_hallticket_general to_int _ _ Es) as (Hl & Hs & Hcells).
    exists df', g. eexists. eexists. split; [reflexivity|].
    split; [|split; [exact Hs|split; [|split; [exact Hmc|split; [exact Hmf|]]]]].
    + rewrite Hl, fillna_length, (proj2 (reindex_shape _ _ _ Er)).
      rewrite !merge_left_length
        by first [ exact (pivot_unique _ _ _ _ _ Eg)
                 | apply (rename_unique _ _ _ _ (reset_index_columns _ _ Eg0));
                     [reflexivity | exact (pivot_unique _ _ _ _ _ Eg0)]
                 | apply (rename_unique _ _ _ _ (reset_index_columns _ _ Eg1));
                     [reflexivity | exact (pivot_unique _ _ _ _ _ Eg1)] ].
      now rewrite DataFrame_of_records_length.
    + apply (sorted_cells_filled _ _ Hcells).
    + apply (reset_index_columns _ _ Eg).
  - cbn [bind]. rewrite add_missing_present
      by (intros c Hc; exact (final_cols_incl to_int isupper _ _ c Hc)).
    match goal with
    | |- context [bind (reindex ?d ?c) _] =>
        destruct (reindex d c) as [dr|?e] eqn:Er; cbn [bind]; [|discriminate]
    end.
    match goal with
    | |- context [bind (App.sort_by_hallticket to_int ?d) _] =>
        destruct (App.sort_by_hallticket to_int d) as [df'|?e] eqn:Es; cbn [bind];
          [|discriminate]
    end.
    intros [= <-].
    destruct (sort_by_hallticket_general to_int _ _ Es) as (Hl & Hs & Hcells).
    exists df'. do 2 eexists. exists []. split; [reflexivity|].
    split; [|split; [exact Hs|split; [|split; [exact Hmc|split; [exact Hmf|]]]]].
    + rewrite Hl, fillna_length, (proj2 (reindex_shape _ _ _ Er)).
      now rewrite DataFrame_of_records_length.
    + apply (sorted_cells_filled _ _ Hcells).
    + reflexivity.
Qed.

End Shape.

End ConversionFacts.

Module ConversionExtras.
Import Py Json Pandas Spec ListFacts FrameFacts RecordFrames PivotFacts.
Import MergeFacts OrderFacts SortFacts StandaloneFacts ConversionFacts.

Section Extras.

Variable to_int : str -> option Z.
Variable isupper : str -> bool.

(** X1.  Whenever the final conversion of [main] returns, for any list of
    items, the workbook has the sheets [results], [grades], [marks] and
    [raw] in that order; the marks sheet has the columns [hallticket],
    [code], [subject], [credits], [grade] and every row of it has its five
    cells, none missing; the raw sheet has one row per item, the JSON text
    of the item; the first column of the grades sheet is [hallticket]. *)
Theorem main_workbook_sheets (items : list item) (wb : Workbook) :
  App.final_conversion to_int items = Return wb ->
  List.map fst wb = [lit "results"; lit "grades"; lit "marks"; lit "raw"] /\
  (exists marks,
     sheet wb "marks" = Some marks /\
     columns marks = [lit "hallticket"; lit "code"; lit "subject"; lit "credits"; lit "grade"] /\
     Forall (fun row => List.length row = 5%nat /\ Forall (fun c => c <> None) row)
       (rows marks)) /\
  (exists raw,
     sheet wb "raw" = Some raw /\
     columns raw = [lit "json"] /\
     rows raw = List.map (fun it => [Some (dumps (item_json it))]) items) /\
  (exists grades cs,
     sheet wb "grades" = Some grades /\ columns grades = lit "hallticket" :: cs).
Proof.
  intros H. apply final_conversion_inv in H.
  destruct H as (results & grades & marks & cs & -> & _ & Hc & Hf & Hg).
  split; [reflexivity|]. split; [|split].
  - exists marks. split; [reflexivity|]. split; [exact Hc | exact Hf].
  - eexists. split; [reflexivity|]. split; [reflexivity|].
    unfold App.raw_frame, DataFrame_of_column. cbn [rows]. now rewrite map_map.
  - exists grades, cs. split; [reflexivity | exact Hg].
Qed.

(** X2.  Whenever the final conversion of [main] returns, the results
    sheet has exactly one row per item: the three left joins and the sort
    neither drop nor repeat a record, also when hall tickets repeat. *)
Theorem main_one_row_per_item (items : list item) (wb : Workbook) :
  App.final_conversion to_int items = Return wb ->
  exists results,
    sheet wb "results" = Some results /\
    List.length (rows results) = List.length items.
Proof.
  intros H. apply final_conversion_inv in H.
  destruct H as (results & grades & marks & cs & -> & Hl & _).
  exists results. split; [reflexivity | exact Hl].
Qed.

(** X3.  Whenever the standalone conversion returns, for any list of
    items, the workbook has the sheets [results], [grades], [marks] and
    [raw] in that order, with the same marks and raw sheets as above. *)
Theorem standalone_workbook_sheets (items : list item) (wb : Workbook) :
  JsonToExcel.items_to_excel to_int isupper items = Return wb ->
  List.map fst wb = [lit "results"; lit "grades"; lit "marks"; lit "raw"] /\
  (exists marks,
     sheet wb "marks" = Some marks /\
     columns marks = [lit "hallticket"; lit "code"; lit "subject"; lit "credits"; lit "grade"] /\
     Forall (fun row => List.length row = 5%nat /\ Forall (fun c => c <> None) row)
       (rows marks)) /\
  (exists raw,
     sheet wb "raw" = Some raw /\
     columns raw = [lit "json"] /\
     rows raw = List.map (fun it => [Some (dumps (item_json it))]) items) /\
  (exists grades cs,
     sheet wb "grades" = Some grades /\ columns grades = lit "hallticket" :: cs).
Proof.
  intros H. apply items_to_excel_inv in H.
  destruct H as (results & grades & marks & cs & -> & _ & _ & _ & Hc & Hf & Hg).
  split; [reflexivity|]. split; [|split].
  - exists marks. split; [reflexivity|]. split; [exact Hc | exact Hf].
  - eexists. split; [reflexivity|]. split; [reflexivity|].
    unfold JsonToExcel.raw_frame, DataFrame_of_column. cbn [rows]. now rewrite map_map.
  - exists grades, cs. split; [reflexivity | exact Hg].
Qed.

(** X4.  Whenever the standalone conversion returns, its results sheet has
    exactly one row per item, its rows are in hall-ticket order (by the
    integer when every hall ticket converts, by the string otherwise), and
    no cell of it is missing: what the data lacks is the empty string. *)
Theorem standalone_results_rows (items : list item) (wb : Workbook) :
  JsonToExcel.items_to_excel to_int isupper items = Return wb ->
  exists results,
    sheet wb "results" = Some results /\
    List.length (rows results) = List.length items /\
    hallticket_sorted to_int results /\
    Forall (Forall (fun c => c <> None)) (rows results).
Proof.
  intros H. apply items_to_excel_inv in H.
  destruct H as (results & grades & marks & cs & -> & Hl & Hs & Hf & _).
  exists results. split; [reflexivity|]. split; [exact Hl|]. split; [exact Hs | exact Hf].
Qed.

End Extras.

(** The cohort of the examples, converted by the main run. *)
Lemma main_workbook_sheets_witness :
  exists wb,
    App.final_conversion Examples.decimal_int (List.map to_item Examples.cohort) =
      Return wb /\
    List.map fst wb = [lit "results"; lit "grades"; lit "marks"; lit "raw"].
Proof.
  destruct (App.final_conversion Examples.decimal_int (List.map to_item Examples.cohort))
    as [wb|e] eqn:E; [|vm_compute in E; discriminate E].
  exists wb. split; [reflexivity|].
  exact (proj1 (main_workbook_sheets Examples.decimal_int _ wb E)).
Defined.

Lemma main_one_row_per_item_witness :
  exists wb results,
    App.final_conversion Examples.decimal_int (List.map to_item Examples.cohort) =
      Return wb /\
    sheet wb "results" = Some results /\ List.length (rows results) = 6%nat.
Proof.
  destruct (App.final_conversion Examples.decimal_int (List.map to_item Examples.cohort))
    as [wb|e] eqn:E; [|vm_compute in E; discriminate E].
  destruct (main_one_row_per_item Examples.decimal_int _ wb E) as (results & Hs & Hl).
  exists wb, results. split; [reflexivity|]. split; [exact Hs | exact Hl].
Defined.

Lemma standalone_workbook_sheets_witness :
  exists wb,
    JsonToExcel.items_to_excel Examples.decimal_int Examples.ascii_isupper
      (List.map to_item Examples.cohort) = Return wb /\
    List.map fst wb = [lit "results"; lit "grades"; lit "marks"; lit "raw"].
Proof.
  destruct (JsonToExcel.items_to_excel Examples.decimal_int Examples.ascii_isupper
              (List.map to_item Examples.cohort))
    as [wb|e] eqn:E; [|vm_compute in E; discriminate E].
  exists wb. split; [reflexivity|].
  exact (proj1 (standalone_workbook_sheets Examples.decimal_int Examples.ascii_isupper
                  _ wb E)).
Defined.

Lemma standalone_results_rows_witness :
  exists wb results,
    JsonToExcel.items_to_excel Examples.decimal_int Examples.ascii_isupper
      (List.map to_item Examples.two_placeholders) = Return wb /\
    sheet wb "results" = Some results /\
    List.length (rows results) = 2%nat /\
    hallticket_sorted Examples.decimal_int results.
Proof.
  destruct (JsonToExcel.items_to_excel Examples.decimal_int Examples.ascii_isupper
              (List.map to_item Examples.two_placeholders))
    as [wb|e] eqn:E; [|vm_compute in E; discriminate E].
  destruct (standalone_results_rows Examples.decimal_int Examples.ascii_isupper _ wb E)
    as (results & Hs & Hl & Hsorted & _).
  exists wb, results. split; [reflexivity|]. split; [exact Hs|]. split; [exact Hl | exact Hsorted].
Defined.

End ConversionExtras.

(* ================================================================= *)
(** * When the standalone conversion returns, and its column order *)

Module StandaloneExtras.
Import Py Json Pandas Spec ListFacts FrameFacts RecordFrames PivotFacts.
Import MergeFacts OrderFacts ColumnFacts SortFacts OrderClaims StandaloneFacts.

Lemma mem_filter (f : str -> bool) (l : list str) (c : str) :
  In c l -> mem c (filter f l) = f c.
Proof.
  intros H. destruct (f c) eqn:E.
  - apply mem_In, filter_In. now split.
  - apply mem_false. intros Hin. apply filter_In in Hin. destruct Hin. congruence.
Qed.

(** The codes in the order the standalone conversion gives them: the
    first half of the codes without [LAB], the codes with [LAB], the second
    half. *)
Lemma labs_split_In (codes : list str) (c : str) :
  let labs := filter (fun c => contains c (lit "LAB")) codes in
  let non_labs := filter (fun c => negb (contains c (lit "LAB"))) codes in
  let half := Nat.div (List.length non_labs) 2 in
  In c codes -> In c (firstn half non_labs ++ labs ++ skipn half non_labs).
Proof.
  intros labs non_labs half H. rewrite !in_app_iff.
  destruct (contains c (lit "LAB")) eqn:E.
  - right. left. apply filter_In. now split.
  - assert (Hn : In c non_labs) by (apply filter_In; split; [exact H | now rewrite E]).
    rewrite <- (firstn_skipn half non_labs) in Hn. apply in_app_iff in Hn. tauto.
Qed.

Lemma labs_split_incl (codes : list str) (c : str) :
  let labs := filter (fun c => contains c (lit "LAB")) codes in
  let non_labs := filter (fun c => negb (contains c (lit "LAB"))) codes in
  let half := Nat.div (List.length non_labs) 2 in
  In c (firstn half non_labs ++ labs ++ skipn half non_labs) -> In c codes.
Proof.
  intros labs non_labs half H. rewrite !in_app_iff in H.
  assert (Hn : In c non_labs \/ In c labs).
  { rewrite <- (firstn_skipn half non_labs), in_app_iff. tauto. }
  destruct Hn as [Hn|Hn]; apply filter_In in Hn; tauto.
Qed.

Section Standalone.

Variable to_int : str -> option Z.
Variable isupper : str -> bool.

(** The column order of the standalone conversion on the merged table of
    records with plain codes. *)
Lemma final_cols_bare (rs : list ResultRecord) :
  all_marks rs <> [] ->
  (forall c, In c (codes_of rs) -> plain_code c = true) ->
  (forall c, In c record_columns -> isupper c = false) ->
  let codes := value_counts_index (List.map Some (codes_of rs)) in
  let labs := filter (fun c => contains c (lit "LAB")) codes in
  let non_labs := filter (fun c => negb (contains c (lit "LAB"))) codes in
  let half := Nat.div (List.length non_labs) 2 in
  JsonToExcel.final_cols isupper (bare_table rs) (marks_table_of rs) =
    [lit "hallticket"; lit "student.name"; lit "student.father"] ++
    (firstn half non_labs ++ labs ++ skipn half non_labs) ++ [lit "result"].
Proof.
  intros Hm Hplain Hup codes labs non_labs half.
  destruct (marks_have_parsed rs Hm) as (h & g & n & f & c0 & ms & res & Hin).
  assert (Hk : forall k, In k (keys (flat_row (Parsed h g n f c0 ms res))) ->
                 mem k (bare_columns rs) = true).
  { intros k Hk. unfold bare_columns. rewrite mem_app.
    now rewrite (flat_table_has_key rs _ k Hin Hk). }
  assert (Hcode : forall c, In c codes -> mem c (bare_columns rs) = true).
  { intros c Hc. apply mem_In. unfold bare_columns. rewrite !in_app_iff. right. left.
    apply pivot_codes_In. now apply (proj1 (value_counts_In _ _)) in Hc. }
  unfold JsonToExcel.final_cols. cbn [columns bare_table].
  rewrite marks_table_empty. destruct (all_marks rs) eqn:E; [now contradiction Hm|].
  cbn [negb]. rewrite column_marks_code. fold codes. fold labs.
  rewrite (filter_ext_in (fun c => negb (mem c labs))
             (fun c => negb (contains c (lit "LAB"))) codes)
    by (intros c Hc; unfold labs; now rewrite mem_filter).
  fold non_labs. fold half.
  assert (Hcore : filter (fun c => mem c (bare_columns rs)) JsonToExcel.core_pref =
                  [lit "hallticket"; lit "student.name"; lit "student.father"]).
  { unfold JsonToExcel.core_pref. cbn [filter]. rewrite !Hk by (cbn; tauto). reflexivity. }
  rewrite Hcore.
  rewrite (filter_all _ (firstn half non_labs ++ labs ++ skipn half non_labs))
    by (intros c Hc; apply Hcode; now apply labs_split_incl in Hc).
  rewrite (Hk (lit "result")) by (cbn; tauto).
  rewrite (filter_none _ (bare_columns rs)).
  { change (sorted []) with (@nil str). now rewrite app_nil_r, <- app_assoc. }
  intros c Hc. unfold bare_columns in Hc. rewrite !in_app_iff in Hc.
  destruct Hc as [Hc|[Hc|[Hc|Hc]]].
  - apply flat_table_columns_known in Hc.
    assert (Hr : In c record_columns).
    { unfold record_columns. cbn [In] in Hc |- *. tauto. }
    rewrite (Hup c Hr). now rewrite andb_false_r.
  - assert (Hin' : mem c (([lit "hallticket"; lit "student.name"; lit "student.father"] ++
                           firstn half non_labs ++ labs ++ skipn half non_labs) ++
                          [lit "result"]) = true).
    { apply mem_In. rewrite !in_app_iff. left. right.
      rewrite <- !in_app_iff. apply labs_split_In.
      apply value_counts_In. now apply pivot_codes_In. }
    now rewrite Hin'.
  - apply in_map_iff in Hc. destruct Hc as (x & <- & _).
    rewrite andb_false_iff. right. reflexivity.
  - apply in_map_iff in Hc. destruct Hc as (x & <- & _).
    rewrite andb_false_iff. right. apply negb_false_iff, orb_true_iff. right. reflexivity.
Qed.


(** X6.  The results sheet of the standalone conversion, for records with
    at least one mark whose codes are the names of no other column (and an
    [isupper] that is false on the lower-case column names of the
    flattened table).  Its columns are [hallticket], [student.name],
    [student.father], then one column per subject code, then [result].
    With the codes listed by descending number of mark rows, the first
    half of the codes without [LAB] comes first, then the codes with
    [LAB], then the second half.  The gender, course and status columns
    and the credits and subject pivots are not in the sheet.  The cells
    moved with their labels: the rows of the sheet are the rows of the
    records, one each, and a row holds under [hallticket],
    [student.name], [student.father] and [result] the record's own field,
    and under a code the grade of its hall ticket in that code, the empty
    string where either is missing. *)
Theorem standalone_column_order (rs : list ResultRecord) :
  all_marks rs <> [] ->
  (forall c, In c (codes_of rs) -> plain_code c = true) ->
  (forall c, In c record_columns -> isupper c = false) ->
  exists wb results codes order,
    JsonToExcel.items_to_excel to_int isupper (List.map to_item rs) = Return wb /\
    sheet wb "results" = Some results /\
    NoDup codes /\
    (forall c, In c codes <-> In c (codes_of rs)) /\
    StronglySorted
      (fun a b => (count b (codes_of rs) <= count a (codes_of rs))%nat) codes /\
    Permutation order rs /\
    Forall2 (fun r row => standalone_row rs r (columns results) row) order (rows results) /\
    let labs := filter (fun c => contains c (lit "LAB")) codes in
    let non_labs := filter (fun c => negb (contains c (lit "LAB"))) codes in
    let half := Nat.div (List.length non_labs) 2 in
    columns results =
      [lit "hallticket"; lit "student.name"; lit "student.father"] ++
      (firstn half non_labs ++ labs ++ skipn half non_labs) ++ [lit "result"].
Proof.
  intros Hm Hplain Hup.
  assert (Hrs : rs <> []) by (intros ->; now apply Hm).
  destruct (standalone_results to_int isupper rs Hrs Hplain)
    as (df & order & Hwb & Hc & Hperm & Hrows & _).
  eexists. exists df, (value_counts_index (List.map Some (codes_of rs))), order.
  split; [exact Hwb|]. split; [reflexivity|].
  split; [apply value_counts_NoDup|].
  split; [intros c; apply value_counts_In|].
  split.
  { pose proof (value_counts_sorted (List.map Some (codes_of rs))) as Hs.
    now rewrite present_Some in Hs. }
  split; [exact Hperm|]. split.
  { rewrite Hrows, Hc. apply Forall2_map_right. intros r.
    now apply bare_row_record. }
  cbv zeta. rewrite Hc.
  apply (final_cols_bare rs Hm Hplain Hup).
Qed.

End Standalone.

(** Codes that are the names of other columns.  With the codes [result]
    and [result_x] the first merge renames the record's [result] to
    [result_x], next to the column of the second code: the labels are no
    longer unique and [reindex] raises.  With the code [hallticket_sort]
    the column of the code is the one the sort overwrites and drops. *)
Lemma colliding_codes_raise :
  JsonToExcel.items_to_excel Examples.decimal_int Examples.ascii_isupper
    (List.map to_item [Examples.candidate "110624861001" ["result"; "result_x"]]) =
    Raise ValueError.
Proof. vm_compute. reflexivity. Qed.

Lemma helper_code_column_dropped :
  match JsonToExcel.items_to_excel Examples.decimal_int Examples.ascii_isupper
          (List.map to_item [Examples.candidate "110624861001" ["hallticket_sort"]]) with
  | Return wb =>
      match sheet wb "results" with
      | Some results =>
          columns results =
            [lit "hallticket"; lit "student.name"; lit "student.father"; lit "result"]
      | None => False
      end
  | Raise _ => False
  end.
Proof. vm_compute. reflexivity. Qed.

(** The cohort of the examples: MATH101 (five rows), PHYS201 (two) and
    ART100 (one) come out as MATH101, PHYS201, ART100. *)
Lemma standalone_column_order_witness :
  exists wb results,
    JsonToExcel.items_to_excel Examples.decimal_int Examples.ascii_isupper
      (List.map to_item Examples.cohort) = Return wb /\
    sheet wb "results" = Some results /\
    columns results =
      [ lit "hallticket"; lit "student.name"; lit "student.father";
        lit "MATH101"; lit "PHYS201"; lit "ART100"; lit "result" ].
Proof.
  destruct (standalone_column_order Examples.decimal_int Examples.ascii_isupper
              Examples.cohort)
    as (wb & results & codes & order & Hwb & Hs & _ & _ & _ & _ & _ & Hc).
  - discriminate.
  - intros c Hc. vm_compute in Hc.
    repeat (destruct Hc as [<-|Hc]; [reflexivity|]). contradiction.
  - intros c Hc. vm_compute in Hc.
    repeat (destruct Hc as [<-|Hc]; [reflexivity|]). contradiction.
  - exists wb, results. split; [exact Hwb|]. split; [exact Hs|].
    revert Hwb Hs.
    set (x := JsonToExcel.items_to_excel Examples.decimal_int Examples.ascii_isupper
                (List.map to_item Examples.cohort)).
    vm_compute in x. subst x. intros [= <-]. intros [= <-]. reflexivity.
Defined.

End StandaloneExtras.

(* ================================================================= *)
(** * The workbook of the standalone conversion against that of the main run *)

Module RefineClaims.
Import Py Json Pandas Spec ListFacts FrameFacts RecordFrames PivotFacts.
Import MergeFacts OrderFacts ColumnFacts SortFacts ResultRows OrderClaims StandaloneFacts.
Import StandaloneExtras.



Section Refine.

Variable to_int : str -> option Z.
Variable isupper : str -> bool.


End Refine.



End RefineClaims.

(* ================================================================= *)
(** * The staging file read back *)

Module RoundTrip.
Import Py Json Pandas App Spec Writable ListFacts DumpsFacts LoaderFacts.

(** The fuel a value needs. *)
Fixpoint sz (j : json) : nat :=
  match j with
  | JList l => S (list_sum (List.map (fun e => S (sz e)) l))
  | JDict d => S (list_sum (List.map (fun kv => S (sz (snd kv))) d))
  | _ => 1%nat
  end.

Section Induction.

Variable P : json -> Prop.
Hypothesis HNull : P JNull.
Hypothesis HBool : forall b, P (JBool b).
Hypothesis HNum : forall n, P (JNum n).
Hypothesis HStr : forall s, P (JStr s).
Hypothesis HList : forall l, Forall P l -> P (JList l).
Hypothesis HDict : forall d, Forall (fun kv => P (snd kv)) d -> P (JDict d).

Fixpoint json_induction (j : json) : P j :=
  match j with
  | JNull => HNull
  | JBool b => HBool b
  | JNum n => HNum n
  | JStr s => HStr s
  | JList l =>
      HList l
        ((fix go (l : list json) : Forall P l :=
            match l with
            | [] => Forall_nil P
            | x :: l' => Forall_cons x (json_induction x) (go l')
            end) l)
  | JDict d =>
      HDict d
        ((fix go (d : list (str * json)) : Forall (fun kv => P (snd kv)) d :=
            match d with
            | [] => Forall_nil _
            | kv :: d' => Forall_cons kv (json_induction (snd kv)) (go d')
            end) d)
  end.

End Induction.

(** *** Strings *)

Lemma hex_value_digit (n : N) : n < 16 -> hex_value (hex_digit n) = Some n.
Proof.
  intros H. unfold hex_digit, hex_value, is_digit.
  destruct (N.ltb_spec n 10).
  - replace ((48 <=? 48 + n) && (48 + n <=? 57)) with true
      by (symmetry; apply andb_true_iff; split; apply N.leb_le; lia).
    f_equal. lia.
  - replace ((48 <=? 87 + n) && (87 + n <=? 57)) with false
      by (symmetry; apply andb_false_iff; right; apply N.leb_gt; lia).
    replace ((97 <=? 87 + n) && (87 + n <=? 102)) with true
      by (symmetry; apply andb_true_iff; split; apply N.leb_le; lia).
    f_equal. lia.
Qed.

Lemma decode_control (c : N) :
  c < 32 -> decode_uXXXX 48 48 (hex_digit (c / 16)) (hex_digit (c mod 16)) = Some c.
Proof.
  intros H. unfold decode_uXXXX.
  assert (H1 : c / 16 < 16) by (apply N.Div0.div_lt_upper_bound; lia).
  assert (H2 : c mod 16 < 16) by (apply N.mod_lt; lia).
  rewrite (hex_value_digit _ H1), (hex_value_digit _ H2).
  change (hex_value 48) with (Some 0). cbv iota beta. f_equal.
  pose proof (N.div_mod c 16). lia.
Qed.

Lemma scanstring_escape (c : N) (t r : str) (s : str) :
  scanstring s = Some (t, r) ->
  scanstring (escape_char c ++ s) = Some (c :: t, r).
Proof.
  intros H. unfold escape_char.
  destruct (N.eqb_spec c 34) as [->|H34]; [cbn; now rewrite H|].
  destruct (N.eqb_spec c 92) as [->|H92]; [cbn; now rewrite H|].
  destruct (N.eqb_spec c 10) as [->|H10]; [cbn; now rewrite H|].
  destruct (N.eqb_spec c 13) as [->|H13]; [cbn; now rewrite H|].
  destruct (N.eqb_spec c 9) as [->|H9]; [cbn; now rewrite H|].
  destruct (N.eqb_spec c 8) as [->|H8]; [cbn; now rewrite H|].
  destruct (N.eqb_spec c 12) as [->|H12]; [cbn; now rewrite H|].
  destruct (N.ltb_spec c 32) as [Hlt|Hge].
  - cbn [app scanstring]. change (92 =? 34) with false. change (92 =? 92) with true.
    change (117 =? 117) with true. cbv iota.
    rewrite (decode_control c Hlt). rewrite H.
    replace ((55296 <=? c) && (c <=? 56319)) with false; [reflexivity|].
    symmetry. apply andb_false_iff. left. apply N.leb_gt. lia.
  - cbn [app scanstring].
    rewrite (proj2 (N.eqb_neq c 34) H34), (proj2 (N.eqb_neq c 92) H92).
    rewrite (proj2 (N.ltb_ge c 32) Hge). now rewrite H.
Qed.

Lemma scanstring_encoded (s rest : str) :
  scanstring (flat_map escape_char s ++ 34 :: rest) = Some (s, rest).
Proof.
  induction s as [|c s IH]; [reflexivity|].
  cbn [flat_map]. rewrite <- app_assoc. now apply scanstring_escape.
Qed.

(** *** Values *)

Lemma skip_ws_head (c : N) (s : str) :
  is_json_ws c = false -> skip_ws (c :: s) = c :: s.
Proof. intros H. cbn [skip_ws]. now rewrite H. Qed.

(** The first character of the text of a value. *)
Definition opener (c : N) : Prop :=
  c = 110 \/ c = 116 \/ c = 102 \/ c = 34 \/ c = 91 \/ c = 123.

Lemma dumps_head (j : json) :
  writable j = true -> exists c s, dumps j = c :: s /\ opener c.
Proof.
  unfold opener. destruct j as [|[|]|n|s|l|d]; cbn [writable dumps]; intros H;
    try discriminate; eexists; eexists; (split; [reflexivity|]); tauto.
Qed.

Lemma array_loop_S (f : nat) (values : list json) (s : str) :
  array_loop (S f) values s =
    match scan_once f s with
    | None => None
    | Some (v, s1) =>
        match skip_ws s1 with
        | 93 :: r => Some (JList (values ++ [v]), r)
        | 44 :: s2 => array_loop f (values ++ [v]) (skip_ws s2)
        | _ => None
        end
    end.
Proof. reflexivity. Qed.

Lemma object_loop_S (f : nat) (pairs : list (str * json)) (s1 : str) :
  object_loop (S f) pairs (34 :: s1) =
    match scanstring s1 with
    | None => None
    | Some (key, s2) =>
        match skip_ws s2 with
        | 58 :: s3 =>
            match scan_once f (skip_ws s3) with
            | None => None
            | Some (v, s4) =>
                match skip_ws s4 with
                | 125 :: r => Some (JDict (dict_of_pairs (pairs ++ [(key, v)])), r)
                | 44 :: s5 => object_loop f (pairs ++ [(key, v)]) (skip_ws s5)
                | _ => None
                end
            end
        | _ => None
        end
    end.
Proof. reflexivity. Qed.

Definition scans (j : json) : Prop :=
  forall fuel rest, (sz j <= fuel)%nat ->
    scan_once fuel (dumps j ++ rest) = Some (j, rest).

Lemma skip_ws_opener (c : N) (s : str) : opener c -> skip_ws (c :: s) = c :: s.
Proof.
  unfold opener. intros H. apply skip_ws_head.
  repeat (destruct H as [->|H]; [reflexivity|]). now subst.
Qed.

(** The loop over the elements of a list. *)
Lemma array_loop_elements (es : list json) :
  Forall (fun e => writable e = true /\ scans e) es -> es <> [] ->
  forall fuel values rest,
    (list_sum (List.map (fun e => S (sz e)) es) <= fuel)%nat ->
    array_loop fuel values (join (lit ", ") (List.map dumps es) ++ 93 :: rest) =
      Some (JList (values ++ es), rest).
Proof.
  induction 1 as [|e es [He Hs] Hes IH]; intros Hne fuel values rest Hf;
    [now contradiction Hne|].
  change (S (sz e) + list_sum (List.map (fun e => S (sz e)) es) <= fuel)%nat in Hf.
  destruct fuel as [|fuel]; [lia|].
  rewrite array_loop_S. destruct es as [|e2 es].
  - cbn [List.map join]. change (list_sum (List.map (fun e => S (sz e)) [])) with 0%nat in Hf.
    rewrite Hs by lia.
    change (skip_ws (93 :: rest)) with (93 :: rest). reflexivity.
  - change (join (lit ", ") (List.map dumps (e :: e2 :: es)))
      with (dumps e ++ lit ", " ++ join (lit ", ") (List.map dumps (e2 :: es))).
    rewrite <- !app_assoc. rewrite Hs by lia.
    change (lit ", " ++ ?x) with (44 :: 32 :: x).
    change (skip_ws (44 :: 32 :: ?x)) with (44 :: 32 :: x). cbv iota.
    change (skip_ws (32 :: ?x)) with (skip_ws x).
    assert (Hh : exists c s, join (lit ", ") (List.map dumps (e2 :: es)) ++ 93 :: rest
                             = c :: s /\ opener c).
    { inversion Hes as [|? ? [He2 _] _]; subst.
      destruct (dumps_head e2 He2) as (c & s & E & Ho).
      cbn [List.map]. destruct es; cbn [join List.map]; rewrite E;
        eexists; eexists; (split; [reflexivity | exact Ho]). }
    destruct Hh as (c & s & E & Ho). rewrite E, (skip_ws_opener c s Ho), <- E.
    rewrite IH by (discriminate || lia).
    now rewrite <- app_assoc.
Qed.

(** The loop over the entries of a dict. *)
Definition entry (kv : str * json) : str :=
  encode_str (fst kv) ++ lit ": " ++ dumps (snd kv).

Lemma entry_text (kv : str * json) (r : str) :
  entry kv ++ r =
    34 :: (flat_map escape_char (fst kv) ++ 34 :: 58 :: 32 :: (dumps (snd kv) ++ r)).
Proof.
  unfold entry, encode_str. rewrite <- !app_assoc. reflexivity.
Qed.

Lemma object_loop_entries (d : list (str * json)) :
  Forall (fun kv => writable (snd kv) = true /\ scans (snd kv)) d -> d <> [] ->
  forall fuel pairs rest,
    (list_sum (List.map (fun kv => S (sz (snd kv))) d) <= fuel)%nat ->
    object_loop fuel pairs (join (lit ", ") (List.map entry d) ++ 125 :: rest) =
      Some (JDict (dict_of_pairs (pairs ++ d)), rest).
Proof.
  induction 1 as [|kv d [Hw Hs] Hd IH]; intros Hne fuel pairs rest Hf;
    [now contradiction Hne|].
  change (S (sz (snd kv)) + list_sum (List.map (fun kv => S (sz (snd kv))) d) <= fuel)%nat
    in Hf.
  destruct fuel as [|fuel]; [lia|].
  destruct (dumps_head (snd kv) Hw) as (c & s & E & Ho).
  destruct d as [|kv2 d].
  - cbn [List.map join].
    change (list_sum (List.map (fun kv => S (sz (snd kv))) [])) with 0%nat in Hf.
    rewrite entry_text, object_loop_S, scanstring_encoded.
    change (skip_ws (58 :: ?x)) with (58 :: x). cbv iota.
    change (skip_ws (32 :: ?x)) with (skip_ws x).
    rewrite E. cbn [app]. rewrite (skip_ws_opener c _ Ho).
    change (c :: s ++ 125 :: rest) with ((c :: s) ++ 125 :: rest). rewrite <- E.
    rewrite Hs by lia.
    change (skip_ws (125 :: rest)) with (125 :: rest). cbv iota.
    destruct kv. reflexivity.
  - change (join (lit ", ") (List.map entry (kv :: kv2 :: d)))
      with (entry kv ++ lit ", " ++ join (lit ", ") (List.map entry (kv2 :: d))).
    rewrite <- !app_assoc.
    rewrite entry_text, object_loop_S, scanstring_encoded.
    change (skip_ws (58 :: ?x)) with (58 :: x). cbv iota.
    change (skip_ws (32 :: ?x)) with (skip_ws x).
    rewrite E. cbn [app]. rewrite (skip_ws_opener c _ Ho).
    match goal with
    | |- context [scan_once fuel (c :: s ++ ?r)] =>
        change (c :: s ++ r) with ((c :: s) ++ r)
    end.
    rewrite <- E. rewrite Hs by lia.
    change (lit ", " ++ ?x) with (44 :: 32 :: x).
    change (skip_ws (44 :: 32 :: ?x)) with (44 :: 32 :: x). cbv iota.
    change (skip_ws (32 :: ?x)) with (skip_ws x).
    assert (Hh : forall r, skip_ws (join (lit ", ") (List.map entry (kv2 :: d)) ++ r) =
                           join (lit ", ") (List.map entry (kv2 :: d)) ++ r).
    { intros r. cbn [List.map]. destruct d; cbn [join List.map];
        rewrite <- ?app_assoc; rewrite entry_text; reflexivity. }
    rewrite Hh. rewrite IH by (discriminate || lia).
    rewrite <- app_assoc. destruct kv. reflexivity.
Qed.

(** [dict(pairs)] of pairs with distinct keys. *)
Lemma dict_set_new {V} (d : dict V) (k : str) (v : V) :
  ~ In k (List.map fst d) -> dict_set d k v = d ++ [(k, v)].
Proof.
  induction d as [|[k' v'] d IH]; intros H; [reflexivity|].
  cbn [dict_set app]. cbn [List.map fst In] in H.
  rewrite (proj2 (str_eqb_neq k' k)) by (intros ->; apply H; now left).
  rewrite IH; [reflexivity|]. intros Hin. apply H. now right.
Qed.

Lemma distinct_NoDup (l : list str) : distinct l = true <-> NoDup l.
Proof.
  induction l as [|k l IH]; cbn [distinct].
  - split; [constructor | reflexivity].
  - rewrite andb_true_iff, negb_true_iff, mem_false, IH. split.
    + intros [H1 H2]. now constructor.
    + intros H. inversion H; subst. now split.
Qed.

Lemma fold_dict_set_distinct (d : list (str * json)) : forall acc,
  NoDup (List.map fst (acc ++ d)) ->
  fold_left (fun d kv => dict_set d (fst kv) (snd kv)) d acc = acc ++ d.
Proof.
  induction d as [|[k v] d IH]; intros acc Hnd; cbn [fold_left].
  - now rewrite app_nil_r.
  - cbn [fst snd]. rewrite dict_set_new.
    + rewrite IH; [now rewrite <- app_assoc|]. now rewrite <- app_assoc.
    + rewrite map_app in Hnd. cbn [List.map fst] in Hnd.
      apply NoDup_remove_2 in Hnd. intros Hin. apply Hnd.
      apply in_or_app. now left.
Qed.

Lemma dict_of_pairs_distinct (d : list (str * json)) :
  distinct (List.map fst d) = true -> dict_of_pairs d = d.
Proof.
  intros H. apply distinct_NoDup in H. unfold dict_of_pairs.
  now apply (fold_dict_set_distinct d []).
Qed.

Lemma forallb_Forall_and {A} (f : A -> bool) (P : A -> Prop) (l : list A) :
  forallb f l = true -> Forall (fun x => f x = true -> P x) l ->
  Forall (fun x => f x = true /\ P x) l.
Proof.
  intros Hf; induction 1 as [|x l Hx Hl IH]; [constructor|].
  cbn [forallb] in Hf. apply andb_true_iff in Hf. destruct Hf as [Hfx Hfl].
  constructor; [split; auto | auto].
Qed.

Lemma scan_once_list (f : nat) (s' : str) :
  scan_once (S f) (91 :: s') =
    match skip_ws s' with
    | 93 :: r => Some (JList [], r)
    | r => array_loop f [] r
    end.
Proof. reflexivity. Qed.

Lemma scan_once_dict (f : nat) (s' : str) :
  scan_once (S f) (123 :: s') =
    match skip_ws s' with
    | 125 :: r => Some (JDict [], r)
    | r => object_loop f [] r
    end.
Proof. reflexivity. Qed.

(** Every writable value is scanned back from its text, whatever follows
    it. *)
Lemma scans_writable (j : json) : writable j = true -> scans j.
Proof.
  induction j as [|b|n|s|l IH|d IH] using json_induction; intros Hw fuel rest Hf.
  - destruct fuel; [cbn in Hf; lia | reflexivity].
  - destruct fuel; [cbn in Hf; lia |]. destruct b; reflexivity.
  - discriminate.
  - destruct fuel; [cbn in Hf; lia |].
    cbn [dumps]. unfold encode_str. rewrite <- !app_assoc.
    change ([34] ++ ?x) with (34 :: x).
    change (scan_once (S fuel) (34 :: ?x)) with
      (match scanstring x with Some (y, r) => Some (JStr y, r) | None => None end).
    cbn [app]. now rewrite scanstring_encoded.
  - cbn [writable] in Hw. pose proof (forallb_Forall_and _ _ _ Hw IH) as Hall.
    change (S (list_sum (List.map (fun e => S (sz e)) l)) <= fuel)%nat in Hf.
    destruct fuel as [|fuel]; [lia|].
    destruct l as [|e l]; [reflexivity|].
    cbn [dumps]. rewrite <- !app_assoc. change ([91] ++ ?x) with (91 :: x).
    rewrite scan_once_list.
    assert (Hh : exists c s,
               join (lit ", ") (List.map dumps (e :: l)) ++ [93] ++ rest = c :: s /\
               opener c).
    { inversion Hall as [|? ? [He _] _]; subst.
      destruct (dumps_head e He) as (c & s & E & Ho).
      cbn [List.map]. destruct l; cbn [join List.map]; rewrite E;
        eexists; eexists; (split; [reflexivity | exact Ho]). }
    destruct Hh as (c & s & E & Ho). rewrite E, (skip_ws_opener c s Ho).
    assert (Hm : match c :: s with
                 | 93 :: r => Some (JList [], r)
                 | r => array_loop fuel [] r
                 end = array_loop fuel [] (c :: s)).
    { unfold opener in Ho. repeat (destruct Ho as [->|Ho]; [reflexivity|]). now subst. }
    rewrite Hm, <- E. cbn [app].
    rewrite (array_loop_elements (e :: l) Hall) by (discriminate || lia). reflexivity.
  - cbn [writable] in Hw. apply andb_true_iff in Hw. destruct Hw as [Hk Hw].
    assert (Hall : Forall (fun kv => writable (snd kv) = true /\ scans (snd kv)) d).
    { apply (forallb_Forall_and (fun kv => writable (snd kv)) (fun kv => scans (snd kv)));
        assumption. }
    change (S (list_sum (List.map (fun kv => S (sz (snd kv))) d)) <= fuel)%nat in Hf.
    destruct fuel as [|fuel]; [lia|].
    destruct d as [|kv d]; [reflexivity|].
    cbn [dumps]. rewrite <- !app_assoc. change ([123] ++ ?x) with (123 :: x).
    rewrite scan_once_dict.
    change (List.map (fun kv => encode_str (fst kv) ++ lit ": " ++ dumps (snd kv)) (kv :: d))
      with (List.map entry (kv :: d)).
    assert (Hh : exists s,
               join (lit ", ") (List.map entry (kv :: d)) ++ [125] ++ rest = 34 :: s).
    { cbn [List.map]. destruct d; cbn [join List.map]; rewrite <- ?app_assoc;
        rewrite entry_text; eexists; reflexivity. }
    destruct Hh as (s & E). rewrite E.
    change (skip_ws (34 :: s)) with (34 :: s). cbv iota. rewrite <- E. cbn [app].
    rewrite (object_loop_entries (kv :: d) Hall) by (discriminate || lia).
    cbn [app]. now rewrite (dict_of_pairs_distinct (kv :: d) Hk).
Qed.

(** The fuel [loads] gives is enough. *)
Lemma join_length {A} (f : A -> str) (w : A -> nat) (l : list A) :
  Forall (fun x => (w x <= List.length (f x))%nat) l ->
  (list_sum (List.map (fun x => S (w x)) l) <=
   List.length (join (lit ", ") (List.map f l)) + 1)%nat.
Proof.
  induction 1 as [|x l Hx Hl IH]; [cbn; lia|].
  change (list_sum (List.map (fun x => S (w x)) (x :: l)))
    with (S (w x) + list_sum (List.map (fun x => S (w x)) l))%nat.
  destruct l as [|y l].
  - cbn [List.map join list_sum fold_right]. lia.
  - change (join (lit ", ") (List.map f (x :: y :: l)))
      with (f x ++ lit ", " ++ join (lit ", ") (List.map f (y :: l))).
    rewrite !length_app. change (List.length (lit ", ")) with 2%nat. lia.
Qed.

Lemma sz_le (j : json) : writable j = true -> (sz j <= List.length (dumps j))%nat.
Proof.
  induction j as [|b|n|s|l IH|d IH] using json_induction; intros Hw.
  - cbn. lia.
  - destruct b; cbn; lia.
  - discriminate.
  - cbn [sz dumps]. unfold encode_str. rewrite !length_app. cbn [List.length]. lia.
  - cbn [writable] in Hw. pose proof (forallb_Forall_and _ _ _ Hw IH) as Hall.
    change (sz (JList l)) with (S (list_sum (List.map (fun e => S (sz e)) l))).
    cbn [dumps]. rewrite !length_app. cbn [List.length].
    pose proof (join_length dumps sz l) as Hj.
    assert (Forall (fun x => (sz x <= List.length (dumps x))%nat) l)
      by (eapply Forall_impl; [|exact Hall]; cbv beta; tauto).
    specialize (Hj H). lia.
  - cbn [writable] in Hw. apply andb_true_iff in Hw. destruct Hw as [_ Hw].
    pose proof (forallb_Forall_and (fun kv => writable (snd kv))
                  (fun kv => (sz (snd kv) <= List.length (dumps (snd kv)))%nat)
                  d Hw IH) as Hall.
    change (sz (JDict d)) with (S (list_sum (List.map (fun kv => S (sz (snd kv))) d))).
    cbn [dumps]. rewrite !length_app. cbn [List.length].
    pose proof (join_length entry (fun kv => sz (snd kv)) d) as Hj.
    assert (Forall (fun kv => (sz (snd kv) <= List.length (entry kv))%nat) d).
    { eapply Forall_impl; [|exact Hall]. cbv beta. intros kv [_ Hkv].
      unfold entry. rewrite !length_app. lia. }
    specialize (Hj H).
    change (List.map (fun kv => encode_str (fst kv) ++ lit ": " ++ dumps (snd kv)) d)
      with (List.map entry d).
    lia.
Qed.

(** [json.loads(json.dumps(j, ensure_ascii=False))] is [j]. *)
Lemma loads_dumps_writable (j : json) : writable j = true -> loads (dumps j) = Return j.
Proof.
  intros Hw. destruct (dumps_head j Hw) as (c & s & E & Ho).
  assert (Hl : loads (dumps j) =
               match scan_once (2 * List.length (dumps j) + 2) (skip_ws (dumps j)) with
               | Some (v, r) =>
                   match skip_ws r with
                   | [] => Return v
                   | _ :: _ => Raise ValueError
                   end
               | None => Raise ValueError
               end).
  { unfold loads. rewrite E. unfold opener in Ho.
    repeat (destruct Ho as [->|Ho]; [reflexivity|]). now subst. }
  rewrite Hl. rewrite E at 2. rewrite (skip_ws_opener c s Ho), <- E.
  rewrite <- (app_nil_r (dumps j)) at 2.
  pose proof (sz_le j Hw) as Hsz.
  rewrite (scans_writable j Hw) by lia. reflexivity.
Qed.

(** *** The records the workers write *)

Lemma cell_json_writable (c : cell) : writable (cell_json c) = true.
Proof. now destruct c. Qed.

Lemma dict_json_writable (d : dict cell) :
  distinct (keys d) = true -> writable (dict_json d) = true.
Proof.
  intros H. unfold dict_json. cbn [writable]. rewrite map_map. cbn [fst].
  change (List.map (fun x : str * cell => fst x) d) with (keys d). rewrite H.
  cbn [andb]. rewrite forallb_forall. intros kv Hkv. apply in_map_iff in Hkv.
  destruct Hkv as (x & <- & _). apply cell_json_writable.
Qed.

Lemma to_item_writable (r : ResultRecord) : writable (item_json (to_item r)) = true.
Proof.
  destruct r as [h g n f c ms res|h]; [|now vm_compute].
  unfold to_item, item_json. cbn [List.map fst snd value_json writable].
  change (distinct [lit "student"; lit "marks"; lit "result"]) with true.
  cbn [andb forallb snd]. rewrite dict_json_writable by reflexivity.
  rewrite cell_json_writable, andb_true_r. cbn [andb].
  cbn [writable]. rewrite forallb_forall. intros j Hj. rewrite map_map in Hj.
  apply in_map_iff in Hj. destruct Hj as (m & <- & _).
  now apply dict_json_writable.
Qed.

(** *** Lines *)

Lemma lstrip_rev_brace (s y : str) : s = y ++ [125] -> lstrip (rev s) = rev s.
Proof. intros ->. rewrite rev_app_distr. reflexivity. Qed.

Lemma strip_line (s x y : str) :
  s = 123 :: x -> s = y ++ [125] -> strip (s ++ [10]) = s.
Proof.
  intros Hx Hy. unfold strip, rstrip.
  assert (Hl : lstrip (s ++ [10]) = s ++ [10]) by (rewrite Hx; reflexivity).
  rewrite Hl.
  assert (Hr : rev (s ++ [10]) = 10 :: rev s) by (now rewrite rev_app_distr).
  rewrite Hr. change (lstrip (10 :: rev s)) with (lstrip (rev s)).
  rewrite (lstrip_rev_brace s y Hy). apply rev_involutive.
Qed.

Lemma strip_core (s x y : str) :
  s = 123 :: x -> s = y ++ [125] -> strip s = s.
Proof.
  intros Hx Hy. unfold strip, rstrip.
  assert (Hl : lstrip s = s) by (rewrite Hx; reflexivity).
  rewrite Hl, (lstrip_rev_brace s y Hy). apply rev_involutive.
Qed.

(** The JSON text of an item is a brace, a body and a brace. *)
Lemma item_text_braces (it : item) :
  exists body, dumps (item_json it) = 123 :: body ++ [125].
Proof. unfold item_json. cbn [dumps]. eexists. reflexivity. Qed.

Lemma item_text_shape (it : item) :
  (exists x, dumps (item_json it) = 123 :: x) /\
  (exists y, dumps (item_json it) = y ++ [125]).
Proof.
  destruct (item_text_braces it) as (body & E). split.
  - eexists. exact E.
  - exists (123 :: body). now rewrite E.
Qed.

(** The line [append_result] writes for an item. *)
Definition line (it : item) : str := dumps (item_json it) ++ [10].

(** The file after a run of appends holds the lines of the items whose
    write did not raise. *)
Lemma appended_text (b : bool) (items : list item) : forall st,
  ndjson (appended b items st) = ndjson st ++ flat_map line (filter encodes items).
Proof.
  unfold appended.
  induction items as [|it items IH]; intros st; cbn [fold_left flat_map filter].
  - now rewrite app_nil_r.
  - rewrite IH. unfold append_result, encodes, line_of. cbv zeta.
    destruct (utf8_encodable (dumps (item_json it) ++ [10])); [|reflexivity].
    cbn [ndjson flat_map]. unfold line. now rewrite <- !app_assoc.
Qed.

Lemma appended_results (b : bool) (items : list item) : forall st,
  results (appended b items st) = results st.
Proof.
  unfold appended.
  induction items as [|it items IH]; intros st; cbn [fold_left]; [reflexivity|].
  rewrite IH. unfold append_result. cbv zeta.
  now destruct (utf8_encodable (dumps (item_json it) ++ [10])).
Qed.

Lemma filter_encodes_all (items : list item) :
  forallb encodes items = true -> filter encodes items = items.
Proof.
  induction items as [|it items IH]; [reflexivity|]. cbn [forallb filter].
  intros H. apply andb_true_iff in H. destruct H as [H1 H2]. now rewrite H1, IH.
Qed.

Lemma written_prefix_all (items : list item) :
  forallb encodes items = true -> written_prefix items = items.
Proof.
  induction items as [|it items IH]; [reflexivity|]. cbn [forallb written_prefix].
  intros H. apply andb_true_iff in H. destruct H as [H1 H2]. now rewrite H1, IH.
Qed.

(** The loop of [save_results]. *)
Lemma write_items_text (items : list item) : forall file,
  Staging.write_items items file =
    (file ++ flat_map line (written_prefix items),
     if forallb encodes items then None else Some UnicodeEncodeError).
Proof.
  induction items as [|it items IH]; intros file;
    cbn [Staging.write_items written_prefix forallb flat_map].
  - now rewrite app_nil_r.
  - change (encodes it) with (utf8_encodable (dumps (item_json it) ++ [10])).
    destruct (utf8_encodable (dumps (item_json it) ++ [10])) eqn:E;
      cbn [andb flat_map].
    + rewrite IH. unfold line at 2. now rewrite <- !app_assoc.
    + now rewrite app_nil_r.
Qed.

Lemma readlines_app (l rest : str) :
  printable l -> readlines (l ++ 10 :: rest) = (l ++ [10]) :: readlines rest.
Proof.
  induction 1 as [|c l Hc Hl IH]; [reflexivity|].
  cbn [app readlines]. rewrite IH.
  destruct (N.eqb_spec c 10); [lia | reflexivity].
Qed.

Lemma readlines_lines (items : list item) :
  readlines (flat_map line items) = List.map line items.
Proof.
  induction items as [|it items IH]; [reflexivity|].
  cbn [flat_map List.map]. unfold line at 1. rewrite <- app_assoc. cbn [app].
  rewrite readlines_app by apply item_json_printable. now rewrite IH.
Qed.

Lemma universal_newlines_app (l rest : str) :
  printable l ->
  universal_newlines (l ++ 10 :: rest) = l ++ 10 :: universal_newlines rest.
Proof.
  induction 1 as [|c l Hc Hl IH]; [reflexivity|].
  cbn [app universal_newlines]. rewrite IH.
  destruct (N.eqb_spec c 13); [lia | reflexivity].
Qed.

Lemma universal_newlines_lines (items : list item) :
  universal_newlines (flat_map line items) = flat_map line items.
Proof.
  induction items as [|it items IH]; [reflexivity|].
  cbn [flat_map]. unfold line at 1 3. rewrite <- !app_assoc. cbn [app].
  rewrite universal_newlines_app by apply item_json_printable. now rewrite IH.
Qed.

Lemma kept_line (it : item) :
  writable (item_json it) = true ->
  kept [line it] = [item_json it].
Proof.
  intros Hw. unfold kept, line. cbn [flat_map].
  destruct (item_text_shape it) as ((x & Hx) & (y & Hy)).
  rewrite (strip_line _ x y Hx Hy). rewrite Hx at 1. rewrite <- Hx.
  rewrite (loads_dumps_writable _ Hw). reflexivity.
Qed.

Lemma kept_app (a b : list str) : kept (a ++ b) = kept a ++ kept b.
Proof. unfold kept. apply flat_map_app. Qed.

Lemma kept_lines (items : list item) :
  Forall (fun it => writable (item_json it) = true) items ->
  kept (List.map line items) = List.map item_json items.
Proof.
  induction 1 as [|it items Hw Hall IH]; [reflexivity|].
  cbn [List.map]. change (line it :: List.map line items)
    with ([line it] ++ List.map line items).
  rewrite kept_app, (kept_line it Hw), IH. reflexivity.
Qed.

(** The reading loop of [main] on the lines of writable items. *)
Lemma read_final_lines (items : list item) :
  Forall (fun it => writable (item_json it) = true) items ->
  read_final (flat_map line items) = List.map item_json items.
Proof.
  intros H. rewrite read_final_kept, universal_newlines_lines, readlines_lines.
  now apply kept_lines.
Qed.

Lemma records_writable (rs : list ResultRecord) :
  Forall (fun it => writable (item_json it) = true) (List.map to_item rs).
Proof. apply Forall_map. apply Forall_forall. intros r _. apply to_item_writable. Qed.

Lemma sublist_writable (items sub : list item) :
  (forall it, In it sub -> In it items) ->
  Forall (fun it => writable (item_json it) = true) items ->
  Forall (fun it => writable (item_json it) = true) sub.
Proof. rewrite !Forall_forall. auto. Qed.

Lemma written_prefix_In (items : list item) (it : item) :
  In it (written_prefix items) -> In it items.
Proof.
  induction items as [|x items IH]; [intros []|]. cbn [written_prefix].
  destruct (encodes x); [|intros []]. intros [<-|H]; [now left | right; auto].
Qed.

(** *** [load_items] on a JSON array *)

Lemma strip_id (s x y : str) (a b : N) :
  s = a :: x -> s = y ++ [b] -> isspace a = false -> isspace b = false ->
  strip s = s.
Proof.
  intros Hx Hy Ha Hb. unfold strip, rstrip.
  assert (Hl : lstrip s = s) by (rewrite Hx; cbn [lstrip]; now rewrite Ha).
  rewrite Hl.
  assert (Hr : lstrip (rev s) = rev s).
  { rewrite Hy, rev_app_distr. cbn [rev app lstrip]. now rewrite Hb. }
  rewrite Hr. apply rev_involutive.
Qed.

Lemma array_printable (items : list item) :
  printable (dumps (JList (List.map item_json items))).
Proof.
  cbn [dumps]. apply printable_app; [printable_lit|].
  apply printable_app; [|printable_lit].
  apply join_printable; [apply sep_printable|].
  apply Forall_map, Forall_map. apply Forall_forall. intros it _.
  apply item_json_printable.
Qed.

Lemma load_items_array_text (items : list item) :
  Forall (fun it => writable (item_json it) = true) items ->
  JsonToExcel.load_items (dumps (JList (List.map item_json items))) =
    Return (List.map item_json items).
Proof.
  intros H. unfold JsonToExcel.load_items.
  rewrite (universal_newlines_printable _ (array_printable items)).
  set (text := dumps (JList (List.map item_json items))).
  assert (Hs : strip text = text).
  { apply (strip_id text (join (lit ", ") (List.map dumps (List.map item_json items)) ++ [93])
             (91 :: join (lit ", ") (List.map dumps (List.map item_json items))) 91 93);
      reflexivity. }
  rewrite Hs.
  assert (Hl : loads text = Return (JList (List.map item_json items))).
  { apply loads_dumps_writable. cbn [writable]. apply forallb_forall.
    intros j Hj. apply in_map_iff in Hj. destruct Hj as (it & <- & Hit).
    rewrite Forall_forall in H. now apply H. }
  change text with (91 :: join (lit ", ") (List.map dumps (List.map item_json items)) ++ [93]) at 1.
  cbv iota. change (91 =? 91) with true. cbv iota.
  fold (dumps (JList (List.map item_json items))).
  change (91 :: join (lit ", ") (List.map dumps (List.map item_json items)) ++ [93]) with text.
  now rewrite Hl.
Qed.

(** *** [load_items] on the lines of the staging file *)

Definition unbroken (s : str) : Prop :=
  Forall (fun c => is_linebreak c = false) s.

Lemma printable_unbroken (s : str) : printable s -> no_unicode_break s -> unbroken s.
Proof.
  unfold printable, no_unicode_break, unbroken. rewrite !Forall_forall.
  intros Hp Hn c Hc. specialize (Hp c Hc). specialize (Hn c Hc).
  unfold is_linebreak. repeat (apply orb_false_iff; split); apply N.eqb_neq; lia.
Qed.

Lemma splitlines_app (l rest : str) :
  unbroken l -> splitlines (l ++ 10 :: rest) = l :: splitlines rest.
Proof.
  induction 1 as [|c l Hc Hl IH]; [reflexivity|].
  cbn [app splitlines]. now rewrite Hc, IH.
Qed.

Lemma splitlines_one (l : str) : unbroken l -> l <> [] -> splitlines l = [l].
Proof.
  induction 1 as [|c l Hc Hl IH]; intros Hne; [now contradiction Hne|].
  cbn [splitlines]. rewrite Hc. destruct l as [|c' l]; [reflexivity|].
  rewrite IH by discriminate. reflexivity.
Qed.

(** The texts of the lines, joined by line feeds. *)
Fixpoint join_lines (ls : list str) : str :=
  match ls with
  | [] => []
  | [l] => l
  | l :: ls' => l ++ 10 :: join_lines ls'
  end.

Lemma flat_map_join_lines (items : list item) :
  items <> [] ->
  flat_map line items =
    join_lines (List.map (fun it => dumps (item_json it)) items) ++ [10].
Proof.
  induction items as [|it items IH]; intros Hne; [now contradiction Hne|].
  cbn [flat_map List.map]. destruct items as [|it2 items];
    [cbn [flat_map List.map join_lines]; now rewrite app_nil_r|].
  rewrite IH by discriminate. unfold line. cbn [List.map join_lines].
  now rewrite <- !app_assoc.
Qed.

Lemma join_lines_head (items : list item) :
  items <> [] ->
  exists x, join_lines (List.map (fun it => dumps (item_json it)) items) = 123 :: x.
Proof.
  destruct items as [|it items]; intros Hne; [now contradiction Hne|].
  destruct (item_text_braces it) as (body & E). cbn [List.map join_lines].
  rewrite E. destruct (List.map _ items); eexists; reflexivity.
Qed.

Lemma join_lines_last (items : list item) :
  items <> [] ->
  exists y, join_lines (List.map (fun it => dumps (item_json it)) items) = y ++ [125].
Proof.
  induction items as [|it items IH]; intros Hne; [now contradiction Hne|].
  destruct items as [|it2 items].
  - cbn [List.map join_lines]. apply item_text_shape.
  - destruct IH as (y & E); [discriminate|].
    exists (dumps (item_json it) ++ 10 :: y).
    change (join_lines (List.map (fun it => dumps (item_json it)) (it :: it2 :: items)))
      with (dumps (item_json it) ++
            10 :: join_lines (List.map (fun it => dumps (item_json it)) (it2 :: items))).
    rewrite E. now rewrite <- app_assoc.
Qed.

Lemma splitlines_join_lines (ls : list str) :
  Forall unbroken ls -> Forall (fun l => l <> []) ls ->
  splitlines (join_lines ls) = ls.
Proof.
  induction 1 as [|l ls Hl Hls IH]; intros Hne; [reflexivity|].
  inversion Hne as [|? ? Hl0 Hne']; subst.
  destruct ls as [|l2 ls].
  - cbn [join_lines]. now apply splitlines_one.
  - change (join_lines (l :: l2 :: ls)) with (l ++ 10 :: join_lines (l2 :: ls)).
    rewrite splitlines_app by exact Hl. now rewrite IH.
Qed.

Lemma no_unicode_break_app (a b : str) :
  no_unicode_break (a ++ b) <-> no_unicode_break a /\ no_unicode_break b.
Proof. unfold no_unicode_break. apply Forall_app. Qed.

Lemma lines_unbroken (items : list item) :
  no_unicode_break (flat_map line items) ->
  Forall unbroken (List.map (fun it => dumps (item_json it)) items).
Proof.
  induction items as [|it items IH]; intros H; [constructor|].
  cbn [flat_map] in H. apply no_unicode_break_app in H. destruct H as [H1 H2].
  unfold line in H1. apply no_unicode_break_app in H1. destruct H1 as [H1 _].
  cbn [List.map]. constructor; [|now apply IH].
  apply printable_unbroken; [apply item_json_printable | exact H1].
Qed.

Lemma kept_texts (items : list item) :
  Forall (fun it => writable (item_json it) = true) items ->
  kept (List.map (fun it => dumps (item_json it)) items) = List.map item_json items.
Proof.
  induction 1 as [|it items Hw Hall IH]; [reflexivity|].
  cbn [List.map]. change (?a :: List.map ?f items) with ([a] ++ List.map f items).
  rewrite kept_app, IH. f_equal. unfold kept. cbn [flat_map].
  destruct (item_text_shape it) as ((x & Hx) & (y & Hy)).
  rewrite (strip_core _ x y Hx Hy). rewrite Hx at 1. rewrite <- Hx.
  now rewrite (loads_dumps_writable _ Hw).
Qed.

(** [load_items] on the lines of writable items whose text holds none of
    the three characters. *)
Lemma load_items_lines (items : list item) :
  Forall (fun it => writable (item_json it) = true) items ->
  no_unicode_break (flat_map line items) ->
  JsonToExcel.load_items (flat_map line items) = Return (List.map item_json items).
Proof.
  intros Hw Hn. destruct items as [|it0 items0] eqn:Ei; [reflexivity|].
  rewrite <- Ei in *. assert (Hne : items <> []) by (rewrite Ei; discriminate).
  unfold JsonToExcel.load_items. rewrite universal_newlines_lines.
  rewrite (flat_map_join_lines items Hne).
  destruct (join_lines_head items Hne) as (x & Hx).
  destruct (join_lines_last items Hne) as (y & Hy).
  rewrite (strip_line _ x y Hx Hy). rewrite Hx. change (123 =? 91) with false.
  cbv iota. rewrite <- Hx. f_equal. rewrite load_step_kept. cbn [app].
  rewrite splitlines_join_lines.
  - now apply kept_texts.
  - now apply lines_unbroken.
  - apply Forall_map. apply Forall_forall. intros it _.
    destruct (item_text_braces it) as (body & E). rewrite E. discriminate.
Qed.

End RoundTrip.

Module RoundTripExtras.
Import Py Json Pandas App Spec Writable ListFacts DumpsFacts LoaderFacts Staging RoundTrip.

(** X8.  What was written is what [main] reads back.  After the staging
    file was truncated and the records were appended one by one, an
    append whose line holds a surrogate code point raising
    [UnicodeEncodeError] and writing nothing, the reading loop of [main]
    returns exactly the records whose append returned, in the order of the
    appends, whatever other characters their strings hold; all the
    records, when no line holds a surrogate.  The appends leave the
    in-memory list as it is. *)
Theorem appended_records_read_back (AUTO_EXCEL : bool) (rs : list ResultRecord)
  (st : state) :
  read_final
    (ndjson (appended AUTO_EXCEL (List.map to_item rs) (clear_old_results st))) =
    List.map item_json (filter encodes (List.map to_item rs)) /\
  (forallb encodes (List.map to_item rs) = true ->
   read_final
     (ndjson (appended AUTO_EXCEL (List.map to_item rs) (clear_old_results st))) =
     List.map item_json (List.map to_item rs)) /\
  results (appended AUTO_EXCEL (List.map to_item rs) (clear_old_results st)) =
    results st.
Proof.
  assert (H : read_final
                (ndjson (appended AUTO_EXCEL (List.map to_item rs) (clear_old_results st))) =
              List.map item_json (filter encodes (List.map to_item rs))).
  { rewrite appended_text. cbn [clear_old_results ndjson app].
    apply read_final_lines.
    apply (sublist_writable (List.map to_item rs)); [|apply records_writable].
    intros it Hit. now apply filter_In in Hit. }
  split; [exact H|]. split.
  - intros Hall. rewrite H. now rewrite filter_encodes_all.
  - now rewrite appended_results.
Qed.

(** X9.  [save_results] truncates the staging file and writes the items
    of the in-memory list in order.  It leaves the list as it is.  It
    raises, [UnicodeEncodeError], exactly when the line of some item holds
    a surrogate code point; the file then holds the lines of the items
    before the first such item.  In every case the reading loop of [main]
    reads back from the file the items that were written; when no line
    holds a surrogate these are all the items of the list, and the file is
    what appending them one by one to an empty file gives. *)
Theorem save_results_read_back (AUTO_EXCEL : bool) (rs : list ResultRecord)
  (st : state) :
  results st = List.map to_item rs ->
  results (fst (save_results st)) = results st /\
  (snd (save_results st) = None <-> forallb encodes (results st) = true) /\
  (snd (save_results st) <> None -> snd (save_results st) = Some UnicodeEncodeError) /\
  ndjson (fst (save_results st)) = flat_map line_of (written_prefix (results st)) /\
  read_final (ndjson (fst (save_results st))) =
    List.map item_json (written_prefix (results st)) /\
  (forallb encodes (results st) = true ->
   ndjson (fst (save_results st)) =
     ndjson (appended AUTO_EXCEL (results st) (clear_old_results st)) /\
   read_final (ndjson (fst (save_results st))) = List.map item_json (results st)).
Proof.
  intros H. unfold save_results. rewrite write_items_text. cbn [fst snd ndjson results app].
  assert (Hr : read_final (flat_map line (written_prefix (results st))) =
               List.map item_json (written_prefix (results st))).
  { apply read_final_lines.
    apply (sublist_writable (results st)); [apply written_prefix_In|].
    rewrite H. apply records_writable. }
  split; [reflexivity|]. split; [|split; [|split; [reflexivity|split; [exact Hr|]]]].
  - destruct (forallb encodes (results st)); split; try reflexivity; discriminate.
  - destruct (forallb encodes (results st)); [intros F; now contradiction F | reflexivity].
  - intros Hall. rewrite appended_text. cbn [clear_old_results ndjson app].
    rewrite Hr, (written_prefix_all _ Hall), (filter_encodes_all _ Hall). now split.
Qed.

(** X10.  [load_items] on a file that holds the records as one JSON array,
    as [json.dumps] writes it, returns the records. *)
Theorem load_items_json_array (rs : list ResultRecord) :
  JsonToExcel.load_items (dumps (JList (List.map item_json (List.map to_item rs)))) =
    Return (List.map item_json (List.map to_item rs)).
Proof. apply load_items_array_text, records_writable. Qed.

(** X11.  When the text of the staging file holds none of the characters
    U+0085, U+2028 and U+2029, [load_items] returns exactly the records
    that were written to it, those whose append returned, as the reading
    loop of [main] does. *)
Theorem load_items_reads_clean_lines (AUTO_EXCEL : bool) (rs : list ResultRecord)
  (st : state) :
  no_unicode_break
    (ndjson (appended AUTO_EXCEL (List.map to_item rs) (clear_old_results st))) ->
  JsonToExcel.load_items
    (ndjson (appended AUTO_EXCEL (List.map to_item rs) (clear_old_results st))) =
    Return (List.map item_json (filter encodes (List.map to_item rs))) /\
  read_final
    (ndjson (appended AUTO_EXCEL (List.map to_item rs) (clear_old_results st))) =
    List.map item_json (filter encodes (List.map to_item rs)).
Proof.
  rewrite appended_text. cbn [clear_old_results ndjson app]. intros H.
  assert (Hw : Forall (fun it => writable (item_json it) = true)
                 (filter encodes (List.map to_item rs))).
  { apply (sublist_writable (List.map to_item rs)); [|apply records_writable].
    intros it Hit. now apply filter_In in Hit. }
  split.
  - now apply load_items_lines.
  - now apply read_final_lines.
Qed.

(** The cohort of the examples is saved whole and read back. *)
Lemma save_results_read_back_witness :
  snd (save_results
         (mkState (lit "stale") (List.map to_item Examples.cohort) false [])) = None /\
  read_final
    (ndjson
       (fst (save_results
               (mkState (lit "stale") (List.map to_item Examples.cohort) false [])))) =
    List.map item_json (List.map to_item Examples.cohort).
Proof.
  destruct (save_results_read_back true Examples.cohort
              (mkState (lit "stale") (List.map to_item Examples.cohort) false [])
              eq_refl) as (_ & He & _ & _ & _ & Hall).
  split.
  - apply He. vm_compute. reflexivity.
  - apply Hall. vm_compute. reflexivity.
Defined.

(** A list whose second record has a surrogate in the name: [save_results]
    raises, and the file holds the first record only. *)
Lemma save_results_stops_at_surrogate :
  let st := mkState (lit "stale")
              [to_item (Placeholder (lit "110624861001")); Examples.asha_surrogate;
               to_item (Placeholder (lit "110624861003"))] false [] in
  snd (save_results st) = Some UnicodeEncodeError /\
  read_final (ndjson (fst (save_results st))) =
    [item_json (to_item (Placeholder (lit "110624861001")))].
Proof. vm_compute. split; reflexivity. Qed.

Lemma no_unicode_break_check (s : str) :
  forallb (fun c => negb ((c =? 133) || (c =? 8232) || (c =? 8233))) s = true ->
  no_unicode_break s.
Proof.
  intros H. rewrite forallb_forall in H. apply Forall_forall. intros c Hc.
  specialize (H c Hc). rewrite negb_true_iff, !orb_false_iff, !N.eqb_neq in H. tauto.
Qed.

Lemma load_items_reads_clean_lines_witness :
  JsonToExcel.load_items
    (ndjson
       (appended true (List.map to_item Examples.cohort)
          (clear_old_results Examples.initial))) =
    Return (List.map item_json (List.map to_item Examples.cohort)).
Proof.
  apply (load_items_reads_clean_lines true Examples.cohort Examples.initial).
  apply no_unicode_break_check. vm_compute. reflexivity.
Defined.

End RoundTripExtras.

(* ================================================================= *)
(** * The prompts of [main] and the hall tickets of a run *)

Module CliFacts.
Import Py Cli.

Lemma lit_inj (a b : string) : lit a = lit b -> a = b.
Proof.
  unfold lit. intros H.
  assert (Hl : list_ascii_of_string a = list_ascii_of_string b).
  { revert H. generalize (list_ascii_of_string a) (list_ascii_of_string b).
    induction l as [|x l IH]; intros [|y l'] H; try discriminate; [reflexivity|].
    cbn [List.map] in H. injection H as Hxy Hl. f_equal; [|now apply IH].
    rewrite <- (ascii_N_embedding x), <- (ascii_N_embedding y). now rewrite Hxy. }
  rewrite <- (string_of_list_ascii_of_string a), <- (string_of_list_ascii_of_string b).
  now rewrite Hl.
Qed.

Lemma to_int_printable (z : Z) :
  Z.to_int z <> Decimal.Pos Decimal.Nil /\ Z.to_int z <> Decimal.Neg Decimal.Nil.
Proof.
  destruct z as [|p|p]; cbn [Z.to_int]; split; try discriminate;
    intros [= H]; now apply (Unsigned.to_uint_nonnil p).
Qed.

Lemma str_of_int_inj (a b : Z) : str_of_int a = str_of_int b -> a = b.
Proof.
  unfold str_of_int. intros H. apply lit_inj in H.
  destruct (to_int_printable a) as [Ha1 Ha2], (to_int_printable b) as [Hb1 Hb2].
  pose proof (NilZero.isi _ Ha1 Ha2) as Ea. pose proof (NilZero.isi _ Hb1 Hb2) as Eb.
  rewrite H in Ea. rewrite Ea in Eb. injection Eb as Eb.
  rewrite <- (DecimalZ.of_to a), <- (DecimalZ.of_to b). now rewrite Eb.
Qed.

Lemma range_length (a b : Z) : List.length (range a b) = Z.to_nat (b - a).
Proof. unfold range. now rewrite length_map, length_seq. Qed.

Lemma range_NoDup (a b : Z) : NoDup (range a b).
Proof.
  unfold range. apply Finite.Injective_map_NoDup; [|apply seq_NoDup].
  intros i j H. lia.
Qed.

Lemma range_In (a b x : Z) : In x (range a b) <-> (a <= x < b)%Z.
Proof.
  unfold range. rewrite in_map_iff. split.
  - intros (i & <- & Hi). apply in_seq in Hi. lia.
  - intros H. exists (Z.to_nat (x - a)). split; [lia|]. apply in_seq. lia.
Qed.

Section Prompts.

Variable to_int : str -> option Z.

(** A line [prompt_url] asks again for. *)
Definition refused (l : str) : Prop :=
  strip l = [] \/
  startswith (strip l) (lit "http://") || startswith (strip l) (lit "https://") = false.

Lemma prompt_url_spec (input : stdin) (url : str) (rest : stdin) :
  prompt_url input = Some (url, rest) ->
  exists skipped l,
    input = skipped ++ l :: rest /\ Forall refused skipped /\ strip l = url /\
    url <> [] /\
    startswith url (lit "http://") || startswith url (lit "https://") = true.
Proof.
  induction input as [|l input IH]; [discriminate|]. cbn [prompt_url]. cbv zeta.
  destruct (strip l) as [|c v] eqn:E.
  - intros H. destruct (IH H) as (sk & l' & -> & Hsk & Hl & Hne & Hs).
    exists (l :: sk), l'. split; [reflexivity|]. split; [|now split].
    constructor; [left; exact E | exact Hsk].
  - destruct (startswith (c :: v) (lit "http://") || startswith (c :: v) (lit "https://"))
      eqn:Es.
    + intros [= <- <-]. exists [], l. split; [reflexivity|]. split; [constructor|].
      split; [exact E|]. split; [discriminate | exact Es].
    + intros H. destruct (IH H) as (sk & l' & -> & Hsk & Hl & Hne & Hs).
      exists (l :: sk), l'. split; [reflexivity|]. split; [|now split].
      constructor; [right; rewrite E; exact Es | exact Hsk].
Qed.

Lemma prompt_url_none (input : stdin) :
  prompt_url input = None <-> Forall refused input.
Proof.
  induction input as [|l input IH]; cbn [prompt_url]; cbv zeta.
  - split; [constructor | reflexivity].
  - destruct (strip l) as [|c v] eqn:E.
    + rewrite IH. split; intros H.
      * constructor; [left; exact E | exact H].
      * now inversion H.
    + destruct (startswith (c :: v) (lit "http://") || startswith (c :: v) (lit "https://"))
        eqn:Es.
      * split; [discriminate|]. intros H. inversion H as [|? ? [Hr|Hr] _]; subst.
        -- congruence.
        -- rewrite E in Hr. congruence.
      * rewrite IH. split; intros H.
        -- constructor; [right; rewrite E; exact Es | exact H].
        -- now inversion H.
Qed.

Lemma prompt_int_shorter (d : Z) (input : stdin) (z : Z) (rest : stdin) :
  prompt_int to_int d input = Some (z, rest) ->
  (List.length rest < List.length input)%nat.
Proof.
  induction input as [|l input IH]; [discriminate|]. cbn [prompt_int]. cbv zeta.
  destruct (strip l) as [|c v].
  - intros [= <- <-]. cbn. lia.
  - destruct (to_int (c :: v)).
    + intros [= <- <-]. cbn. lia.
    + intros H. apply IH in H. cbn. lia.
Qed.

Lemma end_loop_ordered (turns : nat) : forall start end_ input e rest,
  end_loop to_int turns start end_ input = Some (e, rest) -> (start <= e)%Z.
Proof.
  induction turns as [|turns IH]; intros start end_ input e rest; cbn [end_loop].
  - destruct (Z.ltb_spec end_ start); [discriminate|]. intros [= <- <-]. lia.
  - destruct (Z.ltb_spec end_ start).
    + destruct (prompt_int to_int END_HT input) as [[e' input']|]; [|discriminate].
      apply IH.
    + intros [= <- <-]. lia.
Qed.

(** The bound on the turns takes nothing away: with as many turns as
    lines, more turns change nothing. *)
Lemma end_loop_turns (t1 : nat) : forall t2 start end_ input,
  (List.length input <= t1)%nat -> (List.length input <= t2)%nat ->
  end_loop to_int t1 start end_ input = end_loop to_int t2 start end_ input.
Proof.
  induction t1 as [|t1 IH]; intros t2 start end_ input H1 H2.
  - destruct input; [|cbn in H1; lia].
    destruct t2; cbn [end_loop prompt_int]; now destruct (end_ <? start)%Z.
  - destruct t2 as [|t2].
    + destruct input; [|cbn in H2; lia].
      cbn [end_loop prompt_int]; now destruct (end_ <? start)%Z.
    + cbn [end_loop]. destruct (end_ <? start)%Z; [|reflexivity].
      destruct (prompt_int to_int END_HT input) as [[e' input']|] eqn:E; [|reflexivity].
      apply prompt_int_shorter in E. apply IH; lia.
Qed.

End Prompts.

End CliFacts.

Module CliExtras.
Import Py Cli CliFacts.

(** X12.  [prompt_url] returns only a stripped line that starts with
    [http://] or [https://]: the first such line of the input, every line
    before it being blank or not a URL; it ends with [EOFError] exactly
    when no line of the input qualifies. *)
Theorem prompt_url_returns_url (input : stdin) :
  (forall url rest,
     prompt_url input = Some (url, rest) ->
     exists skipped l,
       input = skipped ++ l :: rest /\ Forall refused skipped /\ strip l = url /\
       url <> [] /\
       startswith url (lit "http://") || startswith url (lit "https://") = true) /\
  (prompt_url input = None <-> Forall refused input).
Proof.
  split.
  - intros url rest. apply prompt_url_spec.
  - apply prompt_url_none.
Qed.

Section Range.

Variable to_int : str -> option Z.

(** X13.  When the range selection of [main] returns, the end is not
    before the start, so at least one hall ticket is fetched; a start given
    on the command line is kept as it is; and the loop that asks again for
    the end reads no more than the lines of the input. *)
Theorem select_range_ordered (args_start args_end : option Z) (input : stdin)
  (start end_ : Z) (rest : stdin) :
  select_range to_int args_start args_end input = Some (start, end_, rest) ->
  (start <= end_)%Z /\
  ht_numbers start end_ <> [] /\
  (forall s, args_start = Some s -> start = s) /\
  (forall turns s e inp,
     (List.length inp <= turns)%nat ->
     end_loop to_int turns s e inp = end_loop to_int (List.length inp) s e inp).
Proof.
  unfold select_range. intros H.
  assert (Hs : exists input1,
             match args_start with
             | Some s => Some (s, input)
             | None => prompt_int to_int START_HT input
             end = Some (start, input1) /\
             exists e0 input2,
               end_loop to_int (List.length input2) start e0 input2 = Some (end_, rest)).
  { destruct (match args_start with
              | Some s => Some (s, input)
              | None => prompt_int to_int START_HT input
              end) as [[s input1]|]; [|discriminate].
    destruct (match args_end with
              | Some e => Some (e, input1)
              | None => prompt_int to_int END_HT input1
              end) as [[e0 input2]|]; [|discriminate].
    destruct (end_loop to_int (List.length input2) s e0 input2) as [[e r]|] eqn:E;
      [|discriminate].
    injection H as <- <- <-. exists input1. split; [reflexivity|]. now exists e0, input2. }
  destruct Hs as (input1 & Hstart & e0 & input2 & Hend).
  pose proof (end_loop_ordered to_int _ _ _ _ _ _ Hend) as Hle.
  split; [exact Hle|]. split; [|split].
  - intros E. apply (f_equal (@List.length str)) in E.
    unfold ht_numbers in E. rewrite length_map, range_length in E. cbn in E. lia.
  - intros s ->. now injection Hstart as ->.
  - intros turns s e inp Hl. now apply end_loop_turns.
Qed.

End Range.

(** X14.  The hall tickets of a run are the decimal numerals of the
    integers from the start to the end, one for each, and no two of them
    are the same string; with the end before the start there is none. *)
Theorem ht_numbers_distinct (start end_ : Z) :
  NoDup (ht_numbers start end_) /\
  List.length (ht_numbers start end_) = Z.to_nat (end_ + 1 - start) /\
  (forall h, In h (ht_numbers start end_) <->
             exists z, (start <= z <= end_)%Z /\ h = str_of_int z).
Proof.
  unfold ht_numbers. split; [|split].
  - apply Finite.Injective_map_NoDup; [|apply range_NoDup].
    intros a b. apply str_of_int_inj.
  - now rewrite length_map, range_length.
  - intros h. rewrite in_map_iff. split.
    + intros (z & <- & Hz). apply range_In in Hz. exists z. split; [lia | reflexivity].
    + intros (z & Hz & ->). exists z. split; [reflexivity|]. apply range_In. lia.
Qed.

(** The end 5 given before the start 10: the end is asked again, 7 is
    refused, 12 is taken. *)
Lemma select_range_ordered_witness :
  select_range Examples.decimal_int (Some 10%Z) (Some 5%Z) [lit "7"; lit " 12 "; lit "x"] =
    Some (10%Z, 12%Z, [lit "x"]) /\
  (10 <= 12)%Z.
Proof.
  split; [reflexivity|].
  exact (proj1 (select_range_ordered Examples.decimal_int (Some 10%Z) (Some 5%Z)
                  [lit "7"; lit " 12 "; lit "x"] 10%Z 12%Z [lit "x"] eq_refl)).
Defined.

End CliExtras.

(* ================================================================= *)
(** * The thread pool: what every interleaving keeps *)

Module PoolFacts.
Import Py Json Bs4 Pandas App Spec Writable ListFacts DumpsFacts LoaderFacts ParserFacts RoundTrip Pool.





Section Parsed.

Variable session_post : str -> outcome str.
Variable BeautifulSoup : str -> outcome Tag.



End Parsed.





Section Run.

Variable session_post : str -> outcome str.
Variable BeautifulSoup : str -> outcome Tag.
Variable AUTO_EXCEL : bool.










(** A call that runs alone does what [worker] does. *)
Lemma alone_is_worker (htno : str) (st : state) :
  run_schedule session_post BeautifulSoup AUTO_EXCEL [0; 0; 0; 0; 0]%nat ([Queued htno], st) =
    ([Done],
     match worker session_post BeautifulSoup AUTO_EXCEL htno st with
     | Return st' => st'
     | Raise _ => st
     end).
Proof.
  unfold run_schedule, worker. cbn [fold_left advance fst snd step_thread].
  destruct (fetch_result session_post BeautifulSoup htno) as [d|e];
    cbn [fold_left advance fst snd step_thread]; [|reflexivity].
  destruct (truthy d) as [it|]; cbn [fold_left advance fst snd step_thread].
  - destruct (append_result AUTO_EXCEL it _); reflexivity.
  - destruct (append_result AUTO_EXCEL (placeholder htno) _); reflexivity.
Qed.

End Run.

End PoolFacts.

Module PoolExtras.
Import Py Json Bs4 Pandas App Spec Writable LoaderFacts RoundTrip Pool PoolExamples PoolFacts.



(** Two hall tickets whose pages both hold a surrogate in the name: both
    records are on the list, the file is empty, and each call printed an
    error line. *)
Lemma pool_surrogate_records_not_in_file :
  let c := run_schedule (fun _ => Return Examples.page_text)
             (fun _ => Return Examples.surrogate_page) true
             [0; 1; 0; 1; 0; 1; 0; 1; 0; 1; 0; 1]%nat
             (submit two_tickets, clear_old_results Examples.initial) in
  all_done (fst c) = true /\
  List.length (results (snd c)) = 2%nat /\
  ndjson (snd c) = [] /\
  errors (console (snd c)) = 2%nat.
Proof. vm_compute. repeat split; reflexivity. Qed.

End PoolExtras.

(* ================================================================= *)
(** * Lines the reading loop of [main] skips *)

Module SkipFacts.
Import Py Json App Spec LoaderFacts RoundTrip.

Lemma rstrip_snoc_space (s : str) (c : N) :
  isspace c = true -> rstrip (s ++ [c]) = rstrip s.
Proof.
  intros H. unfold rstrip. rewrite rev_app_distr. cbn [rev app lstrip]. now rewrite H.
Qed.

Lemma strip_snoc_space (s : str) (c : N) :
  isspace c = true -> strip (s ++ [c]) = strip s.
Proof.
  intros H. induction s as [|a s IH].
  - cbn [app]. unfold strip. cbn [lstrip]. now rewrite H.
  - unfold strip in *. cbn [app lstrip]. destruct (isspace a); [exact IH|].
    change (a :: s ++ [c]) with ((a :: s) ++ [c]). now apply rstrip_snoc_space.
Qed.

Lemma universal_newlines_cr (d : N) (t : str) :
  d <> 10 -> universal_newlines (13 :: d :: t) = 10 :: universal_newlines (d :: t).
Proof.
  intros Hd.
  change (universal_newlines (13 :: d :: t))
    with (match d :: t with
          | 10 :: s'' => 10 :: universal_newlines s''
          | _ => 10 :: universal_newlines (d :: t)
          end).
  destruct d as [|p]; [reflexivity|].
  do 4 (destruct p as [p|p|]; try reflexivity). now contradiction Hd.
Qed.

Lemma universal_newlines_other (c : N) (t : str) :
  c <> 13 -> universal_newlines (c :: t) = c :: universal_newlines t.
Proof.
  intros Hc. cbn [universal_newlines].
  destruct (N.eqb_spec c 13); [contradiction | reflexivity].
Qed.

(** Universal newlines and the line iteration cut a text at a line feed. *)
Lemma universal_newlines_cut (n : nat) : forall a,
  (List.length a <= n)%nat ->
  (exists a', universal_newlines (a ++ [10]) = a' ++ [10]) /\
  (forall rest,
     universal_newlines (a ++ 10 :: rest) =
       universal_newlines (a ++ [10]) ++ universal_newlines rest).
Proof.
  induction n as [|n IH]; intros a Ha.
  - destruct a; [|cbn in Ha; lia]. split; [now exists []|reflexivity].
  - destruct a as [|c a]; [split; [now exists []|reflexivity]|].
    cbn [List.length] in Ha.
    destruct (N.eqb_spec c 13) as [->|Hc].
    + destruct a as [|d a]; [split; [now exists []|reflexivity]|].
      destruct (N.eqb_spec d 10) as [->|Hd].
      * destruct (IH a) as [(a' & E) H]; [cbn in Ha; lia|].
        change (universal_newlines ((13 :: 10 :: a) ++ [10]))
          with (10 :: universal_newlines (a ++ [10])).
        split; [exists (10 :: a'); now rewrite E|].
        intros rest.
        change (universal_newlines ((13 :: 10 :: a) ++ 10 :: rest))
          with (10 :: universal_newlines (a ++ 10 :: rest)).
        now rewrite H.
      * destruct (IH (d :: a)) as [(a' & E) H]; [lia|].
        cbn [app] in E, H |- *. rewrite (universal_newlines_cr d _ Hd).
        split; [exists (10 :: a'); now rewrite E|].
        intros rest. rewrite (universal_newlines_cr d _ Hd). now rewrite H.
    + destruct (IH a) as [(a' & E) H]; [lia|].
      cbn [app]. rewrite (universal_newlines_other c _ Hc).
      split; [exists (c :: a'); now rewrite E|].
      intros rest. rewrite (universal_newlines_other c _ Hc). now rewrite H.
Qed.

Lemma readlines_nonempty (c : N) (s : str) : readlines (c :: s) <> [].
Proof.
  cbn [readlines]. destruct (c =? 10); [discriminate|].
  destruct (readlines s); discriminate.
Qed.

Lemma readlines_cut (a rest : str) :
  readlines (a ++ 10 :: rest) = readlines (a ++ [10]) ++ readlines rest.
Proof.
  induction a as [|c a IH]; [reflexivity|].
  cbn [app readlines]. rewrite IH. destruct (c =? 10); [reflexivity|].
  destruct (readlines (a ++ [10])) as [|l ls] eqn:E; [|reflexivity].
  destruct a; now apply readlines_nonempty in E.
Qed.

(** The reading loop on two texts put end to end, the first one ending at
    the end of a line. *)
Lemma read_final_app (b rest : str) :
  read_final ((b ++ [10]) ++ rest) = read_final (b ++ [10]) ++ read_final rest.
Proof.
  rewrite !read_final_kept. rewrite <- app_assoc. cbn [app].
  destruct (universal_newlines_cut (List.length b) b (le_n _)) as [(b' & E) H].
  rewrite H, E. rewrite <- app_assoc. cbn [app].
  rewrite readlines_cut. apply kept_app.
Qed.

Lemma universal_newlines_line (l rest : str) :
  Forall (fun c => c <> 10 /\ c <> 13) l ->
  universal_newlines (l ++ 10 :: rest) = l ++ 10 :: universal_newlines rest.
Proof.
  induction 1 as [|c l [_ Hc] Hl IH]; [reflexivity|].
  cbn [app universal_newlines]. rewrite IH.
  destruct (N.eqb_spec c 13); [contradiction | reflexivity].
Qed.

Lemma readlines_line (l rest : str) :
  Forall (fun c => c <> 10 /\ c <> 13) l ->
  readlines (l ++ 10 :: rest) = (l ++ [10]) :: readlines rest.
Proof.
  induction 1 as [|c l [Hc _] Hl IH]; [reflexivity|].
  cbn [app readlines]. rewrite IH.
  destruct (N.eqb_spec c 10); [contradiction | reflexivity].
Qed.

End SkipFacts.

Module SkipExtras.
Import Py Json App Spec LoaderFacts RoundTrip SkipFacts.

(** X16.  A line of the staging file that is blank, or that [json.loads]
    rejects once stripped, costs no other record: the reading loop of
    [main] returns what it returns for the text before the line followed by
    what it returns for the text after it, whatever these two texts hold. *)
Theorem bad_line_costs_nothing (before noise rest : str) :
  before = [] \/ (exists b, before = b ++ [10]) ->
  Forall (fun c => c <> 10 /\ c <> 13) noise ->
  strip noise = [] \/ (exists e, loads (strip noise) = Raise e) ->
  read_final (before ++ noise ++ 10 :: rest) = read_final before ++ read_final rest.
Proof.
  intros Hb Hn Hbad.
  assert (Hline : read_final (noise ++ 10 :: rest) = read_final rest).
  { rewrite !read_final_kept.
    rewrite (universal_newlines_line _ _ Hn), (readlines_line _ _ Hn).
    change (?l :: ?ls) with ([l] ++ ls). rewrite kept_app.
    unfold kept at 1. cbn [flat_map].
    rewrite (strip_snoc_space noise 10 eq_refl).
    destruct Hbad as [->|(e & He)]; [reflexivity|].
    destruct (strip noise); [reflexivity|]. now rewrite He. }
  destruct Hb as [->|(b & ->)]; [exact Hline|].
  now rewrite read_final_app, Hline.
Qed.

(** A malformed line between two whole lines. *)
Lemma bad_line_costs_nothing_witness :
  read_final
    (Examples.staged [Placeholder (lit "110624861001")] ++
     lit "{'student': {'hallticket': '1106" ++
     10 :: Examples.staged [Placeholder (lit "110624861003")]) =
  read_final (Examples.staged [Placeholder (lit "110624861001")]) ++
  read_final (Examples.staged [Placeholder (lit "110624861003")]).
Proof.
  apply bad_line_costs_nothing.
  - right. exists (removelast (Examples.staged [Placeholder (lit "110624861001")])).
    vm_compute. reflexivity.
  - repeat constructor; discriminate.
  - right. exists ValueError. vm_compute. reflexivity.
Defined.

End SkipExtras.

(* ================================================================= *)
(** * The cells the protection locks *)

Module ProtectFacts.
Import Py Openpyxl.

Lemma set_row_spec (r : nat) (v : bool) (cols : list nat) : forall ws,
  max_row (fold_left (fun ws c => set_locked r c v ws) cols ws) = max_row ws /\
  max_column (fold_left (fun ws c => set_locked r c v ws) cols ws) = max_column ws /\
  protection_sheet (fold_left (fun ws c => set_locked r c v ws) cols ws) = protection_sheet ws /\
  protection_password (fold_left (fun ws c => set_locked r c v ws) cols ws) = protection_password ws /\
  forall r' c',
    locked (fold_left (fun ws c => set_locked r c v ws) cols ws) r' c' =
      if (r' =? r)%nat && existsb (Nat.eqb c') cols then v else locked ws r' c'.
Proof.
  induction cols as [|c cols IH]; intros ws; cbn [fold_left existsb].
  - repeat split. intros r' c'. now rewrite andb_false_r.
  - destruct (IH (set_locked r c v ws)) as (H1 & H2 & H3 & H4 & H5).
    rewrite H1, H2, H3, H4. repeat split. intros r' c'. rewrite H5.
    cbn [set_locked locked].
    destruct (r' =? r)%nat; cbn [andb]; [|reflexivity].
    destruct (existsb (Nat.eqb c') cols); [now rewrite orb_true_r|].
    rewrite orb_false_r. reflexivity.
Qed.

Lemma set_cells_spec (cols : list nat) (v : bool) (rows : list nat) : forall ws,
  max_row (set_cells rows cols v ws) = max_row ws /\
  max_column (set_cells rows cols v ws) = max_column ws /\
  protection_sheet (set_cells rows cols v ws) = protection_sheet ws /\
  protection_password (set_cells rows cols v ws) = protection_password ws /\
  forall r' c',
    locked (set_cells rows cols v ws) r' c' =
      if existsb (Nat.eqb r') rows && existsb (Nat.eqb c') cols then v
      else locked ws r' c'.
Proof.
  unfold set_cells.
  induction rows as [|r rows IH]; intros ws; cbn [fold_left existsb].
  - repeat split.
  - destruct (IH (fold_left (fun ws c => set_locked r c v ws) cols ws))
      as (H1 & H2 & H3 & H4 & H5).
    destruct (set_row_spec r v cols ws) as (K1 & K2 & K3 & K4 & K5).
    rewrite H1, H2, H3, H4, K1, K2, K3, K4. repeat split. intros r' c'.
    rewrite H5, K5.
    destruct (r' =? r)%nat; cbn [orb andb].
    + destruct (existsb (Nat.eqb c') cols).
      * now rewrite andb_true_r; destruct (existsb (Nat.eqb r') rows).
      * now rewrite !andb_false_r.
    + reflexivity.
Qed.

Lemma in_range (a b x : nat) :
  existsb (Nat.eqb x) (nat_range a b) = (a <=? x)%nat && (x <? b)%nat.
Proof.
  unfold nat_range. destruct (existsb (Nat.eqb x) (seq a (b - a))) eqn:E.
  - apply existsb_exists in E. destruct E as (y & Hy & Hxy).
    apply Nat.eqb_eq in Hxy. subst y. apply in_seq in Hy.
    symmetry. apply andb_true_iff. split; [apply Nat.leb_le | apply Nat.ltb_lt]; lia.
  - symmetry. apply not_true_is_false. intros H. apply andb_true_iff in H.
    destruct H as [H1 H2]. apply Nat.leb_le in H1. apply Nat.ltb_lt in H2.
    assert (Hin : In x (seq a (b - a))) by (apply in_seq; lia).
    assert (Ht : existsb (Nat.eqb x) (seq a (b - a)) = true).
    { apply existsb_exists. exists x. split; [exact Hin | apply Nat.eqb_refl]. }
    congruence.
Qed.

End ProtectFacts.

Module ProtectExtras.
Import Py Openpyxl ProtectFacts.

(** X17.  Protecting the grades sheet with a password that is not empty
    keeps its dimensions, switches the protection of the sheet on, and
    leaves exactly the grade cells locked: a cell inside the used range is
    locked when it is neither in the header row nor in the hall-ticket
    column, and unlocked otherwise; a cell outside the used range keeps the
    flag it had.  With no password, or an empty one, the sheet stays as it
    is. *)
Theorem protect_locks_grade_cells (ws : Worksheet) :
  protect_grades None ws = ws /\
  protect_grades (Some []) ws = ws /\
  forall c0 pw,
    max_row (protect_grades (Some (c0 :: pw)) ws) = max_row ws /\
    max_column (protect_grades (Some (c0 :: pw)) ws) = max_column ws /\
    protection_sheet (protect_grades (Some (c0 :: pw)) ws) = true /\
    protection_password (protect_grades (Some (c0 :: pw)) ws) = Some (c0 :: pw) /\
    forall r c,
      locked (protect_grades (Some (c0 :: pw)) ws) r c =
        if (1 <=? r)%nat && (r <=? max_row ws)%nat &&
           ((1 <=? c)%nat && (c <=? max_column ws)%nat)
        then (2 <=? r)%nat && (2 <=? c)%nat
        else locked ws r c.
Proof.
  split; [reflexivity|]. split; [reflexivity|]. intros c0 pw.
  unfold protect_grades, protect. cbv zeta.
  cbn [max_row max_column protection_sheet protection_password locked].
  set (ws1 := set_cells (nat_range 1 (max_row ws + 1)) (nat_range 1 (max_column ws + 1)) false ws).
  destruct (set_cells_spec (nat_range 1 (max_column ws + 1)) false
              (nat_range 1 (max_row ws + 1)) ws)
    as (H1 & H2 & _ & _ & H5). fold ws1 in H1, H2, H5.
  destruct (set_cells_spec (nat_range 2 (max_column ws1 + 1)) true
              (nat_range 2 (max_row ws1 + 1)) ws1)
    as (K1 & K2 & _ & _ & K5).
  rewrite H1, H2 in K1, K2, K5. rewrite !H1, !H2, K1, K2. repeat split. intros r c.
  rewrite K5, H5, !in_range.
  destruct (Nat.leb_spec 1 r), (Nat.leb_spec r (max_row ws)), (Nat.leb_spec 1 c),
    (Nat.leb_spec c (max_column ws)), (Nat.leb_spec 2 r), (Nat.leb_spec 2 c),
    (Nat.ltb_spec r (max_row ws + 1)), (Nat.ltb_spec c (max_column ws + 1));
    cbn [andb]; try reflexivity; lia.
Qed.

End ProtectExtras.

(* ================================================================= *)
(** * The order of the rows the main run writes *)

Module MainOrderExtras.
Import Py Json Pandas Spec ListFacts FrameFacts PivotFacts OrderFacts SortFacts.
Import StandaloneFacts ConversionFacts.

Section Order.

Variable to_int : str -> option Z.

(** X18.  Whenever the final conversion of [main] returns, for any list of
    items: when the marks sheet has a row, the rows of the results sheet
    are in hall-ticket order (by the integer when every hall ticket
    converts, by the string otherwise); when the marks sheet has none, the
    results sheet is the table [pd.DataFrame] builds from the flattened
    rows, in the order of the staging file, not sorted. *)
Theorem main_rows_order (items : list item) (wb : Workbook) :
  App.final_conversion to_int items = Return wb ->
  exists results marks,
    sheet wb "results" = Some results /\
    sheet wb "marks" = Some marks /\
    (rows marks <> [] -> hallticket_sorted to_int results) /\
    (rows marks = [] ->
     exists results_rows marks_rows,
       App.rows_loop ([], []) items = Return (results_rows, marks_rows) /\
       results = DataFrame_of_records results_rows).
Proof.
  unfold App.final_conversion.
  destruct (App.rows_loop ([], []) items) as [[rr mr]|e] eqn:E; [|discriminate].
  cbn [bind fst snd]. cbv zeta.
  destruct (App.marks_frame mr) as [m|e] eqn:Em; cbn [bind]; [|discriminate].
  pose proof (marks_frame_columns mr m Em) as Hc.
  destruct (empty m) eqn:Ee; cbn [negb].
  - intros [= <-]. do 2 eexists. split; [reflexivity|]. split; [reflexivity|]. split.
    + intros Hne. exfalso. unfold empty in Ee. rewrite Hc in Ee.
      cbn [to_excel sheet] in Hne.
      destruct (rows m); [now apply Hne | discriminate].
    + intros _. exists rr, mr. split; reflexivity.
  - repeat match goal with
           | |- context [bind (reset_index ?p) _] =>
               let Eg := fresh "Eg" in
               destruct (reset_index p) as [?g|?e] eqn:Eg; cbn [bind]; [|discriminate]
           end.
    match goal with
    | |- context [bind (reindex ?d ?c) _] =>
        destruct (reindex d c) as [dr|?e] eqn:Er; cbn [bind]; [|discriminate]
    end.
    match goal with
    | |- context [bind (App.sort_by_hallticket to_int ?d) _] =>
        destruct (App.sort_by_hallticket to_int d) as [df'|?e] eqn:Es; cbn [bind];
          [|discriminate]
    end.
    intros [= <-].
    destruct (sort_by_hallticket_general to_int _ _ Es) as (_ & Hs & _).
    do 2 eexists. split; [reflexivity|]. split; [reflexivity|]. split.
    + intros _. exact Hs.
    + intros Hr. exfalso. unfold empty in Ee. rewrite Hc, Hr in Ee. discriminate.
Qed.

End Order.

(** The cohort of the examples has marks: its rows come out sorted. *)
Lemma main_rows_order_witness :
  exists wb results,
    App.final_conversion Examples.decimal_int (List.map to_item Examples.cohort) =
      Return wb /\
    sheet wb "results" = Some results /\
    hallticket_sorted Examples.decimal_int results.
Proof.
  destruct (App.final_conversion Examples.decimal_int (List.map to_item Examples.cohort))
    as [wb|e] eqn:E; [|vm_compute in E; discriminate E].
  destruct (main_rows_order Examples.decimal_int _ wb E)
    as (results & marks & Hs & Hm & Hsorted & _).
  exists wb, results. split; [reflexivity|]. split; [exact Hs|].
  apply Hsorted. intros Hr.
  vm_compute in E. injection E as <-. vm_compute in Hm. injection Hm as <-.
  discriminate Hr.
Defined.

End MainOrderExtras.
